(** * Risk-gated trading workflow: a shallow embedding of the backend

    The development follows the Python backend module by module:
    [backend/database] (the ledger), [backend/agents] (screening, debate,
    risk gate and execution), [backend/graph/trading_graph.py] (the
    per-ticker state machine), [backend/main.py] (the engine loop) and
    [backend/utils/locks.py] (the advisory lock).

    Conventions.
    - A Python call that may raise is a computation in the monad [M]: it
      threads the world (ledger, clock, orders sent to the broker) and
      ends in [Ok v] or [Raise e]; what was written before an exception
      stays written, as in Python.
    - External collaborators (reasoning oracle, broker, market data, the
      reads of articles and snapshots) are given by an environment record
      per stage: each field is the outcome of one call site.
    - Numbers are rationals: a Python float or Decimal is the rational it
      denotes; NaN and infinities are outside the model. *)

From Stdlib Require Import ZArith QArith List String Bool Lia DecimalString.
Import ListNotations.
Local Close Scope Q_scope.
Local Open Scope string_scope.
Local Open Scope list_scope.
Local Open Scope Z_scope.

Set Implicit Arguments.

(** ** Python values and exceptions *)

Module Py.

(** The outcome of a call: a value, or an exception carrying [str(e)]. *)
Inductive result (A : Type) : Type :=
| Ok (a : A)
| Raise (e : string).
Arguments Ok {A} a.
Arguments Raise {A} e.

(** A call site of the ledger that either goes through or raises. *)
Definition fault := option string.

(** What [json.loads] produces. *)
#[local] Unset Elimination Schemes.
Inductive json : Type :=
| JNull
| JBool (b : bool)
| JNum (q : Q)
| JStr (s : string)
| JArr (l : list json)
| JObj (kv : list (string * json)).
#[local] Set Elimination Schemes.

Definition dict := list (string * json).

(** [d.get(k)] *)
Fixpoint dict_get (d : dict) (k : string) : option json :=
  match d with
  | [] => None
  | (k', v) :: d' => if String.eqb k' k then Some v else dict_get d' k
  end.

(** [d.get(k, default)] *)
Definition dict_get_default (d : dict) (k : string) (default : json) : json :=
  match dict_get d k with
  | Some v => v
  | None => default
  end.

(** [d[k] = v] *)
Fixpoint dict_set (d : dict) (k : string) (v : json) : dict :=
  match d with
  | [] => [(k, v)]
  | (k', v') :: d' =>
      if String.eqb k' k then (k, v) :: d' else (k', v') :: dict_set d' k v
  end.

(** Truth value of an object in a condition. *)
Definition truthy (j : json) : bool :=
  match j with
  | JNull => false
  | JBool b => b
  | JNum q => negb (Qeq_bool q 0)
  | JStr s => negb (String.eqb s "")
  | JArr l => match l with [] => false | _ => true end
  | JObj kv => match kv with [] => false | _ => true end
  end.

(** [v == "literal"]: only a string equals a string. *)
Definition str_eq (j : json) (s : string) : bool :=
  match j with
  | JStr t => String.eqb t s
  | _ => false
  end.

(** [d.get(k) == "literal"], where a missing key gives [None]. *)
Definition get_is (d : dict) (k : string) (s : string) : bool :=
  match dict_get d k with
  | Some v => str_eq v s
  | None => false
  end.

(** [o.get(k)] on an arbitrary parsed document: [AttributeError] unless
    the document is an object. *)
Definition attr_get (j : json) (k : string) : result (option json) :=
  match j with
  | JObj kv => Ok (dict_get kv k)
  | JArr _ => Raise "'list' object has no attribute 'get'"
  | JStr _ => Raise "'str' object has no attribute 'get'"
  | JNum _ => Raise "'float' object has no attribute 'get'"
  | JBool _ => Raise "'bool' object has no attribute 'get'"
  | JNull => Raise "'NoneType' object has no attribute 'get'"
  end.

(** [x < 70] for a parsed value [x]: numbers compare, [True]/[False] count
    as 1/0, anything else is a [TypeError]. *)
Definition lt_70 (j : json) : result bool :=
  match j with
  | JNum q => Ok (negb (Qle_bool 70 q))
  | JBool _ => Ok true
  | _ => Raise "'<' not supported between instances"
  end.

(** The part of the Python runtime and of pydantic that the stages call
    and that is not written in the repository. *)
Class Runtime : Type := {
  (** [str(v)] of a value that is not a string, inside an f-string *)
  py_repr : json -> string;
  (** float product [price * quantity] *)
  float_mul : Q -> Z -> Q;
  (** [int(s)] of a string *)
  int_of_str : string -> result Z;
  (** pydantic's lax conversion to [int] of a value that is not a number *)
  lax_int : json -> result Z;
  (** pydantic's lax conversion to [float] of a value that is not a number *)
  lax_float : json -> result Q
}.

(** [f"{v}"] *)
Definition format_value {RT : Runtime} (j : json) : string :=
  match j with
  | JStr s => s
  | _ => py_repr j
  end.

Definition is_integral (q : Q) : bool :=
  (Qnum q mod Zpos (Qden q) =? 0).

(** [int(v)]: truncation of a number towards zero. *)
Definition py_int {RT : Runtime} (j : json) : result Z :=
  match j with
  | JNum q => Ok (Z.quot (Qnum q) (Zpos (Qden q)))
  | JBool b => Ok (if b then 1 else 0)
  | JStr s => int_of_str s
  | _ => Raise "int() argument must be a string or a real number"
  end.

(** A pydantic field of type [int]. *)
Definition validate_int {RT : Runtime} (j : json) : result Z :=
  match j with
  | JNum q =>
      if is_integral q then Ok (Qnum q / Zpos (Qden q))
      else Raise "Input should be a valid integer, got a number with a fractional part"
  | _ => lax_int j
  end.

(** A pydantic field of type [str]. *)
Definition validate_str (j : json) : result string :=
  match j with
  | JStr s => Ok s
  | _ => Raise "Input should be a valid string"
  end.

End Py.
Export Py.

Notation "x <- c ;; k" :=
  (match c with Ok x => k | Raise e => Raise e end)
  (at level 61, c at next level, right associativity, only parsing).

(** ** Data model ([backend/database/models.py]) *)

Module Models.

(** [action: str = Field(..., pattern="^(BUY|SELL|HOLD)$")] *)
Inductive Action := BUY | SELL | HOLD.

(** [status: str = Field(default="PENDING",
    pattern="^(PENDING|APPROVED|REJECTED|EXECUTED)$")] *)
Inductive Status := PENDING | APPROVED | REJECTED | EXECUTED.

(** [ExecutedTrade.status], pattern [^(FILLED|PARTIAL|CANCELLED|REJECTED)$] *)
Inductive FillStatus := FILLED | PARTIAL | CANCELLED | FILL_REJECTED.

Definition action_eqb (a b : Action) : bool :=
  match a, b with
  | BUY, BUY | SELL, SELL | HOLD, HOLD => true
  | _, _ => false
  end.

Definition action_name (a : Action) : string :=
  match a with BUY => "BUY" | SELL => "SELL" | HOLD => "HOLD" end.

(** The pattern check of [TradeProposal.action]. *)
Definition validate_action (j : json) : result Action :=
  match j with
  | JStr s =>
      if String.eqb s "BUY" then Ok BUY
      else if String.eqb s "SELL" then Ok SELL
      else if String.eqb s "HOLD" then Ok HOLD
      else Raise "String should match pattern '^(BUY|SELL|HOLD)$'"
  | _ => Raise "Input should be a valid string"
  end.

(** [confidence_score: Optional[float] = Field(None, ge=0, le=100)] *)
Definition validate_confidence {RT : Runtime} (j : json) : result (option Q) :=
  match j with
  | JNull => Ok None
  | _ =>
      c <- match j with JNum q => Ok q | _ => lax_float j end ;;
      if Qle_bool 0 c && Qle_bool c 100 then Ok (Some c)
      else Raise "Input should be greater than or equal to 0 and less than or equal to 100"
  end.

(** class [TradeProposal] *)
Record TradeProposal : Type := {
  tp_id : option Z;
  tp_ticker : string;
  tp_action : Action;
  tp_quantity : Z;
  tp_proposed_price : option Q;
  tp_reasoning : string;
  tp_confidence_score : option Q;
  tp_analysis_event_id : option Z;
  tp_debate_id : option Z;
  tp_status : Status
}.

(** class [ExecutedTrade]; [et_executed_at] is the column the ledger fills in. *)
Record ExecutedTrade : Type := {
  et_id : option Z;
  et_trade_proposal_id : option Z;
  et_ticker : string;
  et_action : Action;
  et_quantity : Z;
  et_execution_price : Q;
  et_alpaca_order_id : string;
  et_portfolio_manager_reasoning : option string;
  et_executed_at : option Z;
  et_status : FillStatus
}.

(** class [AnalysisEvent] *)
Record AnalysisEvent : Type := {
  ae_id : option Z;
  ae_ticker : string;
  ae_event_type : string;
  ae_reasoning : string;
  ae_output_data : dict;
  ae_agent_name : string
}.

(** class [Debate] *)
Record Debate : Type := {
  db_id : option Z;
  db_ticker : string;
  db_bull_argument : string;
  db_bear_argument : string;
  db_final_consensus : option string;
  db_trader_agent_id : option Z
}.

(** A row of [stock_snapshots] as the stages read it. *)
Record Snapshot : Type := {
  sn_price : Q
}.

(** A row of [articles_cleaned] as the stages read it. *)
Record Article : Type := {
  ar_title : string;
  ar_content_text : option string
}.

(** The dictionaries built by [AlpacaClient]. *)
Record Account : Type := {
  ac_cash : Q;
  ac_portfolio_value : Q;
  ac_buying_power : Q;
  ac_equity : Q
}.

Record Position : Type := {
  ps_symbol : string;
  ps_qty : Q;
  ps_avg_entry_price : Q;
  ps_current_price : Q;
  ps_market_value : Q;
  ps_unrealized_pl : Q
}.

(** The arguments of one [AlpacaClient.submit_order] call. *)
Record OrderRequest : Type := {
  or_symbol : json;
  or_qty : json;
  or_side : string
}.

(** The dictionary [submit_order] returns; [od_price] is [None] when the
    broker reports no fill price. *)
Record Order : Type := {
  od_id : string;
  od_price : option Q
}.

End Models.
Export Models.

(** ** The ledger ([backend/database/client.py]) and the world *)

Module Ledger.

(** The four tables the workflow writes. A row keeps the model object with
    its [id] filled in; ids are handed out in insertion order. *)
Record t : Type := {
  events : list AnalysisEvent;
  debates : list Debate;
  proposals : list TradeProposal;
  trades : list ExecutedTrade
}.

Definition empty : t :=
  {| events := []; debates := []; proposals := []; trades := [] |}.

Definition next_id {A : Type} (rows : list A) : Z :=
  Z.of_nat (List.length rows) + 1.

Definition set_tp_id (i : Z) (p : TradeProposal) : TradeProposal :=
  {| tp_id := Some i; tp_ticker := tp_ticker p; tp_action := tp_action p;
     tp_quantity := tp_quantity p; tp_proposed_price := tp_proposed_price p;
     tp_reasoning := tp_reasoning p;
     tp_confidence_score := tp_confidence_score p;
     tp_analysis_event_id := tp_analysis_event_id p;
     tp_debate_id := tp_debate_id p; tp_status := tp_status p |}.

Definition set_tp_status (s : Status) (p : TradeProposal) : TradeProposal :=
  {| tp_id := tp_id p; tp_ticker := tp_ticker p; tp_action := tp_action p;
     tp_quantity := tp_quantity p; tp_proposed_price := tp_proposed_price p;
     tp_reasoning := tp_reasoning p;
     tp_confidence_score := tp_confidence_score p;
     tp_analysis_event_id := tp_analysis_event_id p;
     tp_debate_id := tp_debate_id p; tp_status := s |}.

Definition stamp_trade (i at_ : Z) (x : ExecutedTrade) : ExecutedTrade :=
  {| et_id := Some i; et_trade_proposal_id := et_trade_proposal_id x;
     et_ticker := et_ticker x; et_action := et_action x;
     et_quantity := et_quantity x; et_execution_price := et_execution_price x;
     et_alpaca_order_id := et_alpaca_order_id x;
     et_portfolio_manager_reasoning := et_portfolio_manager_reasoning x;
     et_executed_at := Some at_; et_status := et_status x |}.

Definition set_ae_id (i : Z) (e : AnalysisEvent) : AnalysisEvent :=
  {| ae_id := Some i; ae_ticker := ae_ticker e; ae_event_type := ae_event_type e;
     ae_reasoning := ae_reasoning e; ae_output_data := ae_output_data e;
     ae_agent_name := ae_agent_name e |}.

Definition set_db_id (i : Z) (d : Debate) : Debate :=
  {| db_id := Some i; db_ticker := db_ticker d;
     db_bull_argument := db_bull_argument d;
     db_bear_argument := db_bear_argument d;
     db_final_consensus := db_final_consensus d;
     db_trader_agent_id := db_trader_agent_id d |}.

Definition id_is (i : option Z) (j : option Z) : bool :=
  match i, j with
  | Some a, Some b => (a =? b)
  | _, _ => false
  end.

(** [UPDATE trade_proposals SET status = %s WHERE id = %s]; a [NULL] id
    matches no row. *)
Definition set_status (i : option Z) (s : Status) (l : t) : t :=
  {| events := events l; debates := debates l;
     proposals :=
       map (fun p => if id_is (tp_id p) i then set_tp_status s p else p)
           (proposals l);
     trades := trades l |}.

(** The status column of the row with the given id. *)
Definition status_of (l : t) (i : option Z) : option Status :=
  match find (fun p => id_is (tp_id p) i) (proposals l) with
  | Some p => Some (tp_status p)
  | None => None
  end.

Definition add_event (e : AnalysisEvent) (l : t) : t :=
  {| events := events l ++ [set_ae_id (next_id (events l)) e];
     debates := debates l; proposals := proposals l; trades := trades l |}.

Definition add_debate (d : Debate) (l : t) : t :=
  {| events := events l;
     debates := debates l ++ [set_db_id (next_id (debates l)) d];
     proposals := proposals l; trades := trades l |}.

Definition add_proposal (p : TradeProposal) (l : t) : t :=
  {| events := events l; debates := debates l;
     proposals := proposals l ++ [set_tp_id (next_id (proposals l)) p];
     trades := trades l |}.

Definition add_trade (at_ : Z) (x : ExecutedTrade) (l : t) : t :=
  {| events := events l; debates := debates l; proposals := proposals l;
     trades := trades l ++ [stamp_trade (next_id (trades l)) at_ x] |}.

(** The clock counts milliseconds. *)
Definition ms_per_day : Z := 86400000.

(** [datetime.utcnow().replace(hour=0, minute=0, second=0, microsecond=0)] *)
Definition today_start (now : Z) : Z :=
  ms_per_day * (now / ms_per_day).

(** The calendar day (UTC) of an instant. *)
Definition day_of (now : Z) : Z := now / ms_per_day.

(** [executed_at >= since]; a [NULL] column satisfies no comparison. *)
Definition at_or_after (since : Z) (at_ : option Z) : bool :=
  match at_ with
  | Some x => (since <=? x)
  | None => false
  end.

Definition on_day (d : Z) (at_ : option Z) : bool :=
  match at_ with
  | Some x => (day_of x =? d)
  | None => false
  end.

(** [SELECT * FROM executed_trades WHERE [ticker = %s AND] executed_at >= %s
    ORDER BY executed_at DESC]. Rows are stamped by a clock that never
    runs backwards, so the newest row is the last inserted. *)
Definition recent_trades (l : t) (ticker : option string) (since : Z)
  : list ExecutedTrade :=
  rev (filter
         (fun x =>
            at_or_after since (et_executed_at x) &&
            match ticker with
            | Some s => String.eqb (et_ticker x) s
            | None => true
            end)
         (trades l)).

(** [SELECT COUNT( * ) FROM executed_trades WHERE executed_at >= %s],
    then [count > 0]. *)
Definition traded_since (l : t) (since : Z) : bool :=
  (0 <? Z.of_nat (List.length
                    (filter (fun x => at_or_after since (et_executed_at x))
                            (trades l)))).

(** The rows whose [executed_at] falls on calendar day [d]. *)
Definition trades_on (l : t) (d : Z) : list ExecutedTrade :=
  filter (fun x => on_day d (et_executed_at x)) (trades l).

End Ledger.

(** A statement on the advisory lock, as the database receives it. *)
Inductive LockCall : Type :=
| TryLock (key : Z)
| Unlock (key : Z).

(** The world a stage runs in: the Postgres database (ledger tables,
    advisory lock, open sessions), the wall clock, the broker and the
    warnings written to the log. *)
Record World : Type := {
  ledger : Ledger.t;
  (** milliseconds since the epoch, UTC *)
  clock : Z;
  (** every [submit_order] call made so far, oldest first *)
  orders : list OrderRequest;
  (** the session holding the advisory lock, if any *)
  lock_holder : option nat;
  (** the sessions opened by [GlobalPromptLock._connect] and not closed *)
  sessions : list nat;
  (** [logger.warning] lines, oldest first *)
  warnings : list string;
  (** the advisory-lock statements executed so far, each with the session
      that sent it, oldest first *)
  lock_calls : list (nat * LockCall)
}.

Definition with_ledger (f : Ledger.t -> Ledger.t) (w : World) : World :=
  {| ledger := f (ledger w); clock := clock w; orders := orders w;
     lock_holder := lock_holder w; sessions := sessions w;
     warnings := warnings w; lock_calls := lock_calls w |}.

Definition with_clock (f : Z -> Z) (w : World) : World :=
  {| ledger := ledger w; clock := f (clock w); orders := orders w;
     lock_holder := lock_holder w; sessions := sessions w;
     warnings := warnings w; lock_calls := lock_calls w |}.

Definition with_orders (f : list OrderRequest -> list OrderRequest) (w : World)
  : World :=
  {| ledger := ledger w; clock := clock w; orders := f (orders w);
     lock_holder := lock_holder w; sessions := sessions w;
     warnings := warnings w; lock_calls := lock_calls w |}.

Definition with_lock_holder (f : option nat -> option nat) (w : World) : World :=
  {| ledger := ledger w; clock := clock w; orders := orders w;
     lock_holder := f (lock_holder w); sessions := sessions w;
     warnings := warnings w; lock_calls := lock_calls w |}.

Definition with_sessions (f : list nat -> list nat) (w : World) : World :=
  {| ledger := ledger w; clock := clock w; orders := orders w;
     lock_holder := lock_holder w; sessions := f (sessions w);
     warnings := warnings w; lock_calls := lock_calls w |}.

Definition with_warning (line : string) (w : World) : World :=
  {| ledger := ledger w; clock := clock w; orders := orders w;
     lock_holder := lock_holder w; sessions := sessions w;
     warnings := warnings w ++ [line]; lock_calls := lock_calls w |}.

Definition with_lock_call (session : nat) (call : LockCall) (w : World) : World :=
  {| ledger := ledger w; clock := clock w; orders := orders w;
     lock_holder := lock_holder w; sessions := sessions w;
     warnings := warnings w;
     lock_calls := lock_calls w ++ [(session, call)] |}.

(** ** Computations that may raise *)

Definition M (A : Type) : Type := World -> result A * World.

Definition ret {A : Type} (a : A) : M A := fun w => (Ok a, w).

Definition raise {A : Type} (e : string) : M A := fun w => (Raise e, w).

Definition lift {A : Type} (r : result A) : M A := fun w => (r, w).

Definition bind {A B : Type} (c : M A) (k : A -> M B) : M B :=
  fun w =>
    match c w with
    | (Ok a, w') => k a w'
    | (Raise e, w') => (Raise e, w')
    end.

(** [try: c  except Exception as e: h e] *)
Definition try_except {A : Type} (c : M A) (h : string -> M A) : M A :=
  fun w =>
    match c w with
    | (Ok a, w') => (Ok a, w')
    | (Raise e, w') => h e w'
    end.

Notation "'let*' x ':=' c 'in' k" := (bind c (fun x => k))
  (at level 10, x name, c at level 100, k at level 200).
Notation "c1 ';;;' c2" := (bind c1 (fun _ => c2))
  (at level 100, c2 at level 200, right associativity).

(** [time.sleep] for [n] milliseconds; also the time an external call takes. *)
Definition sleep (n : N) : M unit :=
  fun w => (Ok tt, with_clock (fun t => t + Z.of_N n) w).

(** A ledger statement: it raises, or it runs. *)
Definition statement (f : fault) (run : Ledger.t -> Ledger.t) : M unit :=
  fun w =>
    match f with
    | Some e => (Raise e, w)
    | None => (Ok tt, with_ledger run w)
    end.

(** [DatabaseClient.update_proposal_status] *)
Definition update_proposal_status (f : fault) (i : option Z) (s : Status)
  : M unit :=
  statement f (Ledger.set_status i s).

(** [DatabaseClient.save_executed_trade].
    Modelled from the spec: the table definition of [executed_trades] is
    not in the repository; the INSERT leaves [executed_at] to the
    database, taken here to be the instant of the INSERT. *)
Definition save_executed_trade (f : fault) (x : ExecutedTrade) : M Z :=
  fun w =>
    match f with
    | Some e => (Raise e, w)
    | None =>
        (Ok (Ledger.next_id (Ledger.trades (ledger w))),
         with_ledger (Ledger.add_trade (clock w) x) w)
    end.

(** [DatabaseClient.get_recent_trades(ticker, days)] *)
Definition get_recent_trades (f : fault) (ticker : option string) (days : Z)
  : M (list ExecutedTrade) :=
  fun w =>
    match f with
    | Some e => (Raise e, w)
    | None =>
        (Ok (Ledger.recent_trades (ledger w) ticker
               (clock w - days * Ledger.ms_per_day)), w)
    end.

(** [DatabaseClient.has_traded_today] *)
Definition has_traded_today (f : fault) : M bool :=
  fun w =>
    match f with
    | Some e => (Raise e, w)
    | None => (Ok (Ledger.traded_since (ledger w) (Ledger.today_start (clock w))), w)
    end.

(** [AlpacaClient.submit_order], as its caller sees it: one call, and
    the answer or the exception it ends with once its retries are over.
    [orders] counts the calls; what one call posts on the wire is the
    subject of the client's own model. *)
Definition submit_order (broker : OrderRequest -> result Order)
  (req : OrderRequest) : M Order :=
  fun w =>
    (broker req, with_orders (fun sent => sent ++ [req]) w).

(** ** The reasoning oracle ([backend/clients/llm_client.py]) *)

(** The text of a chat completion, as [json.loads] sees it: it does not
    parse, or it encodes a document. [LLMClient.chat_completion] itself
    returns the text or raises (an empty answer raises [ValueError]). *)
Inductive text : Type :=
| Malformed (e : string)
| Encodes (j : json).

(** [json.loads(response)] *)
Definition json_loads (response : text) : result json :=
  match response with
  | Malformed e => Raise e
  | Encodes j => Ok j
  end.

Definition truthy_opt (o : option json) : bool :=
  match o with
  | Some j => truthy j
  | None => false
  end.

(** [a > b] on floats *)
Definition Qgt_bool (a b : Q) : bool := negb (Qle_bool a b).

(** ** The risk gate and the execution stage
    ([backend/agents/portfolio_manager_agent.py]) *)

Module PortfolioManager.

(** The [context] dictionary of [review_proposal]. *)
Record ReviewContext : Type := {
  rc_proposal : TradeProposal;
  rc_account : Account;
  rc_current_position : option Position;
  rc_positions : list Position;
  rc_recent_trades : list ExecutedTrade;
  rc_needs_buying_power : bool;
  rc_required_cash : Q
}.

(** One entry of [position_data] in [_evaluate_position_to_sell]. *)
Record PositionData : Type := {
  pd_position : Position;
  pd_recent_articles_count : nat;
  pd_headlines : list string
}.

(** The [context] dictionary of [_evaluate_position_to_sell]. *)
Record RebalanceContext : Type := {
  rb_proposed_trade : TradeProposal;
  rb_required_cash : Q;
  rb_current_positions : list PositionData
}.

(** What the collaborators answer during one [review_proposal]. *)
Record ReviewEnv : Type := {
  (** time taken by the broker calls before the ledger is read *)
  rv_latency : N;
  rv_account : result Account;
  rv_positions : result (list Position);
  (** [db.get_recent_trades(days=7)] *)
  rv_recent_trades : fault;
  (** [db.get_latest_snapshot(proposal.ticker)] *)
  rv_snapshot : result (option Snapshot);
  rv_llm : ReviewContext -> result text
}.

(** The ledger statements of [execute_trade], by the place they stand. *)
Inductive ExecSite :=
| AtNotApproved     (* update_proposal_status, decision is not APPROVE *)
| AtPositionGone    (* update_proposal_status, position to sell is gone *)
| AtChanged         (* update_proposal_status, confirmation names another *)
| AtSaveTrade       (* save_executed_trade *)
| AtExecuted        (* update_proposal_status, EXECUTED *)
| AtHandler.        (* update_proposal_status, in the except clause *)

(** What the collaborators answer during one [execute_trade]. *)
Record ExecEnv : Type := {
  (** time taken before the first ledger statement *)
  ex_latency : N;
  ex_ledger : ExecSite -> fault;
  ex_account : result Account;
  ex_snapshot : result (option Snapshot);
  ex_positions : result (list Position);
  (** per held symbol: [db.get_latest_snapshot] then
      [db.get_recent_articles(ticker=symbol, hours=24)] *)
  ex_position_news : string -> result (list Article);
  ex_confirm : RebalanceContext -> result text;
  ex_broker : OrderRequest -> result Order
}.

Section Agent.
Context {RT : Runtime}.

(** [float(proposal.proposed_price) if proposal.proposed_price else 0.0] *)
Definition proposed_price_or_zero (proposal : TradeProposal) : Q :=
  match tp_proposed_price proposal with
  | Some x => x
  | None => 0%Q
  end.

(** [proposal.confidence_score or 0] *)
Definition confidence_or_zero (proposal : TradeProposal) : Q :=
  match tp_confidence_score proposal with
  | Some c => c
  | None => 0%Q
  end.

(** [json.dumps] of a context holding rows of [executed_trades]: a row
    carries its [executed_at] as a [datetime], for which [json.dumps] has
    no encoder, so any row makes it raise [TypeError]. *)
Definition json_dumps_rows (rows : list ExecutedTrade) : result unit :=
  match rows with
  | [] => Ok tt
  | _ :: _ => Raise "Object of type datetime is not JSON serializable"
  end.

(** Both branches after [json.loads] call [decision.get]: the confidence
    test when the score is low, the log line in any case. *)
Definition as_object (j : json) : result dict :=
  match j with
  | JObj kv => Ok kv
  | _ => v <- attr_get j "decision" ;; Ok []
  end.

Definition low_confidence_note (confidence_score : Q) (decision : dict) : string :=
  format_value (dict_get_default decision "reasoning" (JStr ""))
  ++ " [Rejected: Confidence " ++ format_value (JNum confidence_score)
  ++ " < 70 required]".

(** The block under [if proposal.action == "BUY" and proposal.quantity > 0]:
    [(needs_buying_power, required_cash)]. *)
Definition buying_power_check (env : ReviewEnv) (proposal : TradeProposal)
  (account : Account) (current_position : option Position) : M (bool * Q) :=
  if action_eqb (tp_action proposal) BUY && (0 <? tp_quantity proposal) then
    let price := proposed_price_or_zero proposal in
    let price :=
      match current_position with
      | Some pos => if Qeq_bool price 0 then ps_current_price pos else price
      | None => price
      end in
    let* price :=
      if Qeq_bool price 0 then
        let* snapshot := lift (rv_snapshot env) in
        ret (match snapshot with Some s => sn_price s | None => price end)
      else ret price in
    let required_cash := float_mul price (tp_quantity proposal) in
    ret (Qgt_bool required_cash (ac_buying_power account), required_cash)
  else ret (false, 0%Q).

(** From the prompt to the decision: [json.dumps(context)], the oracle,
    [json.loads], and the confidence floor. *)
Definition decide (env : ReviewEnv) (proposal : TradeProposal)
  (context : ReviewContext) : M dict :=
  let* _ := lift (json_dumps_rows (rc_recent_trades context)) in
  let* response := lift (rv_llm env context) in
  let* parsed := lift (json_loads response) in
  let* decision := lift (as_object parsed) in
  let confidence_score := confidence_or_zero proposal in
  if Qgt_bool 70 confidence_score && get_is decision "decision" "APPROVE" then
    ret (dict_set (dict_set decision "decision" (JStr "REJECT"))
                  "reasoning"
                  (JStr (low_confidence_note confidence_score decision)))
  else ret decision.

(** The body of the [try] in [review_proposal]. *)
Definition review_body (env : ReviewEnv) (proposal : TradeProposal) : M dict :=
  sleep (rv_latency env) ;;;
  let* account := lift (rv_account env) in
  let* positions := lift (rv_positions env) in
  let* recent_trades := get_recent_trades (rv_recent_trades env) None 7 in
  let current_position :=
    find (fun pos => String.eqb (ps_symbol pos) (tp_ticker proposal)) positions in
  let* cash := buying_power_check env proposal account current_position in
  decide env proposal
    {| rc_proposal := proposal; rc_account := account;
       rc_current_position := current_position; rc_positions := positions;
       rc_recent_trades := firstn 10 recent_trades;
       rc_needs_buying_power := fst cash; rc_required_cash := snd cash |}.

(** [PortfolioManagerAgent.review_proposal] *)
Definition review_proposal (env : ReviewEnv) (proposal : TradeProposal) : M dict :=
  try_except (review_body env proposal)
    (fun e => ret [("decision", JStr "REJECT");
                   ("reasoning", JStr ("Review failed: " ++ e))]).

(** The loop of [_evaluate_position_to_sell] over the held positions; the
    two ledger reads of an entry are outside any [try]. *)
Fixpoint gather_position_data (env : ExecEnv) (ticker : string)
  (positions : list Position) : result (list PositionData) :=
  match positions with
  | [] => Ok []
  | pos :: rest =>
      if String.eqb (ps_symbol pos) ticker then
        gather_position_data env ticker rest
      else
        recent_articles <- ex_position_news env (ps_symbol pos) ;;
        more <- gather_position_data env ticker rest ;;
        Ok ({| pd_position := pos;
               pd_recent_articles_count := List.length recent_articles;
               pd_headlines := map ar_title (firstn 5 recent_articles) |}
            :: more)
  end.

(** The [try] of [_evaluate_position_to_sell]: the confirmation call. *)
Definition confirmation (env : ExecEnv) (context : RebalanceContext)
  : result (option dict) :=
  response <- ex_confirm env context ;;
  evaluation <- json_loads response ;;
  should_rebalance <- attr_get evaluation "should_rebalance" ;;
  if truthy_opt should_rebalance then
    position_to_sell <- attr_get evaluation "position_to_sell" ;;
    if truthy_opt position_to_sell then
      sell_quantity <- attr_get evaluation "sell_quantity" ;;
      reasoning <- attr_get evaluation "reasoning" ;;
      Ok (Some [("ticker", match position_to_sell with Some v => v | None => JNull end);
                ("quantity", match sell_quantity with Some v => v | None => JNum 0 end);
                ("reasoning", match reasoning with Some v => v | None => JStr "" end)])
    else Ok None
  else Ok None.

(** [PortfolioManagerAgent._evaluate_position_to_sell]; it reads and asks,
    and writes nothing. *)
Definition _evaluate_position_to_sell (env : ExecEnv) (proposal : TradeProposal)
  (positions : list Position) (required_cash : Q) : result (option dict) :=
  match positions with
  | [] => Ok None
  | _ :: _ =>
      position_data <- gather_position_data env (tp_ticker proposal) positions ;;
      match position_data with
      | [] => Ok None
      | _ :: _ =>
          let context :=
            {| rb_proposed_trade := proposal; rb_required_cash := required_cash;
               rb_current_positions := position_data |} in
          match confirmation env context with
          | Ok r => Ok r
          | Raise _ => Ok None
          end
      end
  end.

(** How the rebalancing block of [execute_trade] ends. *)
Inductive Rebalance :=
| Proceed     (* go on to the main order *)
| Abandon.    (* the proposal was rejected; [execute_trade] returns None *)

(** [rebalance_decision["ticker"] == position_to_sell]; at this point
    [position_to_sell] has compared equal to the symbol of a held
    position, which is a string. *)
Definition names_target (rebalance_decision : dict) (position_to_sell : json)
  : bool :=
  match position_to_sell with
  | JStr symbol => get_is rebalance_decision "ticker" symbol
  | _ => false
  end.

(** The rebalancing sell: [submit_order], then [time.sleep(2)]. *)
Definition sell_to_rebalance (env : ExecEnv) (position_to_sell sell_quantity : json)
  : M unit :=
  let* qty := lift (py_int sell_quantity) in
  let* sell_order :=
    submit_order (ex_broker env)
      {| or_symbol := position_to_sell; or_qty := JNum (inject_Z qty); or_side := "SELL" |} in
  sleep 2000.

(** [required_cash] as [execute_trade] recomputes it: the proposed price,
    or the latest snapshot's when there is none, times the quantity. *)
Definition required_cash_now (env : ExecEnv) (proposal : TradeProposal) : result Q :=
  let price := proposed_price_or_zero proposal in
  price <- (if Qeq_bool price 0 then
              snapshot <- ex_snapshot env ;;
              Ok (match snapshot with Some s => sn_price s | None => price end)
            else Ok price) ;;
  Ok (float_mul price (tp_quantity proposal)).

(** [any(pos["symbol"] == position_to_sell for pos in positions)] *)
Definition position_exists (positions : list Position) (position_to_sell : json)
  : bool :=
  existsb (fun pos => str_eq position_to_sell (ps_symbol pos)) positions.

(** The block guarded by
    [if position_to_sell and sell_quantity and proposal.action == "BUY"]. *)
Definition rebalance_block (env : ExecEnv) (proposal : TradeProposal)
  (decision : dict) : M Rebalance :=
  let position_to_sell := dict_get decision "position_to_sell" in
  let sell_quantity := dict_get decision "sell_quantity" in
  match position_to_sell, sell_quantity with
  | Some target, Some amount =>
      if truthy target && truthy amount && action_eqb (tp_action proposal) BUY then
        let* account := lift (ex_account env) in
        let* required_cash := lift (required_cash_now env proposal) in
        if Qgt_bool required_cash (ac_buying_power account) then
          let* positions := lift (ex_positions env) in
          if negb (position_exists positions target) then
            update_proposal_status (ex_ledger env AtPositionGone)
              (tp_id proposal) REJECTED ;;;
            ret Abandon
          else
            let* rebalance_decision :=
              lift (_evaluate_position_to_sell env proposal positions required_cash) in
            match rebalance_decision with
            | Some r =>
                if names_target r target then
                  sell_to_rebalance env target amount ;;; ret Proceed
                else
                  update_proposal_status (ex_ledger env AtChanged)
                    (tp_id proposal) REJECTED ;;;
                  ret Abandon
            | None =>
                sell_to_rebalance env target amount ;;; ret Proceed
            end
        else ret Proceed
      else ret Proceed
  | _, _ => ret Proceed
  end.

(** [portfolio_manager_reasoning: Optional[str]] *)
Definition validate_opt_str (o : option json) : result (option string) :=
  match o with
  | None | Some JNull => Ok None
  | Some j => s <- validate_str j ;; Ok (Some s)
  end.

(** The constructor call [ExecutedTrade(...)] with pydantic's checks. *)
Definition make_executed_trade (proposal : TradeProposal) (quantity : json)
  (execution_price : Q) (order : Order) (decision : dict)
  : result ExecutedTrade :=
  action <- match tp_action proposal with
            | HOLD => Raise "String should match pattern '^(BUY|SELL)$'"
            | a => Ok a
            end ;;
  qty <- validate_int quantity ;;
  reasoning <- validate_opt_str (dict_get decision "reasoning") ;;
  Ok {| et_id := None; et_trade_proposal_id := tp_id proposal;
        et_ticker := tp_ticker proposal; et_action := action;
        et_quantity := qty; et_execution_price := execution_price;
        et_alpaca_order_id := od_id order;
        et_portfolio_manager_reasoning := reasoning;
        et_executed_at := None; et_status := FILLED |}.

Definition set_et_id (i : Z) (x : ExecutedTrade) : ExecutedTrade :=
  {| et_id := Some i; et_trade_proposal_id := et_trade_proposal_id x;
     et_ticker := et_ticker x; et_action := et_action x;
     et_quantity := et_quantity x; et_execution_price := et_execution_price x;
     et_alpaca_order_id := et_alpaca_order_id x;
     et_portfolio_manager_reasoning := et_portfolio_manager_reasoning x;
     et_executed_at := et_executed_at x; et_status := et_status x |}.

(** [decision.get("adjusted_quantity", proposal.quantity)] *)
Definition order_quantity (proposal : TradeProposal) (decision : dict) : json :=
  dict_get_default decision "adjusted_quantity"
    (JNum (inject_Z (tp_quantity proposal))).

(** The arguments of the main [submit_order] call. *)
Definition main_request (proposal : TradeProposal) (decision : dict)
  : OrderRequest :=
  {| or_symbol := JStr (tp_ticker proposal);
     or_qty := order_quantity proposal decision;
     or_side := action_name (tp_action proposal) |}.

(** [Decimal(str(order.get("price", 0)))], then the fallback to the
    proposed price. The dictionary of [submit_order] always has the key
    [price], so [None] reaches [Decimal("None")], which raises
    [InvalidOperation]. *)
Definition execution_price_of (proposal : TradeProposal) (order : Order)
  : result Q :=
  execution_price <- match od_price order with
                     | Some x => Ok x
                     | None => Raise "[<class 'decimal.ConversionSyntax'>]"
                     end ;;
  Ok match tp_proposed_price proposal with
     | Some pp =>
         if Qeq_bool execution_price 0 && negb (Qeq_bool pp 0) then pp
         else execution_price
     | None => execution_price
     end.

(** The main order and the bookkeeping that follows it. *)
Definition main_trade (env : ExecEnv) (proposal : TradeProposal)
  (decision : dict) : M (option ExecutedTrade) :=
  let quantity := order_quantity proposal decision in
  let* order := submit_order (ex_broker env) (main_request proposal decision) in
  let* execution_price := lift (execution_price_of proposal order) in
  let* executed_trade :=
    lift (make_executed_trade proposal quantity execution_price order decision) in
  let* trade_id := save_executed_trade (ex_ledger env AtSaveTrade) executed_trade in
  update_proposal_status (ex_ledger env AtExecuted) (tp_id proposal) EXECUTED ;;;
  ret (Some (set_et_id trade_id executed_trade)).

(** [PortfolioManagerAgent.execute_trade] *)
Definition execute_trade (env : ExecEnv) (proposal : TradeProposal)
  (decision : dict) : M (option ExecutedTrade) :=
  sleep (ex_latency env) ;;;
  if negb (get_is decision "decision" "APPROVE") then
    update_proposal_status (ex_ledger env AtNotApproved) (tp_id proposal) REJECTED ;;;
    ret None
  else
    try_except
      (let* outcome := rebalance_block env proposal decision in
       match outcome with
       | Abandon => ret None
       | Proceed => main_trade env proposal decision
       end)
      (fun e =>
         update_proposal_status (ex_ledger env AtHandler) (tp_id proposal) REJECTED ;;;
         ret None).

End Agent.
End PortfolioManager.

(** ** Screening ([backend/agents/trader_agent.py]) *)

Module Trader.

(** The [context] dictionary of [analyze_ticker]: headlines only. *)
Record ScreeningContext : Type := {
  sx_ticker : string;
  sx_current_price : option Q;
  sx_recent_headlines_count : nat;
  sx_headlines : list string
}.

(** What the collaborators answer during one [analyze_ticker]. *)
Record ScreenEnv : Type := {
  (** [db.get_recent_articles(ticker=ticker, hours=24)] *)
  sc_articles : result (list Article);
  (** [db.get_latest_snapshot(ticker)] *)
  sc_snapshot : result (option Snapshot);
  (** when there is none: [finnhub.get_stock_snapshot], [StockSnapshot(...)],
      [db.save_stock_snapshot] and the second [db.get_latest_snapshot] *)
  sc_refetch : result (option Snapshot);
  sc_llm : ScreeningContext -> result text;
  (** [db.save_analysis_event] *)
  sc_save_event : fault
}.

(** The dictionary [analyze_ticker] returns. *)
Record AnalysisResult : Type := {
  an_event_id : option Z;
  an_analysis : dict;
  an_ticker : string
}.

(** [DatabaseClient.save_analysis_event] *)
Definition save_analysis_event (f : fault) (event : AnalysisEvent) : M Z :=
  fun w =>
    match f with
    | Some e => (Raise e, w)
    | None =>
        (Ok (Ledger.next_id (Ledger.events (ledger w))),
         with_ledger (Ledger.add_event event) w)
    end.

(** The body of the [try] in [analyze_ticker] up to the constructor call
    [AnalysisEvent(...)]: two ledger reads, the market data when no
    snapshot is stored, the oracle, [json.loads], and pydantic's check
    that [reasoning] is a string. *)
Definition analysis_event (env : ScreenEnv) (ticker : string)
  : result AnalysisEvent :=
  articles <- sc_articles env ;;
  snapshot <- sc_snapshot env ;;
  snapshot <- match snapshot with
              | Some s => Ok (Some s)
              | None => sc_refetch env
              end ;;
  let context :=
    {| sx_ticker := ticker;
       sx_current_price := option_map sn_price snapshot;
       sx_recent_headlines_count := List.length articles;
       sx_headlines := map ar_title (firstn 30 articles) |} in
  response <- sc_llm env context ;;
  parsed <- json_loads response ;;
  confidence <- attr_get parsed "confidence" ;;
  let analysis := match parsed with JObj kv => kv | _ => [] end in
  reasoning <- validate_str (dict_get_default analysis "reasoning" (JStr "")) ;;
  Ok {| ae_id := None; ae_ticker := ticker; ae_event_type := "ticker_analysis";
        ae_reasoning := reasoning; ae_output_data := analysis;
        ae_agent_name := "trader_agent" |}.

(** The body of the [try] in [analyze_ticker]. *)
Definition analyze_body (env : ScreenEnv) (ticker : string) : M AnalysisResult :=
  let* event := lift (analysis_event env ticker) in
  let* event_id := save_analysis_event (sc_save_event env) event in
  ret {| an_event_id := Some event_id; an_analysis := ae_output_data event;
         an_ticker := ticker |}.

(** [TraderAgent.analyze_ticker] *)
Definition analyze_ticker (env : ScreenEnv) (ticker : string) : M AnalysisResult :=
  try_except (analyze_body env ticker)
    (fun e =>
       ret {| an_event_id := None;
              an_analysis := [("is_interesting", JBool false);
                              ("reasoning", JStr ("Error: " ++ e))];
              an_ticker := ticker |}).

(** [result.get("analysis", {}).get("is_interesting", False)] as a condition *)
Definition is_interesting (r : AnalysisResult) : bool :=
  truthy (dict_get_default (an_analysis r) "is_interesting" (JBool false)).

End Trader.

(** ** Debate ([backend/agents/debate_agents.py]) *)

Module DebateAgents.

(** The [context] dictionary shared by the two analysts. *)
Record DebateContext : Type := {
  dc_ticker : string;
  dc_current_price : option Q;
  dc_articles : list string;
  dc_article_count : nat;
  dc_recent_trades : list ExecutedTrade
}.

(** What the collaborators answer during one [conduct_debate]. *)
Record DebateEnv : Type := {
  de_articles : result (list Article);
  de_snapshot : result (option Snapshot);
  (** [db.get_recent_trades(ticker=ticker, days=30)] *)
  de_recent_trades : fault;
  de_bull : DebateContext -> result string;
  de_bear : DebateContext -> result string;
  (** the consensus call, given the two arguments *)
  de_consensus : string -> string -> result string;
  (** [db.save_debate] *)
  de_save : fault
}.

(** [a["content_text"][:1000] for a in articles[:20] if a.get("content_text")] *)
Definition article_texts (articles : list Article) : list string :=
  flat_map
    (fun a =>
       match ar_content_text a with
       | Some body => if String.eqb body "" then [] else [substring 0 1000 body]
       | None => []
       end)
    (firstn 20 articles).

(** [BullAgent.make_argument] and [BearAgent.make_argument]: the prompt is
    built with [json.dumps(context)], then the oracle is asked. *)
Definition make_argument (oracle : DebateContext -> result string)
  (context : DebateContext) : result string :=
  _ <- PortfolioManager.json_dumps_rows (dc_recent_trades context) ;;
  oracle context.

(** [DatabaseClient.save_debate] *)
Definition save_debate (f : fault) (debate : Debate) : M Z :=
  fun w =>
    match f with
    | Some e => (Raise e, w)
    | None =>
        (Ok (Ledger.next_id (Ledger.debates (ledger w))),
         with_ledger (Ledger.add_debate debate) w)
    end.

(** The three oracle calls of [conduct_debate] and the constructor call
    [Debate(...)], once the ledger has been read. *)
Definition debate_of (env : DebateEnv) (ticker : string) (trader_event_id : Z)
  (articles : list Article) (snapshot : option Snapshot)
  (recent_trades : list ExecutedTrade) : result Debate :=
  let texts := article_texts articles in
  let context :=
    {| dc_ticker := ticker;
       dc_current_price := option_map sn_price snapshot;
       dc_articles := texts; dc_article_count := List.length texts;
       dc_recent_trades := firstn 5 recent_trades |} in
  bull_argument <- make_argument (de_bull env) context ;;
  bear_argument <- make_argument (de_bear env) context ;;
  consensus <- de_consensus env bull_argument bear_argument ;;
  Ok {| db_id := None; db_ticker := ticker;
        db_bull_argument := bull_argument; db_bear_argument := bear_argument;
        db_final_consensus := Some consensus;
        db_trader_agent_id := Some trader_event_id |}.

(** [DebateOrchestrator.conduct_debate]; its [except] clause logs and
    re-raises, so the function is its [try] body. *)
Definition conduct_debate (env : DebateEnv) (ticker : string)
  (trader_event_id : Z) : M Debate :=
  let* articles := lift (de_articles env) in
  let* snapshot := lift (de_snapshot env) in
  let* recent_trades := get_recent_trades (de_recent_trades env) (Some ticker) 30 in
  let* debate :=
    lift (debate_of env ticker trader_event_id articles snapshot recent_trades) in
  let* debate_id := save_debate (de_save env) debate in
  ret (Ledger.set_db_id debate_id debate).

End DebateAgents.

(** ** The per-ticker state machine ([backend/graph/trading_graph.py]) *)

Module TradingGraph.
Import Trader DebateAgents PortfolioManager.

(** [state["debate_result"]] *)
Record DebateResult : Type := {
  dr_debate_id : Z;
  dr_bull_argument : string;
  dr_bear_argument : string;
  dr_consensus : string
}.

(** class [TradingState] *)
Record TradingState : Type := {
  ts_ticker : string;
  ts_analysis_result : option AnalysisResult;
  ts_needs_debate : bool;
  ts_debate_result : option DebateResult;
  ts_trade_proposal : option TradeProposal;
  ts_portfolio_decision : option dict;
  ts_executed_trade : option ExecutedTrade;
  ts_error : option string
}.

Definition set_error (e : string) (s : TradingState) : TradingState :=
  {| ts_ticker := ts_ticker s; ts_analysis_result := ts_analysis_result s;
     ts_needs_debate := ts_needs_debate s;
     ts_debate_result := ts_debate_result s;
     ts_trade_proposal := ts_trade_proposal s;
     ts_portfolio_decision := ts_portfolio_decision s;
     ts_executed_trade := ts_executed_trade s; ts_error := Some e |}.

Definition set_analysis (r : AnalysisResult) (s : TradingState) : TradingState :=
  {| ts_ticker := ts_ticker s; ts_analysis_result := Some r;
     ts_needs_debate := is_interesting r;
     ts_debate_result := ts_debate_result s;
     ts_trade_proposal := ts_trade_proposal s;
     ts_portfolio_decision := ts_portfolio_decision s;
     ts_executed_trade := ts_executed_trade s; ts_error := ts_error s |}.

Definition set_debate (d : DebateResult) (s : TradingState) : TradingState :=
  {| ts_ticker := ts_ticker s; ts_analysis_result := ts_analysis_result s;
     ts_needs_debate := ts_needs_debate s; ts_debate_result := Some d;
     ts_trade_proposal := ts_trade_proposal s;
     ts_portfolio_decision := ts_portfolio_decision s;
     ts_executed_trade := ts_executed_trade s; ts_error := ts_error s |}.

Definition set_proposal (p : TradeProposal) (s : TradingState) : TradingState :=
  {| ts_ticker := ts_ticker s; ts_analysis_result := ts_analysis_result s;
     ts_needs_debate := ts_needs_debate s;
     ts_debate_result := ts_debate_result s; ts_trade_proposal := Some p;
     ts_portfolio_decision := ts_portfolio_decision s;
     ts_executed_trade := ts_executed_trade s; ts_error := ts_error s |}.

Definition set_decision (d : dict) (s : TradingState) : TradingState :=
  {| ts_ticker := ts_ticker s; ts_analysis_result := ts_analysis_result s;
     ts_needs_debate := ts_needs_debate s;
     ts_debate_result := ts_debate_result s;
     ts_trade_proposal := ts_trade_proposal s;
     ts_portfolio_decision := Some d;
     ts_executed_trade := ts_executed_trade s; ts_error := ts_error s |}.

Definition set_executed (x : ExecutedTrade) (s : TradingState) : TradingState :=
  {| ts_ticker := ts_ticker s; ts_analysis_result := ts_analysis_result s;
     ts_needs_debate := ts_needs_debate s;
     ts_debate_result := ts_debate_result s;
     ts_trade_proposal := ts_trade_proposal s;
     ts_portfolio_decision := ts_portfolio_decision s;
     ts_executed_trade := Some x; ts_error := ts_error s |}.

(** What the collaborators answer during [_create_proposal_from_debate]. *)
Record ProposalEnv : Type := {
  pe_snapshot : result (option Snapshot);
  (** the inner [try]: fetch from the market-data API, save, read again *)
  pe_refetch : result (option Snapshot);
  pe_llm : DebateResult -> result text;
  (** [db.save_trade_proposal] *)
  pe_save : fault
}.

(** Everything the collaborators answer while one ticker is processed. *)
Record TickerEnv : Type := {
  te_screen : ScreenEnv;
  te_debate : DebateEnv;
  te_proposal : ProposalEnv;
  te_review : ReviewEnv;
  te_exec : ExecEnv
}.

(** A node catches whatever its body raises and records it in the state. *)
Definition guarded (body : M TradingState) (state : TradingState) : M TradingState :=
  try_except body (fun e => ret (set_error e state)).

(** [TradingGraph._analyze_ticker] *)
Definition _analyze_ticker (env : TickerEnv) (state : TradingState) : M TradingState :=
  guarded
    (if String.eqb (ts_ticker state) "" then
       ret (set_error "No ticker provided" state)
     else
       let* result := analyze_ticker (te_screen env) (ts_ticker state) in
       ret (set_analysis result state))
    state.

(** [if state.get("error")] *)
Definition has_error (state : TradingState) : bool :=
  match ts_error state with
  | Some e => negb (String.eqb e "")
  | None => false
  end.

(** [TradingGraph._should_debate]: [true] is the edge "debate",
    [false] the edge "skip". *)
Definition _should_debate (state : TradingState) : result bool :=
  if has_error state then Ok false
  else
    match ts_analysis_result state with
    | Some r => Ok (is_interesting r)
    | None => Raise "'NoneType' object has no attribute 'get'"
    end.

(** [if not event_id] *)
Definition usable_event_id (r : option AnalysisResult) : option Z :=
  match r with
  | Some a =>
      match an_event_id a with
      | Some i => if i =? 0 then None else Some i
      | None => None
      end
  | None => None
  end.

(** [TradingGraph._conduct_debate] *)
Definition _conduct_debate (env : TickerEnv) (state : TradingState) : M TradingState :=
  guarded
    (match usable_event_id (ts_analysis_result state) with
     | None => ret (set_error "No analysis event ID available" state)
     | Some event_id =>
         let* debate := conduct_debate (te_debate env) (ts_ticker state) event_id in
         match db_id debate with
         | Some i =>
             if i =? 0 then ret (set_error "Debate returned no result" state)
             else
               ret (set_debate
                      {| dr_debate_id := i;
                         dr_bull_argument := db_bull_argument debate;
                         dr_bear_argument := db_bear_argument debate;
                         dr_consensus :=
                           match db_final_consensus debate with
                           | Some c => c
                           | None => ""
                           end |}
                      state)
         | None => ret (set_error "Debate returned no result" state)
         end
     end)
    state.

(** [DatabaseClient.save_trade_proposal] *)
Definition save_trade_proposal (f : fault) (proposal : TradeProposal) : M Z :=
  fun w =>
    match f with
    | Some e => (Raise e, w)
    | None =>
        (Ok (Ledger.next_id (Ledger.proposals (ledger w))),
         with_ledger (Ledger.add_proposal proposal) w)
    end.

Section Nodes.
Context {RT : Runtime}.

Definition trading_note (confidence_score : json) (proposal_data : dict) : string :=
  format_value (dict_get_default proposal_data "reasoning" (JStr ""))
  ++ " [Rejected: Confidence " ++ format_value confidence_score
  ++ " < 70 required for trading]".

(** [action in ("BUY", "SELL") and confidence_score < 70] *)
Definition floor_applies (action confidence_score : json) : result bool :=
  if str_eq action "BUY" || str_eq action "SELL" then lt_70 confidence_score
  else Ok false.

(** From [json.loads] to the validated [TradeProposal] object. *)
Definition build_proposal (ticker : string) (snapshot : Snapshot)
  (event_id : Z) (debate_result : DebateResult) (parsed : json)
  : result TradeProposal :=
  found <- attr_get parsed "confidence_score" ;;
  let proposal_data := match parsed with JObj kv => kv | _ => [] end in
  let confidence_score := match found with Some v => v | None => JNum 0 end in
  let action := dict_get_default proposal_data "action" (JStr "HOLD") in
  forced <- floor_applies action confidence_score ;;
  let action := if forced then JStr "HOLD" else action in
  let proposal_data :=
    if forced then
      dict_set
        (dict_set (dict_set proposal_data "action" (JStr "HOLD"))
                  "quantity" (JNum 0))
        "reasoning" (JStr (trading_note confidence_score proposal_data))
    else proposal_data in
  valid_action <- validate_action action ;;
  quantity <- validate_int
                (if negb (str_eq action "HOLD")
                 then dict_get_default proposal_data "quantity" (JNum 0)
                 else JNum 0) ;;
  reasoning <- validate_str (dict_get_default proposal_data "reasoning" (JStr "")) ;;
  confidence <- validate_confidence confidence_score ;;
  Ok {| tp_id := None; tp_ticker := ticker; tp_action := valid_action;
        tp_quantity := quantity; tp_proposed_price := Some (sn_price snapshot);
        tp_reasoning := reasoning; tp_confidence_score := confidence;
        tp_analysis_event_id := Some event_id;
        tp_debate_id := Some (dr_debate_id debate_result);
        tp_status := PENDING |}.

(** [_create_proposal_from_debate] once the snapshot is at hand: the
    oracle, [json.loads], the floor, the constructor and the INSERT. *)
Definition propose (env : TickerEnv) (state : TradingState) (event_id : Z)
  (debate_result : DebateResult) (snapshot : Snapshot) : M TradingState :=
  let* response := lift (pe_llm (te_proposal env) debate_result) in
  let* parsed := lift (json_loads response) in
  let* proposal :=
    lift (build_proposal (ts_ticker state) snapshot event_id debate_result parsed) in
  let* proposal_id := save_trade_proposal (pe_save (te_proposal env)) proposal in
  ret (set_proposal (Ledger.set_tp_id proposal_id proposal) state).

(** [TradingGraph._create_proposal_from_debate] *)
Definition _create_proposal_from_debate (env : TickerEnv) (state : TradingState)
  : M TradingState :=
  guarded
    (match usable_event_id (ts_analysis_result state) with
     | None => ret (set_error "No analysis event ID available" state)
     | Some event_id =>
         match ts_debate_result state with
         | None => ret (set_error "No debate result available" state)
         | Some debate_result =>
             let* snapshot := lift (pe_snapshot (te_proposal env)) in
             match snapshot with
             | Some s => propose env state event_id debate_result s
             | None =>
                 match pe_refetch (te_proposal env) with
                 | Raise e =>
                     ret (set_error ("Failed to fetch snapshot: " ++ e) state)
                 | Ok None =>
                     ret (set_error "Failed to retrieve snapshot after saving" state)
                 | Ok (Some s) => propose env state event_id debate_result s
                 end
             end
         end
     end)
    state.

(** [TradingGraph._review_proposal] *)
Definition _review_proposal (env : TickerEnv) (state : TradingState) : M TradingState :=
  guarded
    (match ts_trade_proposal state with
     | None => ret (set_error "No proposal to review" state)
     | Some proposal =>
         let* decision := review_proposal (te_review env) proposal in
         ret (set_decision decision state)
     end)
    state.

(** [TradingGraph._should_execute]: [true] is the edge "execute",
    [false] the edge "reject". The state always has the key
    [portfolio_decision], so the default of [state.get] is never used. *)
Definition _should_execute (state : TradingState) : result bool :=
  match ts_portfolio_decision state with
  | Some decision => Ok (get_is decision "decision" "APPROVE")
  | None => Raise "'NoneType' object has no attribute 'get'"
  end.

(** [TradingGraph._execute_trade] *)
Definition _execute_trade (env : TickerEnv) (state : TradingState) : M TradingState :=
  guarded
    (match ts_trade_proposal state, ts_portfolio_decision state with
     | Some proposal, Some (entry :: more) =>
         let* executed := execute_trade (te_exec env) proposal (entry :: more) in
         match executed with
         | Some x => ret (set_executed x state)
         | None => ret state
         end
     | _, _ => ret (set_error "Missing proposal or decision" state)
     end)
    state.

(** The nodes of the compiled graph. *)
Inductive Node :=
| analyze_ticker_node
| conduct_debate_node
| create_proposal_node
| review_proposal_node
| execute_trade_node
| END.

(** One super-step: run the node, then follow its outgoing edge. An
    exception raised by a routing function leaves the graph. *)
Definition node_step (env : TickerEnv) (n : Node) (state : TradingState)
  : M (Node * TradingState) :=
  match n with
  | analyze_ticker_node =>
      let* state := _analyze_ticker env state in
      let* debate := lift (_should_debate state) in
      ret (if debate then conduct_debate_node else END, state)
  | conduct_debate_node =>
      let* state := _conduct_debate env state in
      ret (create_proposal_node, state)
  | create_proposal_node =>
      let* state := _create_proposal_from_debate env state in
      ret (review_proposal_node, state)
  | review_proposal_node =>
      let* state := _review_proposal env state in
      let* execute := lift (_should_execute state) in
      ret (if execute then execute_trade_node else END, state)
  | execute_trade_node =>
      let* state := _execute_trade env state in
      ret (END, state)
  | END => ret (END, state)
  end.

(** [graph.invoke]: super-steps until [END], at most [recursion_limit]
    of them (25 by default in LangGraph). *)
Fixpoint invoke_from (limit : nat) (env : TickerEnv) (n : Node)
  (state : TradingState) : M TradingState :=
  match n with
  | END => ret state
  | _ =>
      match limit with
      | O => raise "Recursion limit of 25 reached without hitting a stop condition"
      | S limit' =>
          let* next := node_step env n state in
          invoke_from limit' env (fst next) (snd next)
      end
  end.

Definition recursion_limit : nat := 25.

Definition initial_state (ticker : string) : TradingState :=
  {| ts_ticker := ticker; ts_analysis_result := None; ts_needs_debate := false;
     ts_debate_result := None; ts_trade_proposal := None;
     ts_portfolio_decision := None; ts_executed_trade := None;
     ts_error := None |}.

(** [TradingGraph.run] *)
Definition run (env : TickerEnv) (ticker : string) : M TradingState :=
  invoke_from recursion_limit env analyze_ticker_node (initial_state ticker).

End Nodes.
End TradingGraph.

(** ** The engine ([backend/main.py]) *)

Module TradingSystem.
Import TradingGraph.

(** What the collaborators answer during one pass of the main loop. *)
Record CycleEnv : Type := {
  (** [finnhub.is_market_open()]: it catches its own errors and answers
      [False] *)
  cy_market_open : bool;
  (** [db.has_traded_today()] *)
  cy_has_traded : fault;
  cy_ticker : string -> TickerEnv
}.

(** One engine process: its configuration and what it meets, pass by pass. *)
Record EngineEnv : Type := {
  (** [settings.stocks] *)
  en_stocks : list string;
  en_interval_minutes : N;
  en_cycle : nat -> CycleEnv
}.

Section Engine.
Context {RT : Runtime}.

(** [TradingSystem.update_stock_data]: every ticker is tried and every
    failure is caught; the snapshots it stores are read back through the
    environments of the stages. *)
Definition update_stock_data : M unit := ret tt.

(** [TradingSystem.process_ticker] *)
Definition process_ticker (env : TickerEnv) (ticker : string) : M unit :=
  try_except (let* result := run env ticker in ret tt) (fun e => ret tt).

(** The [for] loop of [run_cycle]. *)
Fixpoint process_all (cycle : CycleEnv) (tickers : list string) : M unit :=
  match tickers with
  | [] => ret tt
  | ticker :: rest =>
      process_ticker (cy_ticker cycle ticker) ticker ;;;
      sleep 5000 ;;;
      process_all cycle rest
  end.

(** [TradingSystem.run_cycle] *)
Definition run_cycle (env : EngineEnv) (cycle : CycleEnv) : M unit :=
  update_stock_data ;;;
  process_all cycle (en_stocks env).

(** [TradingSystem.should_run_trading_cycle]. The time the market-status
    call takes, the pauses of its retries included, is not counted: the
    clock of the model moves with the sleeps of the engine and with the
    stages. *)
Definition should_run_trading_cycle (cycle : CycleEnv) : M bool :=
  if negb (cy_market_open cycle) then ret false
  else
    let* traded := has_traded_today (cy_has_traded cycle) in
    if traded then ret false else ret true.

(** The body of [while True] in [TradingSystem.run]. *)
Definition loop_pass (env : EngineEnv) (k : nat) : M unit :=
  try_except
    (let* go := should_run_trading_cycle (en_cycle env k) in
     (if go then run_cycle env (en_cycle env k) else ret tt) ;;;
     sleep (en_interval_minutes env * 60000))
    (fun e => sleep 60000).

(** The first [n] passes of [TradingSystem.run], starting with pass [k]. *)
Fixpoint run_passes (env : EngineEnv) (n k : nat) : M unit :=
  match n with
  | O => ret tt
  | S n' => loop_pass env k ;;; run_passes env n' (S k)
  end.

(** *** The same loop, one observable step at a time

    Several engine processes may run against one database. Their steps
    interleave at the grain of the ledger statements; a graph node is the
    unit taken here. *)

(** Where an engine process stands. *)
Inductive Phase :=
| Waiting (k : nat)
    (* at the top of [while True], before [should_run_trading_cycle] *)
| Between (k : nat) (todo : list string)
    (* inside [run_cycle], before the tickers [todo] *)
| Inside (k : nat) (todo : list string) (n : Node) (state : TradingState).
    (* inside [graph.invoke] for one ticker, before node [n] *)

Definition engine_step (env : EngineEnv) (phase : Phase) (w : World)
  : Phase * World :=
  match phase with
  | Waiting k =>
      match should_run_trading_cycle (en_cycle env k) w with
      | (Ok true, w') => (Between k (en_stocks env), w')
      | (Ok false, w') =>
          (Waiting (S k), snd (sleep (en_interval_minutes env * 60000) w'))
      | (Raise e, w') => (Waiting (S k), snd (sleep 60000 w'))
      end
  | Between k [] =>
      (Waiting (S k), snd (sleep (en_interval_minutes env * 60000) w))
  | Between k (ticker :: todo) =>
      (Inside k todo analyze_ticker_node (initial_state ticker), w)
  | Inside k todo END state =>
      (Between k todo, snd (sleep 5000 w))
  | Inside k todo n state =>
      match node_step (cy_ticker (en_cycle env k) (ts_ticker state)) n state w with
      | (Ok next, w') => (Inside k todo (fst next) (snd next), w')
      | (Raise e, w') => (Between k todo, snd (sleep 5000 w'))
      end
  end.

(** [n] steps of one process. *)
Fixpoint engine_steps (env : EngineEnv) (n : nat) (phase : Phase) (w : World)
  : Phase * World :=
  match n with
  | O => (phase, w)
  | S n' =>
      let (phase', w') := engine_step env phase w in
      engine_steps env n' phase' w'
  end.

(** Two engine processes on one database. *)
Record System : Type := {
  sy_world : World;
  sy_first : Phase;
  sy_second : Phase
}.

Inductive Turn := First | Second.

(** One step of the process whose turn it is. *)
Definition system_step (env1 env2 : EngineEnv) (turn : Turn) (s : System) : System :=
  match turn with
  | First =>
      let (phase, w) := engine_step env1 (sy_first s) (sy_world s) in
      {| sy_world := w; sy_first := phase; sy_second := sy_second s |}
  | Second =>
      let (phase, w) := engine_step env2 (sy_second s) (sy_world s) in
      {| sy_world := w; sy_first := sy_first s; sy_second := phase |}
  end.

(** The steps of a schedule, in order. *)
Definition system_run (env1 env2 : EngineEnv) (schedule : list Turn) (s : System)
  : System :=
  fold_left (fun s turn => system_step env1 env2 turn s) schedule s.

End Engine.
End TradingSystem.

(** ** The advisory lock ([backend/utils/locks.py]) *)

Module Locks.

(** class [GlobalPromptLock]; the two durations are in milliseconds
    (defaults: 500 and 120000). *)
Record GlobalPromptLock : Type := {
  lock_key : Z;
  retry_interval : N;
  timeout_seconds : N
}.

(** What the database answers during one [acquire]. *)
Record LockEnv : Type := {
  (** the session [psycopg2.connect] opens *)
  lk_session : nat;
  (** [psycopg2.connect] *)
  lk_connect : fault;
  (** the rest of [_connect], on the connection just opened:
      [conn.autocommit = True] and [conn.cursor()] *)
  lk_setup : fault;
  (** the [k]-th [SELECT pg_try_advisory_lock]: how long it takes and
      whether the lock was granted; the answer depends on the other
      sessions *)
  lk_poll_time : nat -> N;
  lk_poll : nat -> result bool;
  (** [SELECT pg_advisory_unlock] *)
  lk_unlock : fault
}.

(** A call either comes back (with a value or an exception) or is still
    polling when the budget of the model is used up. *)
Inductive Outcome (A : Type) : Type :=
| Returned (r : result A)
| Spinning.
Arguments Returned {A} r.
Arguments Spinning {A}.

(** [GlobalPromptLock._connect]: when [psycopg2.connect] raises nothing
    was opened; when the lines after it raise the connection is open, and
    nothing in [_connect] closes it. *)
Definition _connect (env : LockEnv) : M unit :=
  fun w =>
    match lk_connect env with
    | Some e => (Raise e, w)
    | None =>
        let w := with_sessions (fun open => lk_session env :: open) w in
        match lk_setup env with
        | Some e => (Raise e, w)
        | None => (Ok tt, w)
        end
    end.

(** The [while True] of [_wait_for_lock], from its [k]-th pass on. *)
Fixpoint wait_loop (budget : nat) (lock : GlobalPromptLock) (env : LockEnv)
  (start : Z) (k : nat) (w : World) : Outcome bool * World :=
  match budget with
  | O => (Spinning, w)
  | S budget' =>
      let w :=
        with_clock (fun t => t + Z.of_N (lk_poll_time env k))
          (with_lock_call (lk_session env) (TryLock (lock_key lock)) w) in
      match lk_poll env k with
      | Raise e => (Returned (Raise e), w)
      | Ok true =>
          (Returned (Ok true),
           with_lock_holder (fun _ => Some (lk_session env)) w)
      | Ok false =>
          if (Z.of_N (timeout_seconds lock) <? clock w - start) then
            (Returned (Ok false), w)
          else
            wait_loop budget' lock env start (S k)
              (with_clock (fun t => t + Z.of_N (retry_interval lock)) w)
      end
  end.

(** Passes after which the deadline has certainly gone by, when the
    retry interval is not zero. *)
Definition passes_needed (lock : GlobalPromptLock) : nat :=
  N.to_nat (timeout_seconds lock / retry_interval lock) + 2.

(** [GlobalPromptLock._wait_for_lock] *)
Definition _wait_for_lock (lock : GlobalPromptLock) (env : LockEnv) (w : World)
  : Outcome bool * World :=
  wait_loop (passes_needed lock) lock env (clock w) 0 w.

(** [GlobalPromptLock._release] *)
Definition _release (lock : GlobalPromptLock) (env : LockEnv) : M unit :=
  fun w =>
    let w := with_lock_call (lk_session env) (Unlock (lock_key lock)) w in
    match lk_unlock env with
    | Some e => (Raise e, w)
    | None =>
        (Ok tt,
         with_lock_holder
           (fun h => match h with
                     | Some s => if Nat.eqb s (lk_session env) then None else Some s
                     | None => None
                     end) w)
    end.

(** [conn.close()]: the session ends, and Postgres drops the advisory
    locks a session still holds when it ends. *)
Definition close_session (env : LockEnv) (w : World) : World :=
  with_lock_holder
    (fun h => match h with
              | Some s => if Nat.eqb s (lk_session env) then None else Some s
              | None => None
              end)
    (with_sessions (filter (fun s => negb (Nat.eqb s (lk_session env)))) w).

(** The [finally] clause of [acquire] once [_connect] has returned. *)
Definition finally_ (lock : GlobalPromptLock) (env : LockEnv) (acquired : bool)
  (w : World) : World :=
  let w :=
    if acquired then
      match _release lock env w with
      | (Ok _, w') => w'
      | (Raise e, w') =>
          with_warning ("Failed to release prompt lock: " ++ e) w'
      end
    else w in
  close_session env w.

(** [with lock.acquire(): body] *)
Definition acquire {A : Type} (lock : GlobalPromptLock) (env : LockEnv)
  (body : M A) (w : World) : Outcome A * World :=
  match _connect env w with
  | (Raise e, w) => (Returned (Raise e), w)
  | (Ok _, w) =>
      match _wait_for_lock lock env w with
      | (Spinning, w) => (Spinning, w)
      | (Returned (Raise e), w) =>
          (Returned (Raise e), finally_ lock env false w)
      | (Returned (Ok false), w) =>
          (Returned (Raise "Timed out acquiring global prompt lock"),
           finally_ lock env false w)
      | (Returned (Ok true), w) =>
          let (r, w) := body w in
          (Returned r, finally_ lock env true w)
      end
  end.

End Locks.


From Stdlib Require Ascii.
From Stdlib Require Import Lqa.

(** ** Python's [str] on ASCII text *)

Module Str.
Import Ascii.

(** The methods of [str] the configuration and the broker client call.
    They are written for ASCII text: ticker symbols, sides and order
    types, commas and blanks. *)

(** [c.isspace()]: tab, line feed, vertical tab, form feed, carriage
    return, the four separators 28 to 31, and the space. *)
Definition is_space (c : ascii) : bool :=
  let n := nat_of_ascii c in
  ((9 <=? n)%nat && (n <=? 13)%nat) || ((28 <=? n)%nat && (n <=? 32)%nat).

Definition upper_char (c : ascii) : ascii :=
  let n := nat_of_ascii c in
  if ((97 <=? n)%nat && (n <=? 122)%nat) then ascii_of_nat (n - 32) else c.

Definition lower_char (c : ascii) : ascii :=
  let n := nat_of_ascii c in
  if ((65 <=? n)%nat && (n <=? 90)%nat) then ascii_of_nat (n + 32) else c.

(** [s.upper()] *)
Fixpoint upper (s : string) : string :=
  match s with
  | EmptyString => EmptyString
  | String c rest => String (upper_char c) (upper rest)
  end.

(** [s.lower()] *)
Fixpoint lower (s : string) : string :=
  match s with
  | EmptyString => EmptyString
  | String c rest => String (lower_char c) (lower rest)
  end.

(** [s.lstrip()] *)
Fixpoint lstrip (s : string) : string :=
  match s with
  | EmptyString => EmptyString
  | String c rest => if is_space c then lstrip rest else s
  end.

(** [s.rstrip()] *)
Fixpoint rstrip (s : string) : string :=
  match s with
  | EmptyString => EmptyString
  | String c rest =>
      match rstrip rest with
      | EmptyString => if is_space c then EmptyString else String c EmptyString
      | kept => String c kept
      end
  end.

(** [s.strip()] *)
Definition strip (s : string) : string := rstrip (lstrip s).

(** [s.split(sep)] for a separator of one character: the pieces between
    the separators, empty ones included; never the empty list. *)
Fixpoint split (sep : ascii) (s : string) : list string :=
  match s with
  | EmptyString => [EmptyString]
  | String c rest =>
      if Ascii.eqb c sep then EmptyString :: split sep rest
      else
        match split sep rest with
        | piece :: pieces => String c piece :: pieces
        | [] => [String c EmptyString]
        end
  end.

(** [needle in hay] *)
Fixpoint contains (needle hay : string) : bool :=
  String.prefix needle hay
  || match hay with
     | EmptyString => false
     | String _ rest => contains needle rest
     end.

(** [sep in s] for one character. *)
Fixpoint has_char (sep : ascii) (s : string) : bool :=
  match s with
  | EmptyString => false
  | String c rest => Ascii.eqb c sep || has_char sep rest
  end.

(** Every character is below 128. *)
Fixpoint is_ascii (s : string) : bool :=
  match s with
  | EmptyString => true
  | String c rest => (nat_of_ascii c <? 128)%nat && is_ascii rest
  end.

End Str.

(** ** Configuration ([backend/config.py]) *)

Module Config.
Import Ascii Str.

(** [Settings.stocks]:
    [[s.strip().upper() for s in self.stock_list.split(",") if s.strip()]] *)
Definition stocks (stock_list : string) : list string :=
  flat_map
    (fun s => if String.eqb (strip s) "" then [] else [upper (strip s)])
    (split "," stock_list).

(** A ticker as [Settings.stocks] hands it out: ASCII, not empty, no
    comma, no blank at either end, no small letter. *)
Definition clean (ticker : string) : Prop :=
  is_ascii ticker = true
  /\ ticker <> ""
  /\ has_char "," ticker = false
  /\ strip ticker = ticker
  /\ upper ticker = ticker.

End Config.

(** ** Retrying, as the clients configure [tenacity] *)

Module Tenacity.

(** [wait_exponential(multiplier=1, min=lo, max=hi)]: the pause after
    attempt number [n], in seconds: [2^(n-1)], kept between [lo] and
    [hi]. *)
Definition wait_exponential (lo hi : N) (attempt_number : nat) : N :=
  N.max lo (N.min (2 ^ N.of_nat (attempt_number - 1)) hi).

Section Retry.
Variables (S A E : Type).
(** [retry=retry_if_exception_type(...)] *)
Variable retry_on : E -> bool.
(** [wait=...] *)
Variable wait : nat -> N.
(** [time.sleep], in seconds *)
Variable pause : N -> S -> S.
(** The decorated function at its [k]-th call. *)
Variable call : nat -> S -> (A + E) * S.

(** The calls from number [k] on, with [more] further attempts allowed.
    With [reraise=True] the exception of the last attempt is raised when
    the attempts are used up. The number of the last call is returned
    with the result. *)
Fixpoint attempts_from (more k : nat) (s : S) : (A + E) * S * nat :=
  match call k s with
  | (inl a, s') => (inl a, s', k)
  | (inr e, s') =>
      if retry_on e then
        match more with
        | O => (inr e, s', k)
        | Datatypes.S more' => attempts_from more' (Datatypes.S k) (pause (wait k) s')
        end
      else (inr e, s', k)
  end.

(** [@retry(stop=stop_after_attempt(max_attempts), ...)] *)
Definition retrying (max_attempts : nat) (s : S) : (A + E) * S * nat :=
  attempts_from (max_attempts - 1) 1 s.

End Retry.

End Tenacity.

(** ** The broker client ([backend/clients/alpaca_client.py]) *)

Module AlpacaClient.
Import Str Tenacity.

(** The keyword arguments of [REST.submit_order]. *)
Record RestOrder : Type := {
  ro_symbol : json;
  ro_qty : json;
  ro_side : string;
  ro_type : string;
  ro_limit_price : option Q;
  ro_time_in_force : string
}.

(** What the lines after the REST call read from the order it answers:
    [str(order.id)], [float(order.qty)], and, when the attribute is
    there and truthy, [float(order.filled_avg_price)]. *)
Record Entity : Type := {
  ent_id : string;
  ent_qty : result Q;
  ent_filled_avg_price : option (result Q)
}.

(** What the client has done on the wire and how long it has paused. *)
Record Wire : Type := {
  posted : list RestOrder;
  paused : N
}.

Definition quiet : Wire := {| posted := []; paused := 0 |}.

Definition post (request : RestOrder) (s : Wire) : Wire :=
  {| posted := posted s ++ [request]; paused := paused s |}.

Definition pause (seconds : N) (s : Wire) : Wire :=
  {| posted := posted s; paused := paused s + seconds |}.

(** ["buy" if side.upper() == "BUY" else "sell"] *)
Definition order_side (side : string) : string :=
  if String.eqb (upper side) "BUY" then "buy" else "sell".

(** The dictionary [submit_order] returns, as the execution stage reads
    it. *)
Definition order_of (order : Entity) : result Order :=
  qty <- ent_qty order ;;
  price <- match ent_filled_avg_price order with
           | Some converted => p <- converted ;; Ok (Some p)
           | None => Ok None
           end ;;
  Ok {| od_id := ent_id order; od_price := price |}.

Definition to_sum {A : Type} (r : result A) : A + string :=
  match r with
  | Ok a => inl a
  | Raise e => inr e
  end.

Definition of_sum {A : Type} (r : A + string) : result A :=
  match r with
  | inl a => Ok a
  | inr e => Raise e
  end.

(** The body of [submit_order]: one attempt. Its [except] clause logs
    and re-raises. *)
Definition attempt (rest : RestOrder -> result Entity) (symbol qty : json)
  (side order_type : string) (limit_price : option Q) (s : Wire)
  : (Order + string) * Wire :=
  let request (type : string) (price : option Q) :=
    {| ro_symbol := symbol; ro_qty := qty; ro_side := order_side side;
       ro_type := type; ro_limit_price := price;
       ro_time_in_force := "day" |} in
  if String.eqb (lower order_type) "market" then
    (to_sum (order <- rest (request "market" None) ;; order_of order),
     post (request "market" None) s)
  else
    match limit_price with
    | Some price =>
        if Qeq_bool price 0 then
          (inr "Limit price required for limit orders", s)
        else
          (to_sum (order <- rest (request "limit" (Some price)) ;; order_of order),
           post (request "limit" (Some price)) s)
    | None => (inr "Limit price required for limit orders", s)
    end.

(** [AlpacaClient.submit_order] under its decorator: up to five
    attempts, every exception retried, pauses of 2, 2, 4 and 8 seconds.
    [rest k] is what the REST API answers at the [k]-th attempt. *)
Definition submit_order (rest : nat -> RestOrder -> result Entity)
  (symbol qty : json) (side order_type : string) (limit_price : option Q)
  : result Order * Wire * nat :=
  let '(outcome, s, made) :=
    retrying (fun _ : string => true) (wait_exponential 2 60) pause
      (fun k => attempt (rest k) symbol qty side order_type limit_price)
      5 quiet in
  (of_sum outcome, s, made).

(** The requests of a market order all look the same. *)
Definition market_request (symbol qty : json) (side : string) : RestOrder :=
  {| ro_symbol := symbol; ro_qty := qty; ro_side := order_side side;
     ro_type := "market"; ro_limit_price := None; ro_time_in_force := "day" |}.

(** What the answer of the REST API to a market order becomes. *)
Definition market_answer (rest : nat -> RestOrder -> result Entity)
  (symbol qty : json) (side : string) (k : nat) : result Order :=
  request <- rest k (market_request symbol qty side) ;; order_of request.

(** The pauses after the attempts [k], [k+1], ..., [k+n-1]. *)
Definition pauses (k n : nat) : N :=
  fold_right N.add 0%N (map (wait_exponential 2 60) (seq k n)).

End AlpacaClient.

(** ** The oracle client ([backend/clients/llm_client.py]) *)

Module LLMClient.
Import Str Tenacity.

(** [a < b] on floats *)
Definition Qlt_bool (a b : Q) : bool := negb (Qle_bool b a).

(** A non-negative [n/d] rounded to the nearest integer, ties to even. *)
Definition round_half_even (n : Z) (d : positive) : Z :=
  let q := n / Zpos d in
  let r := n mod Zpos d in
  match (2 * r ?= Zpos d) with
  | Lt => q
  | Gt => q + 1
  | Eq => if Z.even q then q else q + 1
  end.

(** The Python [float] nearest to an exact result: 53 significant bits,
    round to nearest, ties to even. Overflow and subnormal numbers lie
    far from clock readings and intervals and are not modelled. *)
Definition binary64 (x : Q) : Q :=
  let n := Qnum x in
  let d := Zpos (Qden x) in
  if n =? 0 then 0%Q
  else
    let a := Z.abs n in
    let scaled e := if 0 <=? e then (a, d * 2 ^ e) else (a * 2 ^ (- e), d) in
    let e0 := Z.log2 a - Z.log2 d - 52 in
    let e := if 2 ^ 52 * snd (scaled e0) <=? fst (scaled e0) then e0 else e0 - 1 in
    let m := round_half_even (fst (scaled e)) (Z.to_pos (snd (scaled e))) in
    if 0 <=? e then inject_Z (Z.sgn n * m * 2 ^ e)
    else (Z.sgn n * m # Z.to_pos (2 ^ (- e)))%Q.

(** class [RateLimiter]; times are in seconds. *)
Record RateLimiter : Type := {
  max_calls : Z;
  period_seconds : Z;
  min_interval : Q;
  last_call_time : Q
}.

(** [RateLimiter.__init__]: [min_interval = period_seconds / max_calls],
    a float division. *)
Definition new_rate_limiter (max_calls period_seconds : Z) : result RateLimiter :=
  if max_calls =? 0 then Raise "division by zero"
  else
    Ok {| max_calls := max_calls; period_seconds := period_seconds;
          min_interval :=
            binary64 (inject_Z period_seconds / inject_Z max_calls)%Q;
          last_call_time := 0%Q |}.

(** The limiter and the wall clock it reads. *)
Record Timed : Type := {
  limiter : RateLimiter;
  now : Q
}.

Definition stamp (at_ : Q) (s : Timed) : Timed :=
  {| limiter := {| max_calls := max_calls (limiter s);
                   period_seconds := period_seconds (limiter s);
                   min_interval := min_interval (limiter s);
                   last_call_time := at_ |};
     now := at_ |}.

(** [time.sleep] and whatever else lets time go by. *)
Definition elapse (seconds : Q) (s : Timed) : Timed :=
  {| limiter := limiter s; now := (now s + seconds)%Q |}.

(** [RateLimiter.wait_if_needed], under its lock. The two subtractions
    are float subtractions. [lag] is the time that goes by between the
    two readings of the clock on top of the sleep that was asked for. *)
Definition wait_if_needed (lag : Q) (s : Timed) : Timed :=
  let current_time := now s in
  let time_since_last_call :=
    binary64 (current_time - last_call_time (limiter s))%Q in
  let s :=
    if Qlt_bool time_since_last_call (min_interval (limiter s)) then
      elapse (binary64 (min_interval (limiter s) - time_since_last_call)%Q) s
    else s in
  stamp (now s + lag)%Q s.

(** What [client.chat.completions.create] and the line after it give:
    the content of the first choice (possibly None), or an exception.
    Only [OpenAIAPIError] and its subclasses are retried. *)
Inductive Failure : Type :=
| APIError (status_code : option Z) (message : string)
| OtherError (message : string).

Inductive Completion : Type :=
| Content (content : option string)
| Fails (e : Failure).

(** The keyword arguments of [create]. *)
Record Request : Type := {
  rq_model : string;
  rq_messages : list (string * string);
  rq_temperature : option Q;
  rq_response_format : option (list (string * string))
}.

(** What the OpenAI API and the machine answer during one
    [chat_completion]. *)
Record ChatEnv : Type := {
  (** the [k]-th call of [create] and the time it takes *)
  ch_create : nat -> Request -> Completion;
  ch_took : nat -> Q;
  (** the lag of the [k]-th [wait_if_needed] *)
  ch_lag : nat -> Q;
  (** [len(content.strip()) == 0] *)
  ch_blank : string -> bool
}.

(** The keyword arguments: the temperature is left out for the
    gpt-5-nano models, the response format when it is empty. *)
Definition request_of (chat_model : string) (messages : list (string * string))
  (temperature : Q) (response_format : option (list (string * string)))
  : Request :=
  {| rq_model := chat_model; rq_messages := messages;
     rq_temperature :=
       if negb (contains "gpt-5-nano" (lower chat_model)) then Some temperature
       else None;
     rq_response_format :=
       match response_format with
       | Some (entry :: more) => Some (entry :: more)
       | _ => None
       end |}.

(** The body of [chat_completion]: one attempt. Both [except] clauses
    log and re-raise. *)
Definition attempt (env : ChatEnv) (chat_model : string)
  (messages : list (string * string)) (temperature : Q)
  (response_format : option (list (string * string))) (k : nat) (s : Timed)
  : (string + Failure) * Timed :=
  let s := wait_if_needed (ch_lag env k) s in
  let s' := elapse (ch_took env k) s in
  match ch_create env k (request_of chat_model messages temperature response_format) with
  | Content (Some content) =>
      if String.eqb content "" || ch_blank env content then
        (inr (OtherError "Empty response from LLM"), s')
      else (inl content, s')
  | Content None => (inr (OtherError "Empty response from LLM"), s')
  | Fails e => (inr e, s')
  end.

(** [retry_if_exception_type((OpenAIAPIError,))] *)
Definition is_api_error (e : Failure) : bool :=
  match e with
  | APIError _ _ => true
  | OtherError _ => false
  end.

(** [LLMClient.chat_completion] under its decorator: up to three
    attempts, API errors only, pauses of 2 and 2 seconds. *)
Definition chat_completion (env : ChatEnv) (chat_model : string)
  (messages : list (string * string)) (temperature : Q)
  (response_format : option (list (string * string))) (s : Timed)
  : (string + Failure) * Timed * nat :=
  retrying is_api_error (wait_exponential 2 30)
    (fun seconds => elapse (inject_Z (Z.of_N seconds)))
    (attempt env chat_model messages temperature response_format)
    3 s.

End LLMClient.

(** ** The trader's own proposal ([TraderAgent.self_analyze]) *)

Module SelfAnalysis.
Import Trader PortfolioManager TradingGraph.

(** The [context] dictionary of [self_analyze]. *)
Record SelfContext : Type := {
  sf_ticker : string;
  sf_current_price : option Q;
  sf_articles : list string;
  sf_recent_trades : list ExecutedTrade
}.

(** What the collaborators answer during one [self_analyze]. *)
Record SelfEnv : Type := {
  (** [db.get_recent_articles(ticker=ticker, hours=24)] *)
  sa_articles : result (list Article);
  (** [db.get_latest_snapshot(ticker)] *)
  sa_snapshot : result (option Snapshot);
  (** [db.get_recent_trades(ticker=ticker, days=7)] *)
  sa_recent_trades : fault;
  sa_llm : SelfContext -> result text;
  (** [db.save_trade_proposal] *)
  sa_save : fault
}.

(** [a["content_text"][:1000] for a in articles[:10] if a.get("content_text")] *)
Definition article_texts (articles : list Article) : list string :=
  flat_map
    (fun a =>
       match ar_content_text a with
       | Some body => if String.eqb body "" then [] else [substring 0 1000 body]
       | None => []
       end)
    (firstn 10 articles).

Section Agent.
Context {RT : Runtime}.

(** From the context to the validated [TradeProposal]: [json.dumps],
    the oracle, [json.loads], and the constructor with pydantic's
    checks. No confidence threshold is applied here. *)
Definition proposal_of (env : SelfEnv) (ticker : string)
  (analysis_event_id : Z) (articles : list Article) (snapshot : option Snapshot)
  (recent_trades : list ExecutedTrade) : result TradeProposal :=
  let context :=
    {| sf_ticker := ticker;
       sf_current_price := option_map sn_price snapshot;
       sf_articles := article_texts articles;
       sf_recent_trades := firstn 5 recent_trades |} in
  _ <- json_dumps_rows (sf_recent_trades context) ;;
  response <- sa_llm env context ;;
  parsed <- json_loads response ;;
  found <- attr_get parsed "action" ;;
  let proposal_data := match parsed with JObj kv => kv | _ => [] end in
  action <- validate_action (dict_get_default proposal_data "action" (JStr "HOLD")) ;;
  quantity <- validate_int (dict_get_default proposal_data "quantity" (JNum 0)) ;;
  reasoning <- validate_str (dict_get_default proposal_data "reasoning" (JStr "")) ;;
  confidence <- validate_confidence
                  (dict_get_default proposal_data "confidence_score" JNull) ;;
  Ok {| tp_id := None; tp_ticker := ticker; tp_action := action;
        tp_quantity := quantity;
        tp_proposed_price := option_map sn_price snapshot;
        tp_reasoning := reasoning; tp_confidence_score := confidence;
        tp_analysis_event_id := Some analysis_event_id;
        tp_debate_id := None; tp_status := PENDING |}.

(** [TraderAgent.self_analyze] *)
Definition self_analyze (env : SelfEnv) (ticker : string)
  (analysis_event_id : Z) : M (option TradeProposal) :=
  try_except
    (let* articles := lift (sa_articles env) in
     let* snapshot := lift (sa_snapshot env) in
     let* recent_trades :=
       get_recent_trades (sa_recent_trades env) (Some ticker) 7 in
     let* proposal :=
       lift (proposal_of env ticker analysis_event_id articles snapshot
               recent_trades) in
     let* proposal_id := save_trade_proposal (sa_save env) proposal in
     ret (Some (Ledger.set_tp_id proposal_id proposal)))
    (fun e => ret None).

End Agent.
End SelfAnalysis.

(** ** The market-data client ([backend/clients/finnhub_client.py]) *)

Module FinnhubClient.

(** [FinnhubClient.is_market_open]; [status] is what [get_market_status]
    ends with, once its retries are over. The value of [isOpen] is handed
    on as it is. *)
Definition is_market_open (status : result json) : json :=
  match status with
  | Ok (JObj kv) => dict_get_default kv "isOpen" (JBool false)
  | Ok _ => JBool false
  | Raise _ => JBool false
  end.

(** A status that does not say the market is open: the call failed, the
    answer is no object, or [isOpen] is missing or falsy. *)
Definition not_open (status : result json) : Prop :=
  match status with
  | Ok (JObj kv) => truthy (dict_get_default kv "isOpen" (JBool false)) = false
  | _ => True
  end.

End FinnhubClient.

(** ** The article cleaner ([backend/agents/news_cleaning_agent.py]) *)

Module NewsCleaning.

(** [ArticleCleaned] of [backend/database/models.py]; [id] and
    [created_at] are left to the database. *)
Record ArticleCleaned : Type := {
  art_raw_article_id : option Z;
  art_title : string;
  art_ticker : option string;
  art_content_text : string;
  art_is_usable : bool;
  art_reason : option string;
  art_timestamp : option Z;
  art_llm_model : option string;
  art_llm_response : option dict
}.

(** What the cleaner works with. *)
Record CleanEnv : Type := {
  (** [LLMClient.chat_completion] on the extraction prompt, by the user
      message *)
  cn_chat : string -> result text;
  (** [LLMClient.chat_model] *)
  cn_chat_model : string;
  (** [dateutil.parser.isoparse] *)
  cn_isoparse : json -> result Z;
  (** pydantic's lax conversion to [bool] of a value that is not a bool *)
  cn_lax_bool : json -> result bool;
  (** whether [json.loads] read a number as a [float] (its text had a
      fraction or an exponent) or as an [int] *)
  cn_float : Q -> bool;
  (** [datetime.utcnow()] *)
  cn_now : Z
}.

Definition newline : string := String (Ascii.ascii_of_nat 10) EmptyString.

(** The user message of [LLMClient.extract_article_json], with
    [raw_html[:8000]] at its end. *)
Definition user_prompt (raw_html : string) (ticker : option string) : string :=
  ("Extract article information from this HTML"
   ++ match ticker with
      | Some t =>
          if String.eqb t "" then ""
          else ". Expected ticker: " ++ t
               ++ " - the article MUST mention this company to be usable."
      | None => ""
      end
   ++ newline ++ newline ++ String.substring 0 (N.to_nat 8000) raw_html)%string.

(** The dictionary [extract_article_json] returns for a reply that does
    not parse. *)
Definition unparsed : dict :=
  [("title", JStr "Unknown"); ("ticker", JNull); ("content_text", JStr "");
   ("is_usable", JBool false); ("reason", JStr "Failed to parse LLM response");
   ("timestamp", JNull)].

(** [LLMClient.extract_article_json]: a failing call is not caught here. *)
Definition extract_article_json (env : CleanEnv) (raw_html : string)
  (ticker : option string) : result json :=
  response <- cn_chat env (user_prompt raw_html ticker) ;;
  match json_loads response with
  | Ok extracted => Ok extracted
  | Raise _ => Ok (JObj unparsed)
  end.

(** A pydantic field of type [bool]. *)
Definition validate_bool (env : CleanEnv) (j : json) : result bool :=
  match j with
  | JBool b => Ok b
  | _ => cn_lax_bool env j
  end.

(** The timestamp of the article: the one extracted when there is one and
    it parses, the current time otherwise. *)
Definition timestamp_of (env : CleanEnv) (extracted : dict) : Z :=
  if truthy_opt (dict_get extracted "timestamp") then
    match cn_isoparse env (dict_get_default extracted "timestamp" JNull) with
    | Ok t => t
    | Raise _ => cn_now env
    end
  else cn_now env.

(** [type(v).__name__] of a parsed document. *)
Definition type_name (env : CleanEnv) (j : json) : string :=
  match j with
  | JNull => "NoneType"
  | JBool _ => "bool"
  | JNum q => if cn_float env q then "float" else "int"
  | JStr _ => "str"
  | JArr _ => "list"
  | JObj _ => "dict"
  end.

(** The [try] block of [clean_article]. A reply that is no object has no
    [get], and the AttributeError names its type; of several fields that
    fail validation the first is reported. *)
Definition clean_body (env : CleanEnv) (raw_html : string) (raw_article_id : Z)
  : result ArticleCleaned :=
  extracted <- extract_article_json env raw_html None ;;
  match extracted with
  | JObj kv =>
      let timestamp := timestamp_of env kv in
      title <- validate_str (dict_get_default kv "title" (JStr "Unknown")) ;;
      ticker <- PortfolioManager.validate_opt_str (dict_get kv "ticker") ;;
      content_text <- validate_str (dict_get_default kv "content_text" (JStr "")) ;;
      is_usable <-
        validate_bool env (dict_get_default kv "is_usable" (JBool false)) ;;
      reason <- PortfolioManager.validate_opt_str (dict_get kv "reason") ;;
      Ok {| art_raw_article_id := Some raw_article_id; art_title := title;
            art_ticker := ticker; art_content_text := content_text;
            art_is_usable := is_usable; art_reason := reason;
            art_timestamp := Some timestamp;
            art_llm_model := Some (cn_chat_model env);
            art_llm_response := Some kv |}
  | _ =>
      Raise ("'" ++ type_name env extracted
             ++ "' object has no attribute 'get'")%string
  end.

(** The article the [except] clause of [clean_article] returns. *)
Definition failed (env : CleanEnv) (raw_article_id : Z) (e : string)
  : ArticleCleaned :=
  {| art_raw_article_id := Some raw_article_id; art_title := "Error";
     art_ticker := None; art_content_text := ""; art_is_usable := false;
     art_reason := Some ("Cleaning failed: " ++ e)%string;
     art_timestamp := Some (cn_now env);
     art_llm_model := None; art_llm_response := None |}.

(** [NewsCleaningAgent.clean_article] *)
Definition clean_article (env : CleanEnv) (raw_html : string)
  (raw_article_id : Z) : ArticleCleaned :=
  match clean_body env raw_html raw_article_id with
  | Ok cleaned => cleaned
  | Raise e => failed env raw_article_id e
  end.

End NewsCleaning.

(** * Vocabulary of the properties *)

(** A reflexive and transitive relation between worlds. *)
Class Pre (R : World -> World -> Prop) : Prop := {
  pre_refl : forall w, R w w;
  pre_trans : forall w1 w2 w3, R w1 w2 -> R w2 w3 -> R w1 w3
}.

(** A relation that holds across every write to the ledger, every order
    and every lapse of time. *)
Class Stable (R : World -> World -> Prop) : Prop := {
  stable_pre :: Pre R;
  stable_ledger : forall f w, R w (with_ledger f w);
  stable_orders : forall f w, R w (with_orders f w);
  stable_clock : forall n w, R w (with_clock (fun t => t + Z.of_N n) w)
}.

(** [keeps R c]: whatever [c] does, the world it leaves is [R]-related to
    the world it found. *)
Definition keeps (R : World -> World -> Prop) {A : Type} (c : M A) : Prop :=
  forall w, R w (snd (c w)).

(** [c] raises in every world. *)
Definition always_raises {A : Type} (c : M A) : Prop :=
  forall w, exists e, fst (c w) = Raise e.

(** [c] never raises. *)
Definition never_raises {A : Type} (c : M A) : Prop :=
  forall w, exists a, fst (c w) = Ok a.

Definition same_ledger (w w' : World) : Prop := ledger w' = ledger w.
Definition same_orders (w w' : World) : Prop := orders w' = orders w.
Definition same_trades (w w' : World) : Prop :=
  Ledger.trades (ledger w') = Ledger.trades (ledger w).
Definition same_lock (w w' : World) : Prop :=
  lock_holder w' = lock_holder w /\ sessions w' = sessions w.
Definition later (w w' : World) : Prop := clock w <= clock w'.

(** A world in which a trade has been stored on the current day. *)
Definition has_trade_today (w : World) : Prop :=
  exists x t,
    In x (Ledger.trades (ledger w))
    /\ et_executed_at x = Some t
    /\ Ledger.day_of t = Ledger.day_of (clock w).

(** The dictionary the [except] clause of [analyze_ticker] returns. *)
Definition degraded (ticker e : string) : Trader.AnalysisResult :=
  {| Trader.an_event_id := None;
     Trader.an_analysis := [("is_interesting", JBool false);
                            ("reasoning", JStr ("Error: " ++ e))];
     Trader.an_ticker := ticker |}.

(** The dictionary the [except] clause of [review_proposal] returns. *)
Definition rejection (e : string) : dict :=
  [("decision", JStr "REJECT"); ("reasoning", JStr ("Review failed: " ++ e))].

(** The row the proposal stage stores when the floor applies. *)
Definition held {RT : Runtime} (ticker : string) (snapshot : Snapshot)
  (event_id : Z)
  (debate_result : TradingGraph.DebateResult) (answer : dict)
  (confidence : option Q) : TradeProposal :=
  {| tp_id := None; tp_ticker := ticker; tp_action := HOLD; tp_quantity := 0;
     tp_proposed_price := Some (sn_price snapshot);
     tp_reasoning :=
       TradingGraph.trading_note
         (dict_get_default answer "confidence_score" (JNum 0)) answer;
     tp_confidence_score := confidence;
     tp_analysis_event_id := Some event_id;
     tp_debate_id := Some (TradingGraph.dr_debate_id debate_result);
     tp_status := PENDING |}.

(** An order that sells the position a risk decision names for
    rebalancing, in the quantity the decision gives. *)
Definition rebalancing_sell {RT : Runtime} (proposal : TradeProposal)
  (decision : dict) (r : OrderRequest) : Prop :=
  tp_action proposal = BUY
  /\ or_side r = "SELL"
  /\ dict_get decision "position_to_sell" = Some (or_symbol r)
  /\ exists amount quantity,
       dict_get decision "sell_quantity" = Some amount
       /\ py_int amount = Ok quantity
       /\ or_qty r = JNum (inject_Z quantity).

(** A proposal that keeps to the confidence floor: a HOLD of nothing, or
    a BUY or SELL with a confidence between 70 and 100. *)
Definition respects_floor (proposal : TradeProposal) : Prop :=
  (tp_action proposal = HOLD /\ tp_quantity proposal = 0)
  \/ (tp_action proposal <> HOLD
      /\ exists confidence,
           tp_confidence_score proposal = Some confidence
           /\ (70 <= confidence)%Q /\ (confidence <= 100)%Q).

(** [rows'] holds the rows of [rows], in their order, followed by the
    rows added since. *)
Definition extended {A : Type} (rows rows' : list A) : Prop :=
  exists added, rows' = rows ++ added.

(** A proposal row with its status column blanked. *)
Definition unsettled (p : TradeProposal) : TradeProposal :=
  Ledger.set_tp_status PENDING p.

(** The ledger and the order book of [w'] continue those of [w]: no row
    and no order is removed, reordered or rewritten, but for the status
    column of a proposal. *)
Definition audit_grows (w w' : World) : Prop :=
  extended (Ledger.events (ledger w)) (Ledger.events (ledger w'))
  /\ extended (Ledger.debates (ledger w)) (Ledger.debates (ledger w'))
  /\ extended (map unsettled (Ledger.proposals (ledger w)))
              (map unsettled (Ledger.proposals (ledger w')))
  /\ extended (Ledger.trades (ledger w)) (Ledger.trades (ledger w'))
  /\ extended (orders w) (orders w').

(** Nodes still ahead on the longest path to END. *)
Definition distance (n : TradingGraph.Node) : nat :=
  match n with
  | TradingGraph.analyze_ticker_node => 5
  | TradingGraph.conduct_debate_node => 4
  | TradingGraph.create_proposal_node => 3
  | TradingGraph.review_proposal_node => 2
  | TradingGraph.execute_trade_node => 1
  | TradingGraph.END => 0
  end.


(** ** Concrete runs

    A stand-in for the Python runtime and a small cast of collaborators,
    used where a statement is tried on an explicit input. *)

Module Demo.
Import Trader DebateAgents PortfolioManager TradingGraph TradingSystem Locks.

Definition show_Z (z : Z) : string :=
  NilZero.string_of_int (Z.to_int z).

(** Numbers print without their fraction; enough to read the runs. *)
Definition runtime : Runtime :=
  {| py_repr := fun j =>
       match j with
       | JNum q => show_Z (Qnum q / Zpos (Qden q))
       | JBool true => "True"
       | JBool false => "False"
       | _ => "None"
       end;
     float_mul := fun price quantity => (price * inject_Z quantity)%Q;
     int_of_str := fun _ => Raise "invalid literal for int() with base 10";
     lax_int := fun _ => Raise "Input should be a valid integer";
     lax_float := fun _ => Raise "Input should be a valid number" |}.

(** Monday 5 January 2026, 15:00 UTC. *)
Definition monday_afternoon : Z := 1767625200000.

Definition quiet_world : World :=
  {| ledger := Ledger.empty; clock := monday_afternoon; orders := [];
     lock_holder := None; sessions := []; warnings := []; lock_calls := [] |}.

(** A BUY of 10 ACME at 150 with confidence 85, stored as row 1. *)
Definition acme_proposal (confidence : Q) : TradeProposal :=
  {| tp_id := Some 1; tp_ticker := "ACME"; tp_action := BUY; tp_quantity := 10;
     tp_proposed_price := Some (inject_Z 150); tp_reasoning := "converging reports";
     tp_confidence_score := Some confidence; tp_analysis_event_id := Some 1;
     tp_debate_id := Some 1; tp_status := PENDING |}.

Definition world_with (proposal : TradeProposal) : World :=
  {| ledger := {| Ledger.events := []; Ledger.debates := [];
                  Ledger.proposals := [proposal]; Ledger.trades := [] |};
     clock := monday_afternoon; orders := [];
     lock_holder := None; sessions := []; warnings := []; lock_calls := [] |}.

Definition approve : dict :=
  [("decision", JStr "APPROVE"); ("reasoning", JStr "strong evidence")].

Definition rich_account : Account :=
  {| ac_cash := inject_Z 100000; ac_portfolio_value := inject_Z 100000;
     ac_buying_power := inject_Z 100000; ac_equity := inject_Z 100000 |}.

Definition poor_account : Account :=
  {| ac_cash := inject_Z 100; ac_portfolio_value := inject_Z 5000;
     ac_buying_power := inject_Z 100; ac_equity := inject_Z 5000 |}.

Definition holding (symbol : string) : Position :=
  {| ps_symbol := symbol; ps_qty := inject_Z 20; ps_avg_entry_price := inject_Z 90;
     ps_current_price := inject_Z 100; ps_market_value := inject_Z 2000;
     ps_unrealized_pl := inject_Z 200 |}.

Definition filled (price : Q) : Order :=
  {| od_id := "order-1"; od_price := Some price |}.

(** An execution in which every collaborator answers and the broker
    fills at 150. *)
Definition smooth_execution : ExecEnv :=
  {| ex_latency := 1000;
     ex_ledger := fun _ => None;
     ex_account := Ok rich_account;
     ex_snapshot := Ok (Some {| sn_price := inject_Z 150 |});
     ex_positions := Ok [];
     ex_position_news := fun _ => Ok [];
     ex_confirm := fun _ => Raise "not asked";
     ex_broker := fun _ => Ok (filled (inject_Z 150)) |}.

(** The same, with a broker that refuses every order. *)
Definition refused_execution : ExecEnv :=
  {| ex_latency := 1000;
     ex_ledger := fun _ => None;
     ex_account := Ok rich_account;
     ex_snapshot := Ok (Some {| sn_price := inject_Z 150 |});
     ex_positions := Ok [];
     ex_position_news := fun _ => Ok [];
     ex_confirm := fun _ => Raise "not asked";
     ex_broker := fun _ => Raise "insufficient buying power" |}.

(** The risk decision approves and flags OLD for a rebalancing sell. *)
Definition approve_selling_old : dict :=
  [("decision", JStr "APPROVE"); ("reasoning", JStr "strong evidence");
   ("position_to_sell", JStr "OLD"); ("sell_quantity", JNum (inject_Z 5))].

(** Funds are short, OLD and XYZ are held, and the confirmation call
    answers with XYZ. *)
Definition disputed_execution : ExecEnv :=
  {| ex_latency := 1000;
     ex_ledger := fun _ => None;
     ex_account := Ok poor_account;
     ex_snapshot := Ok (Some {| sn_price := inject_Z 150 |});
     ex_positions := Ok [holding "OLD"; holding "XYZ"];
     ex_position_news := fun _ => Ok [];
     ex_confirm := fun _ =>
       Ok (Encodes (JObj [("should_rebalance", JBool true);
                          ("reasoning", JStr "XYZ has the weaker outlook");
                          ("position_to_sell", JStr "XYZ");
                          ("sell_quantity", JNum (inject_Z 5))]));
     ex_broker := fun _ => Ok (filled (inject_Z 150)) |}.

(** The same, with a database that refuses every UPDATE. *)
Definition disputed_offline : ExecEnv :=
  {| ex_latency := 1000;
     ex_ledger := fun _ => Some "connection already closed";
     ex_account := ex_account disputed_execution;
     ex_snapshot := ex_snapshot disputed_execution;
     ex_positions := ex_positions disputed_execution;
     ex_position_news := ex_position_news disputed_execution;
     ex_confirm := ex_confirm disputed_execution;
     ex_broker := ex_broker disputed_execution |}.

(** A screening in which the ledger and the market data answer and the
    oracle call fails. *)
Definition screening_with_oracle_down : ScreenEnv :=
  {| sc_articles := Ok [{| ar_title := "ACME beats estimates";
                           ar_content_text := Some "ACME reported ..." |}];
     sc_snapshot := Ok (Some {| sn_price := inject_Z 150 |});
     sc_refetch := Raise "not asked";
     sc_llm := fun _ => Raise "Connection error.";
     sc_save_event := None |}.

(** The same screening with an oracle that finds the ticker interesting. *)
Definition screening_interesting : ScreenEnv :=
  {| sc_articles := Ok [{| ar_title := "ACME beats estimates";
                           ar_content_text := Some "ACME reported ..." |}];
     sc_snapshot := Ok (Some {| sn_price := inject_Z 150 |});
     sc_refetch := Raise "not asked";
     sc_llm := fun _ =>
       Ok (Encodes (JObj [("is_interesting", JBool true);
                          ("reasoning", JStr "earnings surprise");
                          ("confidence", JNum (inject_Z 80))]));
     sc_save_event := None |}.

(** A debate in which both analysts answer and the consensus call fails. *)
Definition debate_without_consensus : DebateEnv :=
  {| de_articles := Ok [{| ar_title := "ACME beats estimates";
                           ar_content_text := Some "ACME reported ..." |}];
     de_snapshot := Ok (Some {| sn_price := inject_Z 150 |});
     de_recent_trades := None;
     de_bull := fun _ => Ok "Margins are expanding.";
     de_bear := fun _ => Ok "The guidance is weak.";
     de_consensus := fun _ _ => Raise "Request timed out.";
     de_save := None |}.

(** The oracle proposes a BUY of 10 with confidence 50. *)
Definition timid_buy : dict :=
  [("action", JStr "BUY"); ("quantity", JNum (inject_Z 10));
   ("reasoning", JStr "one upbeat report");
   ("confidence_score", JNum (inject_Z 50))].

Definition proposal_from (answer : dict) : ProposalEnv :=
  {| pe_snapshot := Ok (Some {| sn_price := inject_Z 150 |});
     pe_refetch := Raise "not asked";
     pe_llm := fun _ => Ok (Encodes (JObj answer));
     pe_save := None |}.

(** The same collaborators when no snapshot is stored yet: one is
    fetched from the market-data API, saved and read back. *)
Definition refetching (env : ProposalEnv) : ProposalEnv :=
  {| pe_snapshot := Ok None;
     pe_refetch := Ok (Some {| sn_price := inject_Z 150 |});
     pe_llm := pe_llm env;
     pe_save := pe_save env |}.

Definition acme_debate : DebateResult :=
  {| dr_debate_id := 1; dr_bull_argument := "Margins are expanding.";
     dr_bear_argument := "The guidance is weak.";
     dr_consensus := "Mixed picture." |}.

(** The graph state after screening and debate of ACME. *)
Definition debated_state : TradingState :=
  {| ts_ticker := "ACME";
     ts_analysis_result :=
       Some {| an_event_id := Some 1;
               an_analysis := [("is_interesting", JBool true)];
               an_ticker := "ACME" |};
     ts_needs_debate := true;
     ts_debate_result := Some acme_debate;
     ts_trade_proposal := None; ts_portfolio_decision := None;
     ts_executed_trade := None; ts_error := None |}.

(** The lock with its default settings: retry every 0.5 s, give up
    after 120 s. *)
Definition prompt_lock : GlobalPromptLock :=
  {| lock_key := 42; retry_interval := 500; timeout_seconds := 120000 |}.

(** Session 7 gets the lock at its third poll; the release fails. *)
Definition contended_lock : LockEnv :=
  {| lk_session := 7; lk_connect := None; lk_setup := None;
     lk_poll_time := fun _ => 3%N;
     lk_poll := fun k => Ok (Nat.leb 2 k);
     lk_unlock := Some "server closed the connection unexpectedly" |}.


(** Session 7 never gets the lock. *)
Definition starved_lock : LockEnv :=
  {| lk_session := 7; lk_connect := None; lk_setup := None;
     lk_poll_time := fun _ => 3%N;
     lk_poll := fun _ => Ok false;
     lk_unlock := None |}.

(** The oracle proposes a BUY of 10 with confidence 85. *)
Definition confident_buy : dict :=
  [("action", JStr "BUY"); ("quantity", JNum (inject_Z 10));
   ("reasoning", JStr "converging reports");
   ("confidence_score", JNum (inject_Z 85))].

Definition debate_with_consensus : DebateEnv :=
  {| de_articles := Ok [{| ar_title := "ACME beats estimates";
                           ar_content_text := Some "ACME reported ..." |}];
     de_snapshot := Ok (Some {| sn_price := inject_Z 150 |});
     de_recent_trades := None;
     de_bull := fun _ => Ok "Margins are expanding.";
     de_bear := fun _ => Ok "The guidance is weak.";
     de_consensus := fun _ _ => Ok "Mixed picture.";
     de_save := None |}.

(** A review in which the broker and the ledger answer and the oracle
    approves. *)
Definition approving_review : ReviewEnv :=
  {| rv_latency := 1000;
     rv_account := Ok rich_account;
     rv_positions := Ok [];
     rv_recent_trades := None;
     rv_snapshot := Ok (Some {| sn_price := inject_Z 150 |});
     rv_llm := fun _ => Ok (Encodes (JObj approve)) |}.

(** Every stage goes through: interesting, debated, a confident BUY,
    approved, filled. *)
Definition smooth_ticker : TickerEnv :=
  {| te_screen := screening_interesting;
     te_debate := debate_with_consensus;
     te_proposal := proposal_from confident_buy;
     te_review := approving_review;
     te_exec := smooth_execution |}.

(** An engine watching the given tickers, hourly, on an open market. *)
Definition engine (stocks : list string) : EngineEnv :=
  {| en_stocks := stocks; en_interval_minutes := 60;
     en_cycle := fun _ =>
       {| cy_market_open := true; cy_has_traded := None;
          cy_ticker := fun _ => smooth_ticker |} |}.

(** Two engine processes started on the same database. *)
Definition two_engines : System :=
  {| sy_world := quiet_world; sy_first := Waiting 0; sy_second := Waiting 0 |}.

(** Each process passes the daily check, then runs its pipeline up to the
    risk review; then each executes. *)
Definition racing_schedule : list Turn :=
  repeat First 6 ++ repeat Second 6 ++ [First; Second].

(** A review in which the broker and the ledger answer and the oracle
    call fails. *)
Definition review_with_oracle_down : ReviewEnv :=
  {| rv_latency := 1000;
     rv_account := Ok rich_account;
     rv_positions := Ok [];
     rv_recent_trades := None;
     rv_snapshot := Ok (Some {| sn_price := inject_Z 150 |});
     rv_llm := fun _ => Raise "Connection error." |}.

(** The graph state when the ACME proposal reaches the risk review. *)
Definition proposed_state (confidence : Q) : TradingState :=
  {| ts_ticker := "ACME";
     ts_analysis_result :=
       Some {| an_event_id := Some 1;
               an_analysis := [("is_interesting", JBool true)];
               an_ticker := "ACME" |};
     ts_needs_debate := true;
     ts_debate_result := Some acme_debate;
     ts_trade_proposal := Some (acme_proposal confidence);
     ts_portfolio_decision := None;
     ts_executed_trade := None; ts_error := None |}.

(** Stages that are not reached in a run answer nothing. *)
Definition silent_screen : ScreenEnv :=
  {| sc_articles := Raise "not asked"; sc_snapshot := Raise "not asked";
     sc_refetch := Raise "not asked"; sc_llm := fun _ => Raise "not asked";
     sc_save_event := None |}.

Definition silent_debate : DebateEnv :=
  {| de_articles := Raise "not asked"; de_snapshot := Raise "not asked";
     de_recent_trades := None; de_bull := fun _ => Raise "not asked";
     de_bear := fun _ => Raise "not asked";
     de_consensus := fun _ _ => Raise "not asked"; de_save := None |}.

Definition silent_proposal : ProposalEnv :=
  {| pe_snapshot := Raise "not asked"; pe_refetch := Raise "not asked";
     pe_llm := fun _ => Raise "not asked"; pe_save := None |}.

Definition silent_review : ReviewEnv :=
  {| rv_latency := 0; rv_account := Raise "not asked";
     rv_positions := Raise "not asked"; rv_recent_trades := None;
     rv_snapshot := Raise "not asked"; rv_llm := fun _ => Raise "not asked" |}.

(** The risk decision rejects. *)
Definition reject : dict :=
  [("decision", JStr "REJECT"); ("reasoning", JStr "one source only")].

(** A broker that accepts every order and reports no fill price yet. *)
Definition unfilled_execution : ExecEnv :=
  {| ex_latency := 1000;
     ex_ledger := fun _ => None;
     ex_account := Ok rich_account;
     ex_snapshot := Ok (Some {| sn_price := inject_Z 150 |});
     ex_positions := Ok [];
     ex_position_news := fun _ => Ok [];
     ex_confirm := fun _ => Raise "not asked";
     ex_broker := fun _ => Ok {| od_id := "order-1"; od_price := None |} |}.

(** A HOLD of ACME with confidence 80, stored as row 1. *)
Definition hold_proposal : TradeProposal :=
  {| tp_id := Some 1; tp_ticker := "ACME"; tp_action := HOLD; tp_quantity := 0;
     tp_proposed_price := Some (inject_Z 150); tp_reasoning := "mixed picture";
     tp_confidence_score := Some (inject_Z 80); tp_analysis_event_id := Some 1;
     tp_debate_id := Some 1; tp_status := PENDING |}.

(** Funds are short, OLD and XYZ are held, and the confirmation call
    declines to rebalance. *)
Definition declined_execution : ExecEnv :=
  {| ex_latency := 1000;
     ex_ledger := fun _ => None;
     ex_account := Ok poor_account;
     ex_snapshot := Ok (Some {| sn_price := inject_Z 150 |});
     ex_positions := Ok [holding "OLD"; holding "XYZ"];
     ex_position_news := fun _ => Ok [];
     ex_confirm := fun _ =>
       Ok (Encodes (JObj [("should_rebalance", JBool false);
                          ("reasoning", JStr "both positions look sound")]));
     ex_broker := fun _ => Ok (filled (inject_Z 150)) |}.

(** A screening whose oracle finds nothing of interest. *)
Definition screening_dull : ScreenEnv :=
  {| sc_articles := Ok [{| ar_title := "ACME names new auditor";
                           ar_content_text := Some "ACME said ..." |}];
     sc_snapshot := Ok (Some {| sn_price := inject_Z 150 |});
     sc_refetch := Raise "not asked";
     sc_llm := fun _ =>
       Ok (Encodes (JObj [("is_interesting", JBool false);
                          ("reasoning", JStr "routine news");
                          ("confidence", JNum (inject_Z 20))]));
     sc_save_event := None |}.

Definition dull_ticker : TickerEnv :=
  {| te_screen := screening_dull;
     te_debate := silent_debate;
     te_proposal := silent_proposal;
     te_review := silent_review;
     te_exec := smooth_execution |}.

(** An interesting ticker whose debate loses the consensus call. *)
Definition undebated_ticker : TickerEnv :=
  {| te_screen := screening_interesting;
     te_debate := debate_without_consensus;
     te_proposal := proposal_from confident_buy;
     te_review := approving_review;
     te_exec := smooth_execution |}.

(** The trader's own analysis: the oracle proposes the timid BUY. *)
Definition own_analysis : SelfAnalysis.SelfEnv :=
  {| SelfAnalysis.sa_articles :=
       Ok [{| ar_title := "ACME beats estimates";
              ar_content_text := Some "ACME reported ..." |}];
     SelfAnalysis.sa_snapshot := Ok (Some {| sn_price := inject_Z 150 |});
     SelfAnalysis.sa_recent_trades := None;
     SelfAnalysis.sa_llm := fun _ => Ok (Encodes (JObj timid_buy));
     SelfAnalysis.sa_save := None |}.

(** The limiter of the oracle client, 1000 calls a minute, ten
    milliseconds after its last call. *)
Definition busy_limiter : LLMClient.Timed :=
  {| LLMClient.limiter :=
       {| LLMClient.max_calls := 1000; LLMClient.period_seconds := 60;
          LLMClient.min_interval := LLMClient.binary64 (60 # 1000);
          LLMClient.last_call_time := inject_Z 100 |};
     LLMClient.now := LLMClient.binary64 (10001 # 100) |}.

(** A cleaner whose oracle finds the article usable and undated. *)
Definition cleaner : NewsCleaning.CleanEnv :=
  {| NewsCleaning.cn_chat := fun _ =>
       Ok (Encodes (JObj [("title", JStr "ACME beats estimates");
                          ("ticker", JStr "ACME");
                          ("content_text", JStr "ACME reported ...");
                          ("is_usable", JBool true);
                          ("reason", JStr "about ACME");
                          ("timestamp", JNull)]));
     NewsCleaning.cn_chat_model := "chat-model";
     NewsCleaning.cn_isoparse := fun _ => Raise "not an ISO 8601 string";
     NewsCleaning.cn_lax_bool := fun _ => Raise "Input should be a valid boolean";
     NewsCleaning.cn_float := fun q => negb (Qden q =? 1)%positive;
     NewsCleaning.cn_now := monday_afternoon |}.

End Demo.
(** * Properties *)

(** ** Dictionaries *)

Lemma dict_get_set_same (d : dict) (k : string) (v : json) :
  dict_get (dict_set d k v) k = Some v.
Proof.
  induction d as [|[k' v'] d IH]; simpl.
  - now rewrite String.eqb_refl.
  - destruct (String.eqb k' k) eqn:E; simpl.
    + now rewrite String.eqb_refl.
    + now rewrite E.
Qed.

Lemma dict_get_set_other (d : dict) (k k' : string) (v : json) :
  k <> k' -> dict_get (dict_set d k v) k' = dict_get d k'.
Proof.
  intros Hne. induction d as [|[k0 v0] d IH]; simpl.
  - destruct (String.eqb k k') eqn:E; [apply String.eqb_eq in E; contradiction|reflexivity].
  - destruct (String.eqb k0 k) eqn:E; simpl.
    + apply String.eqb_eq in E. subst k0.
      destruct (String.eqb k k') eqn:E'; [apply String.eqb_eq in E'; contradiction|reflexivity].
    + destruct (String.eqb k0 k'); [reflexivity|exact IH].
Qed.

(** ** Sequencing *)

#[export] Instance same_ledger_pre : Pre same_ledger.
Proof. split; unfold same_ledger; congruence. Qed.

#[export] Instance same_orders_pre : Pre same_orders.
Proof. split; unfold same_orders; congruence. Qed.

#[export] Instance same_trades_pre : Pre same_trades.
Proof. split; unfold same_trades; congruence. Qed.

#[export] Instance same_lock_pre : Pre same_lock.
Proof. split; unfold same_lock; intuition congruence. Qed.

#[export] Instance later_pre : Pre later.
Proof. split; unfold later; intros; lia. Qed.

Section Keeps.
Context (R : World -> World -> Prop) `{Pre R}.

Lemma keeps_ret {A : Type} (a : A) : keeps R (ret a).
Proof. intro w. apply pre_refl. Qed.

Lemma keeps_raise {A : Type} (e : string) : keeps R (@raise A e).
Proof. intro w. apply pre_refl. Qed.

Lemma keeps_lift {A : Type} (r : result A) : keeps R (lift r).
Proof. intro w. apply pre_refl. Qed.

Lemma keeps_bind {A B : Type} (c : M A) (k : A -> M B) :
  keeps R c -> (forall a, keeps R (k a)) -> keeps R (bind c k).
Proof.
  intros Hc Hk w. unfold bind. specialize (Hc w).
  destruct (c w) as [[a|e] w']; simpl in *.
  - eapply pre_trans; [exact Hc|apply Hk].
  - exact Hc.
Qed.

Lemma keeps_try_except {A : Type} (c : M A) (h : string -> M A) :
  keeps R c -> (forall e, keeps R (h e)) -> keeps R (try_except c h).
Proof.
  intros Hc Hh w. unfold try_except. specialize (Hc w).
  destruct (c w) as [[a|e] w']; simpl in *.
  - exact Hc.
  - eapply pre_trans; [exact Hc|apply Hh].
Qed.

End Keeps.

(** Taking a computation apart along its control structure. *)
Ltac keeps_step :=
  match goal with
  | |- keeps _ (bind _ _) => apply keeps_bind; [exact _| |intro]
  | |- keeps _ (try_except _ _) => apply keeps_try_except; [exact _| |intro]
  | |- keeps _ (ret _) => apply keeps_ret; exact _
  | |- keeps _ (raise _) => apply keeps_raise; exact _
  | |- keeps _ (lift _) => apply keeps_lift; exact _
  | |- keeps _ (match ?x with _ => _ end) => destruct x
  | |- keeps _ (if ?b then _ else _) => destruct b
  end.

Lemma always_raises_bind_l {A B : Type} (c : M A) (k : A -> M B) :
  always_raises c -> always_raises (bind c k).
Proof.
  intros Hc w. destruct (Hc w) as [e He]. exists e. unfold bind.
  destruct (c w) as [[a|e'] w']; simpl in *; congruence.
Qed.

Lemma always_raises_bind_r {A B : Type} (c : M A) (k : A -> M B) :
  (forall a, always_raises (k a)) -> always_raises (bind c k).
Proof.
  intros Hk w. unfold bind.
  destruct (c w) as [[a|e'] w']; simpl.
  - apply Hk.
  - now exists e'.
Qed.

Lemma always_raises_lift {A : Type} (e : string) :
  always_raises (@lift A (Raise e)).
Proof. intro w. now exists e. Qed.

Lemma always_raises_bind_lift {A B : Type} (r : result A) (k : A -> M B) :
  (forall a, r = Ok a -> always_raises (k a)) -> always_raises (bind (lift r) k).
Proof.
  intros Hk w. unfold bind, lift. destruct r as [a|e]; simpl.
  - now apply Hk.
  - now exists e.
Qed.

(** A handler that does not raise makes the whole [try] safe. *)
Lemma never_raises_try_except {A : Type} (c : M A) (h : string -> M A) :
  (forall e, never_raises (h e)) -> never_raises (try_except c h).
Proof.
  intros Hh w. unfold try_except.
  destruct (c w) as [[a|e] w']; simpl.
  - now exists a.
  - apply Hh.
Qed.

(** ** What the primitives leave alone *)

Lemma sleep_same_ledger n : keeps same_ledger (sleep n).
Proof. intro w. reflexivity. Qed.

Lemma sleep_same_orders n : keeps same_orders (sleep n).
Proof. intro w. reflexivity. Qed.

Lemma sleep_same_lock n : keeps same_lock (sleep n).
Proof. intro w. split; reflexivity. Qed.

Lemma sleep_later n : keeps later (sleep n).
Proof. intro w. unfold later. simpl. lia. Qed.

Lemma get_recent_trades_same (R : World -> World -> Prop) `{Pre R} f t d :
  keeps R (get_recent_trades f t d).
Proof. intro w. unfold get_recent_trades. destruct f; apply pre_refl. Qed.

Lemma has_traded_today_same (R : World -> World -> Prop) `{Pre R} f :
  keeps R (has_traded_today f).
Proof. intro w. unfold has_traded_today. destruct f; apply pre_refl. Qed.

(** ** The risk gate *)

Module RiskGate.
Import PortfolioManager TradingGraph.

Section Facts.
Context {RT : Runtime}.

Lemma buying_power_check_same (R : World -> World -> Prop) `{Pre R}
  env proposal account current_position :
  keeps R (buying_power_check env proposal account current_position).
Proof. unfold buying_power_check. repeat keeps_step. Qed.

Lemma decide_same (R : World -> World -> Prop) `{Pre R} env proposal context :
  keeps R (decide env proposal context).
Proof. unfold decide. repeat keeps_step. Qed.

(** The risk gate reads: it writes no row and sends no order. *)
Lemma review_proposal_same_ledger env proposal :
  keeps same_ledger (review_proposal env proposal).
Proof.
  unfold review_proposal, review_body.
  repeat first [ apply sleep_same_ledger | apply get_recent_trades_same
               | apply buying_power_check_same | apply decide_same
               | keeps_step ]; exact _.
Qed.

Lemma review_proposal_same_orders env proposal :
  keeps same_orders (review_proposal env proposal).
Proof.
  unfold review_proposal, review_body.
  repeat first [ apply sleep_same_orders | apply get_recent_trades_same
               | apply buying_power_check_same | apply decide_same
               | keeps_step ]; exact _.
Qed.

Lemma review_proposal_never_raises env proposal :
  never_raises (review_proposal env proposal).
Proof.
  unfold review_proposal. apply never_raises_try_except.
  intros e w. now eexists.
Qed.

(** What comes out of the [try] when its body raises. *)
Lemma review_proposal_on_exception env proposal w e :
  fst (review_body env proposal w) = Raise e ->
  fst (review_proposal env proposal w) = Ok (rejection e).
Proof.
  unfold review_proposal, try_except. intros Hbody.
  destruct (review_body env proposal w) as [[d|e'] w']; simpl in *.
  - discriminate.
  - now inversion Hbody.
Qed.

Lemma rejection_is_reject e :
  get_is (rejection e) "decision" "REJECT" = true
  /\ get_is (rejection e) "decision" "APPROVE" = false.
Proof. split; reflexivity. Qed.

(** The floor of the gate: below 70 the decision that leaves [decide] is
    never APPROVE, whatever the oracle said. *)
Lemma decide_floor env proposal context w decision :
  Qgt_bool 70 (confidence_or_zero proposal) = true ->
  fst (decide env proposal context w) = Ok decision ->
  get_is decision "decision" "APPROVE" = false.
Proof.
  intros Hlow. unfold decide, bind, lift, ret. simpl.
  destruct (json_dumps_rows (rc_recent_trades context)); simpl; [|discriminate].
  destruct (rv_llm env context) as [response|]; simpl; [|discriminate].
  destruct (json_loads response) as [parsed|]; simpl; [|discriminate].
  destruct (as_object parsed) as [d|]; simpl; [|discriminate].
  rewrite Hlow. simpl.
  destruct (get_is d "decision" "APPROVE") eqn:Happ; simpl; intros Heq;
    inversion Heq; subst; clear Heq.
  - unfold get_is.
    rewrite dict_get_set_other by discriminate.
    rewrite dict_get_set_same. reflexivity.
  - exact Happ.
Qed.

Lemma review_body_floor env proposal w decision :
  Qgt_bool 70 (confidence_or_zero proposal) = true ->
  fst (review_body env proposal w) = Ok decision ->
  get_is decision "decision" "APPROVE" = false.
Proof.
  intros Hlow. unfold review_body.
  unfold bind at 1. simpl.
  unfold bind at 1. unfold lift at 1.
  destruct (rv_account env) as [account|]; simpl; [|discriminate].
  unfold bind at 1. unfold lift at 1.
  destruct (rv_positions env) as [positions|]; simpl; [|discriminate].
  unfold bind at 1.
  destruct (get_recent_trades (rv_recent_trades env) None 7 _) as [[recent|] w1];
    simpl; [|discriminate].
  unfold bind at 1.
  destruct (buying_power_check env proposal account _ w1) as [[cash|] w2];
    simpl; [|discriminate].
  apply decide_floor. exact Hlow.
Qed.

Lemma review_proposal_floor env proposal w decision :
  Qgt_bool 70 (confidence_or_zero proposal) = true ->
  fst (review_proposal env proposal w) = Ok decision ->
  get_is decision "decision" "APPROVE" = false.
Proof.
  intros Hlow. unfold review_proposal, try_except.
  destruct (review_body env proposal w) as [[d|e] w'] eqn:Hbody; simpl.
  - intros Heq. inversion Heq; subst.
    apply (review_body_floor env proposal w). exact Hlow. now rewrite Hbody.
  - intros Heq. inversion Heq; subst. reflexivity.
Qed.

(** Each step of the review that can fail makes the body raise. *)
Lemma review_body_raises env proposal :
  (exists e, rv_account env = Raise e)
  \/ (exists e, rv_positions env = Raise e)
  \/ (exists e, rv_recent_trades env = Some e)
  \/ (exists e, forall context, rv_llm env context = Raise e)
  \/ (exists e, forall context, rv_llm env context = Ok (Malformed e)) ->
  always_raises (review_body env proposal).
Proof.
  intros Hfail. unfold review_body.
  apply always_raises_bind_r; intros _.
  destruct Hfail as [[e He]|[[e He]|[[e He]|[[e He]|[e He]]]]].
  - apply always_raises_bind_l. rewrite He. apply always_raises_lift.
  - apply always_raises_bind_r; intros account.
    apply always_raises_bind_l. rewrite He. apply always_raises_lift.
  - apply always_raises_bind_r; intros account.
    apply always_raises_bind_r; intros positions.
    apply always_raises_bind_l. intro w. exists e.
    unfold get_recent_trades. now rewrite He.
  - do 4 (apply always_raises_bind_r; intros ?).
    unfold decide.
    apply always_raises_bind_r; intros _.
    apply always_raises_bind_l. rewrite He. apply always_raises_lift.
  - do 4 (apply always_raises_bind_r; intros ?).
    unfold decide.
    apply always_raises_bind_r; intros _.
    apply always_raises_bind_lift; intros response Hresponse.
    rewrite He in Hresponse. inversion Hresponse; subst.
    apply always_raises_bind_l. apply always_raises_lift.
Qed.

(** C10. The risk-gate review is total and fails closed: it always
    returns a decision and writes nothing; whenever a step of its body
    raises (broker account or positions, the ledger read, the oracle
    call, parsing the oracle's answer) the decision is the REJECT
    dictionary of the except clause, and the graph then routes to END
    without touching the ledger or the broker. *)
Theorem review_proposal_fails_closed
  (env : TickerEnv) (proposal : TradeProposal) (w : World) :
  (exists decision w',
      review_proposal (te_review env) proposal w = (Ok decision, w')
      /\ ledger w' = ledger w /\ orders w' = orders w)
  /\ (forall e,
        fst (review_body (te_review env) proposal w) = Raise e ->
        fst (review_proposal (te_review env) proposal w) = Ok (rejection e))
  /\ ((exists e, rv_account (te_review env) = Raise e)
      \/ (exists e, rv_positions (te_review env) = Raise e)
      \/ (exists e, rv_recent_trades (te_review env) = Some e)
      \/ (exists e, forall context, rv_llm (te_review env) context = Raise e)
      \/ (exists e, forall context,
             rv_llm (te_review env) context = Ok (Malformed e)) ->
      exists e,
        fst (review_proposal (te_review env) proposal w) = Ok (rejection e))
  /\ (forall e state,
        ts_trade_proposal state = Some proposal ->
        fst (review_body (te_review env) proposal w) = Raise e ->
        exists state' w',
          node_step env review_proposal_node state w = (Ok (END, state'), w')
          /\ ts_portfolio_decision state' = Some (rejection e)
          /\ ledger w' = ledger w /\ orders w' = orders w).
Proof.
  assert (Hledger := review_proposal_same_ledger (te_review env) proposal w).
  assert (Horders := review_proposal_same_orders (te_review env) proposal w).
  destruct (review_proposal_never_raises (te_review env) proposal w) as [d Hd].
  unfold same_ledger in Hledger. unfold same_orders in Horders.
  repeat split.
  - exists d, (snd (review_proposal (te_review env) proposal w)).
    repeat split; try assumption.
    destruct (review_proposal (te_review env) proposal w); simpl in *; congruence.
  - intros e. apply review_proposal_on_exception.
  - intros Hfail.
    destruct (@review_body_raises (te_review env) proposal Hfail w) as [e He].
    exists e. now apply review_proposal_on_exception.
  - intros e state Hproposal Hbody.
    assert (Hrej := review_proposal_on_exception _ _ _ Hbody).
    unfold node_step, _review_proposal, guarded. rewrite Hproposal.
    unfold try_except, bind, lift, ret.
    destruct (review_proposal (te_review env) proposal w) as [[d'|e'] w'];
      simpl in *; [|discriminate].
    inversion Hrej; subst. simpl.
    eexists; eexists. repeat split; assumption.
Qed.

End Facts.

(** A run of the theorem: the oracle of the review is down. *)
Lemma review_proposal_fails_closed_witness :
  exists e,
    fst (review_proposal (RT := Demo.runtime) Demo.review_with_oracle_down
           (Demo.acme_proposal (inject_Z 85))
           (Demo.world_with (Demo.acme_proposal (inject_Z 85))))
    = Ok (rejection e).
Proof.
  destruct (@review_proposal_fails_closed Demo.runtime
              {| te_screen := Demo.silent_screen; te_debate := Demo.silent_debate;
                 te_proposal := Demo.silent_proposal;
                 te_review := Demo.review_with_oracle_down;
                 te_exec := Demo.smooth_execution |}
              (Demo.acme_proposal (inject_Z 85))
              (Demo.world_with (Demo.acme_proposal (inject_Z 85))))
    as [_ [_ [Hsteps _]]].
  apply Hsteps.
  right. right. right. left. exists "Connection error.". reflexivity.
Defined.

(** The same run, in full: REJECT with the error text, one second later. *)
Example review_with_oracle_down_rejects :
  review_proposal (RT := Demo.runtime) Demo.review_with_oracle_down
    (Demo.acme_proposal (inject_Z 85))
    (Demo.world_with (Demo.acme_proposal (inject_Z 85)))
  = (Ok [("decision", JStr "REJECT");
         ("reasoning", JStr "Review failed: Connection error.")],
     with_clock (fun t => t + 1000)
       (Demo.world_with (Demo.acme_proposal (inject_Z 85)))).
Proof. vm_compute. reflexivity. Qed.

End RiskGate.

(** ** The confidence floor through the graph *)

Module ConfidenceFloor.
Import PortfolioManager TradingGraph RiskGate.

Section Facts.
Context {RT : Runtime}.

(** Below 70 the graph leaves the review node for END: nothing is
    written, nothing is sent. *)
Lemma low_confidence_stops_at_review (env : TickerEnv) (state : TradingState)
  (proposal : TradeProposal) (w : World) (limit : nat) :
  ts_trade_proposal state = Some proposal ->
  Qgt_bool 70 (confidence_or_zero proposal) = true ->
  ledger (snd (invoke_from limit env review_proposal_node state w)) = ledger w
  /\ orders (snd (invoke_from limit env review_proposal_node state w)) = orders w.
Proof.
  intros Hproposal Hlow.
  destruct limit as [|limit]; simpl; [split; reflexivity|].
  assert (Hledger := review_proposal_same_ledger (te_review env) proposal w).
  assert (Horders := review_proposal_same_orders (te_review env) proposal w).
  assert (Hfloor := @review_proposal_floor _ (te_review env) proposal w).
  destruct (review_proposal_never_raises (te_review env) proposal w) as [d0 Hd0].
  unfold same_ledger in Hledger. unfold same_orders in Horders.
  unfold _review_proposal, guarded. rewrite Hproposal.
  unfold try_except, bind, lift, ret.
  destruct (review_proposal (te_review env) proposal w) as [[d|e] w'];
    simpl in *; [|discriminate].
  rewrite (Hfloor d Hlow eq_refl). simpl.
  destruct limit; simpl; split; assumption.
Qed.

(** C2. A proposal that reaches the risk gate, from whatever path, ends
    EXECUTED only if its confidence is at least 70: below 70 the gate
    turns every oracle verdict into a decision that is not APPROVE, the
    graph routes to END, and the ledger and the broker are left as they
    were. *)
Theorem executed_implies_confidence_floor (env : TickerEnv)
  (state : TradingState) (proposal : TradeProposal) (w : World) (limit : nat) :
  ts_trade_proposal state = Some proposal ->
  Ledger.status_of (ledger w) (tp_id proposal) <> Some EXECUTED ->
  Ledger.status_of
    (ledger (snd (invoke_from limit env review_proposal_node state w)))
    (tp_id proposal) = Some EXECUTED ->
  (70 <= confidence_or_zero proposal)%Q.
Proof.
  intros Hproposal Hbefore Hafter.
  destruct (Qle_bool 70 (confidence_or_zero proposal)) eqn:Hconf.
  - now apply Qle_bool_iff.
  - exfalso. apply Hbefore.
    assert (Hlow : Qgt_bool 70 (confidence_or_zero proposal) = true)
      by (unfold Qgt_bool; now rewrite Hconf).
    destruct (low_confidence_stops_at_review env state w limit Hproposal Hlow)
      as [Hledger _].
    now rewrite Hledger in Hafter.
Qed.

End Facts.

(** A run of the theorem: confidence 85, approved and filled. *)
Lemma executed_implies_confidence_floor_witness :
  Ledger.status_of
    (ledger (snd (invoke_from (RT := Demo.runtime) recursion_limit
                    Demo.smooth_ticker review_proposal_node
                    (Demo.proposed_state (inject_Z 85))
                    (Demo.world_with (Demo.acme_proposal (inject_Z 85))))))
    (Some 1)
  = Some EXECUTED
  /\ (70 <= inject_Z 85)%Q.
Proof.
  assert (Hafter :
    Ledger.status_of
      (ledger (snd (invoke_from (RT := Demo.runtime) recursion_limit
                      Demo.smooth_ticker review_proposal_node
                      (Demo.proposed_state (inject_Z 85))
                      (Demo.world_with (Demo.acme_proposal (inject_Z 85))))))
      (Some 1)
    = Some EXECUTED) by (vm_compute; reflexivity).
  split; [exact Hafter|].
  refine (@executed_implies_confidence_floor Demo.runtime Demo.smooth_ticker
            (Demo.proposed_state (inject_Z 85))
            (Demo.acme_proposal (inject_Z 85))
            (Demo.world_with (Demo.acme_proposal (inject_Z 85)))
            recursion_limit eq_refl _ Hafter).
  vm_compute. discriminate.
Defined.

(** Confidence 65 with an oracle that approves: the gate rewrites the
    decision, nothing is executed, the row stays as it was. *)
Example low_confidence_is_rejected_at_the_gate :
  let outcome :=
    invoke_from (RT := Demo.runtime) recursion_limit Demo.smooth_ticker
      review_proposal_node (Demo.proposed_state (inject_Z 65))
      (Demo.world_with (Demo.acme_proposal (inject_Z 65))) in
  option_map ts_portfolio_decision
    (match fst outcome with Ok s => Some s | Raise _ => None end)
  = Some (Some [("decision", JStr "REJECT");
                ("reasoning",
                 JStr "strong evidence [Rejected: Confidence 65 < 70 required]")])
  /\ orders (snd outcome) = []
  /\ Ledger.trades (ledger (snd outcome)) = []
  /\ Ledger.status_of (ledger (snd outcome)) (Some 1) = Some PENDING.
Proof. vm_compute. repeat split. Qed.

End ConfidenceFloor.

(** ** The execution stage *)

Module Execution.
Import PortfolioManager TradingGraph.

(** The status column after an UPDATE that found the row. *)
Lemma status_of_set_status (l : Ledger.t) (i : option Z) (s : Status) :
  Ledger.status_of l i <> None ->
  Ledger.status_of (Ledger.set_status i s l) i = Some s.
Proof.
  unfold Ledger.status_of, Ledger.set_status. simpl.
  induction (Ledger.proposals l) as [|p rows IH]; simpl.
  - intros Hrow. now contradiction Hrow.
  - destruct (Ledger.id_is (tp_id p) i) eqn:Hid; simpl.
    + unfold Ledger.set_tp_status at 1. simpl. rewrite Hid. reflexivity.
    + rewrite Hid. exact IH.
Qed.

Lemma trades_set_status (l : Ledger.t) (i : option Z) (s : Status) :
  Ledger.trades (Ledger.set_status i s l) = Ledger.trades l.
Proof. reflexivity. Qed.

Section Facts.
Context {RT : Runtime}.

(** The rebalancing block when the confirmation names another position:
    one UPDATE to REJECTED, and the block gives up. *)
Lemma rebalance_block_on_disagreement (env : ExecEnv) (proposal : TradeProposal)
  (decision : dict) (target : string) (amount : json) (account : Account)
  (cash : Q) (positions : list Position) (second_opinion : dict) (w : World) :
  dict_get decision "position_to_sell" = Some (JStr target) ->
  target <> "" ->
  dict_get decision "sell_quantity" = Some amount ->
  truthy amount = true ->
  tp_action proposal = BUY ->
  ex_account env = Ok account ->
  required_cash_now env proposal = Ok cash ->
  Qgt_bool cash (ac_buying_power account) = true ->
  ex_positions env = Ok positions ->
  position_exists positions (JStr target) = true ->
  _evaluate_position_to_sell env proposal positions cash = Ok (Some second_opinion) ->
  get_is second_opinion "ticker" target = false ->
  rebalance_block env proposal decision w
  = (update_proposal_status (ex_ledger env AtChanged) (tp_id proposal) REJECTED ;;;
     ret Abandon) w.
Proof.
  intros Htarget Hnonempty Hamount Htruthy Hbuy Haccount Hcash Hshort Hpositions
         Hexists Hsecond Hother.
  unfold rebalance_block. rewrite Htarget, Hamount, Htruthy, Hbuy.
  assert (Hname : truthy (JStr target) = true).
  { simpl. destruct (String.eqb target "") eqn:E; [|reflexivity].
    apply String.eqb_eq in E. contradiction. }
  rewrite Hname. simpl.
  unfold bind at 1. unfold lift at 1. rewrite Haccount.
  unfold bind at 1. unfold lift at 1. rewrite Hcash.
  rewrite Hshort.
  unfold bind at 1. unfold lift at 1. rewrite Hpositions.
  rewrite Hexists. simpl.
  unfold bind at 1. unfold lift at 1. rewrite Hsecond.
  unfold names_target. rewrite Hother. reflexivity.
Qed.

(** C6, as amended. When the risk decision flags the position [target]
    for a rebalancing sell and the confirmation call comes back naming
    another position, [execute_trade] sends no order and stores no
    ExecutedTrade; once one of its two UPDATE statements goes through
    (the one of the branch, or the one of the except clause) it returns
    None with the proposal REJECTED; and when both fail it raises the
    second failure and the ledger is as it was. *)
Theorem rebalance_disagreement_aborts (env : ExecEnv) (proposal : TradeProposal)
  (decision : dict) (target : string) (amount : json) (account : Account)
  (cash : Q) (positions : list Position) (second_opinion : dict) (w : World) :
  get_is decision "decision" "APPROVE" = true ->
  dict_get decision "position_to_sell" = Some (JStr target) ->
  target <> "" ->
  dict_get decision "sell_quantity" = Some amount ->
  truthy amount = true ->
  tp_action proposal = BUY ->
  ex_account env = Ok account ->
  required_cash_now env proposal = Ok cash ->
  Qgt_bool cash (ac_buying_power account) = true ->
  ex_positions env = Ok positions ->
  position_exists positions (JStr target) = true ->
  _evaluate_position_to_sell env proposal positions cash = Ok (Some second_opinion) ->
  get_is second_opinion "ticker" target = false ->
  let outcome := execute_trade env proposal decision w in
  orders (snd outcome) = orders w
  /\ Ledger.trades (ledger (snd outcome)) = Ledger.trades (ledger w)
  /\ (ex_ledger env AtChanged = None \/ ex_ledger env AtHandler = None ->
      fst outcome = Ok None
      /\ ledger (snd outcome)
         = Ledger.set_status (tp_id proposal) REJECTED (ledger w)
      /\ (Ledger.status_of (ledger w) (tp_id proposal) <> None ->
          Ledger.status_of (ledger (snd outcome)) (tp_id proposal)
          = Some REJECTED))
  /\ (forall e1 e2,
        ex_ledger env AtChanged = Some e1 -> ex_ledger env AtHandler = Some e2 ->
        fst outcome = Raise e2 /\ ledger (snd outcome) = ledger w).
Proof.
  intros Happrove Htarget Hnonempty Hamount Htruthy Hbuy Haccount Hcash Hshort
         Hpositions Hexists Hsecond Hother outcome.
  assert (Hrun :
    outcome
    = let w1 := with_clock (fun t => t + Z.of_N (ex_latency env)) w in
      let rejected := with_ledger (Ledger.set_status (tp_id proposal) REJECTED) w1 in
      match ex_ledger env AtChanged, ex_ledger env AtHandler with
      | None, _ => (Ok None, rejected)
      | Some _, None => (Ok None, rejected)
      | Some _, Some e => (Raise e, w1)
      end).
  { subst outcome. unfold execute_trade.
    unfold bind at 1. simpl. rewrite Happrove. simpl.
    unfold try_except. unfold bind at 1.
    rewrite (rebalance_block_on_disagreement env proposal decision _
               Htarget Hnonempty Hamount Htruthy Hbuy Haccount Hcash Hshort
               Hpositions Hexists Hsecond Hother).
    unfold bind, update_proposal_status, statement, ret.
    destruct (ex_ledger env AtChanged); simpl;
      destruct (ex_ledger env AtHandler); reflexivity. }
  rewrite Hrun. clear Hrun outcome. simpl.
  destruct (ex_ledger env AtChanged) as [e1|] eqn:Hchanged;
    destruct (ex_ledger env AtHandler) as [e2|] eqn:Hhandler; simpl;
    (split; [reflexivity|split; [reflexivity|split]]);
    try (intros e1' e2' H1 H2; discriminate).
  - intros [Hc|Hh]; discriminate.
  - intros e1' e2' H1 H2. inversion H2; subst. split; reflexivity.
  - intros _. split; [reflexivity|split; [reflexivity|]].
    intros Hrow. now apply status_of_set_status.
  - intros _. split; [reflexivity|split; [reflexivity|]].
    intros Hrow. now apply status_of_set_status.
  - intros _. split; [reflexivity|split; [reflexivity|]].
    intros Hrow. now apply status_of_set_status.
Qed.

(** Unfolding a stage down to the answers of its collaborators. *)
Ltac by_cases :=
  repeat match goal with
         | |- context [match ?x with _ => _ end] =>
             lazymatch x with
             | context [match _ with _ => _ end] => fail
             | _ => destruct x eqn:?; simpl
             end
         end.

(** What the rebalancing block does to the ledger: one UPDATE to REJECTED
    when it gives up, nothing otherwise. *)
Lemma rebalance_block_ledger (env : ExecEnv) (proposal : TradeProposal)
  (decision : dict) (w : World) :
  match fst (rebalance_block env proposal decision w) with
  | Ok Abandon =>
      ledger (snd (rebalance_block env proposal decision w))
      = Ledger.set_status (tp_id proposal) REJECTED (ledger w)
      /\ orders (snd (rebalance_block env proposal decision w)) = orders w
  | _ => ledger (snd (rebalance_block env proposal decision w)) = ledger w
  end.
Proof.
  cbv beta delta [rebalance_block bind lift ret update_proposal_status
                    statement sell_to_rebalance submit_order sleep].
  by_cases; try reflexivity; try (split; reflexivity).
Qed.

Lemma status_of_add_trade (l : Ledger.t) (t : Z) (x : ExecutedTrade) (i : option Z) :
  Ledger.status_of (Ledger.add_trade t x l) i = Ledger.status_of l i.
Proof. reflexivity. Qed.

(** What the main order does to the ledger: when it returns, a trade row
    was appended and the proposal set to EXECUTED; when it raises, at
    most the trade row was written. It never returns None, and it
    returns only after the broker acknowledged the order. *)
Lemma main_trade_ledger (env : ExecEnv) (proposal : TradeProposal)
  (decision : dict) (w : World) :
  match fst (main_trade env proposal decision w) with
  | Ok (Some x) =>
      exists row order,
        ex_broker env (main_request proposal decision) = Ok order
        /\ ledger (snd (main_trade env proposal decision w))
           = Ledger.set_status (tp_id proposal) EXECUTED
               (Ledger.add_trade (clock w) row (ledger w))
  | Ok None => False
  | Raise e =>
      ledger (snd (main_trade env proposal decision w)) = ledger w
      \/ exists row,
           ledger (snd (main_trade env proposal decision w))
           = Ledger.add_trade (clock w) row (ledger w)
  end.
Proof.
  cbv beta delta [main_trade bind lift ret update_proposal_status statement
                    submit_order save_executed_trade].
  by_cases; try (left; reflexivity); try (right; eexists; reflexivity).
  eexists; eexists. split; reflexivity.
Qed.

(** The two ways an approved execution can end once the UPDATE of the
    except clause goes through: None and REJECTED, or a trade and
    EXECUTED. It never raises and never leaves the status as it was. *)
Lemma execute_trade_ends (env : ExecEnv) (proposal : TradeProposal)
  (decision : dict) (w w' : World) (r : result (option ExecutedTrade)) :
  get_is decision "decision" "APPROVE" = true ->
  ex_ledger env AtHandler = None ->
  Ledger.status_of (ledger w) (tp_id proposal) <> None ->
  execute_trade env proposal decision w = (r, w') ->
  (r = Ok None
   /\ Ledger.status_of (ledger w') (tp_id proposal) = Some REJECTED)
  \/ (exists x order,
        r = Ok (Some x)
        /\ ex_broker env (main_request proposal decision) = Ok order
        /\ Ledger.status_of (ledger w') (tp_id proposal) = Some EXECUTED).
Proof.
  intros Happrove Hhandler Hrow.
  unfold execute_trade. unfold bind at 1. simpl. rewrite Happrove. simpl.
  set (w1 := with_clock (fun t => t + Z.of_N (ex_latency env)) w).
  assert (Hrow1 : Ledger.status_of (ledger w1) (tp_id proposal) <> None)
    by exact Hrow.
  clearbody w1.
  unfold try_except. unfold bind at 1.
  assert (Hblock := rebalance_block_ledger env proposal decision w1).
  destruct (rebalance_block env proposal decision w1) as [[[|]|e] w2];
    simpl in Hblock.
  - (* the block proceeds: the main order *)
    assert (Hmain := main_trade_ledger env proposal decision w2).
    destruct (main_trade env proposal decision w2) as [[[x|]|e] w3];
      simpl in Hmain.
    + intros Hrun. inversion Hrun; subst r w'. clear Hrun.
      right. destruct Hmain as [row [order [Hack Hledger]]].
      exists x, order. split; [reflexivity|split; [assumption|]].
      rewrite Hledger. apply status_of_set_status.
      rewrite status_of_add_trade, Hblock. exact Hrow1.
    + contradiction.
    + unfold bind, update_proposal_status, statement, ret.
      rewrite Hhandler. simpl.
      intros Hrun. inversion Hrun; subst r w'. clear Hrun.
      left. split; [reflexivity|].
      apply status_of_set_status.
      destruct Hmain as [Hsame|[row Hsaved]].
      * rewrite Hsame, Hblock. exact Hrow1.
      * rewrite Hsaved, status_of_add_trade, Hblock. exact Hrow1.
  - (* the block gave up *)
    simpl. intros Hrun. inversion Hrun; subst r w'. clear Hrun.
    left. split; [reflexivity|].
    destruct Hblock as [Hledger _]. rewrite Hledger.
    now apply status_of_set_status.
  - (* the block raised *)
    unfold bind, update_proposal_status, statement, ret.
    rewrite Hhandler. simpl.
    intros Hrun. inversion Hrun; subst r w'. clear Hrun.
    left. split; [reflexivity|].
    apply status_of_set_status. simpl. rewrite Hblock. exact Hrow1.
Qed.

(** A refused main order leaves the table of trades as it was. *)
Lemma refused_order_stores_nothing (env : ExecEnv) (proposal : TradeProposal)
  (decision : dict) (w w' : World) (r : result (option ExecutedTrade))
  (e : string) :
  ex_broker env (main_request proposal decision) = Raise e ->
  execute_trade env proposal decision w = (r, w') ->
  Ledger.trades (ledger w') = Ledger.trades (ledger w).
Proof.
  intros Hrefused.
  unfold execute_trade. unfold bind at 1. simpl.
  set (w1 := with_clock (fun t => t + Z.of_N (ex_latency env)) w).
  assert (Hw1 : Ledger.trades (ledger w1) = Ledger.trades (ledger w))
    by reflexivity.
  clearbody w1.
  destruct (get_is decision "decision" "APPROVE"); simpl.
  - unfold try_except. unfold bind at 1.
    assert (Hblock := rebalance_block_ledger env proposal decision w1).
    destruct (rebalance_block env proposal decision w1) as [[[|]|e'] w2];
      simpl in Hblock.
    + unfold main_trade. unfold bind at 1. unfold submit_order at 1.
      rewrite Hrefused.
      unfold bind, update_proposal_status, statement, ret.
      destruct (ex_ledger env AtHandler); simpl;
        intros Hrun; inversion Hrun; subst; simpl; rewrite Hblock; exact Hw1.
    + simpl. destruct Hblock as [Hledger _].
      intros Hrun; inversion Hrun; subst. rewrite Hledger. exact Hw1.
    + unfold bind, update_proposal_status, statement, ret.
      destruct (ex_ledger env AtHandler); simpl;
        intros Hrun; inversion Hrun; subst; simpl; rewrite Hblock; exact Hw1.
  - unfold bind, update_proposal_status, statement, ret.
    destruct (ex_ledger env AtNotApproved); simpl;
      intros Hrun; inversion Hrun; subst; exact Hw1.
Qed.

(** The orders of the rebalancing block: none, or one; and when the
    block goes on to the main order, the one it sent was acknowledged. *)
Lemma rebalance_block_sent (env : ExecEnv) (proposal : TradeProposal)
  (decision : dict) (w : World) :
  orders (snd (rebalance_block env proposal decision w)) = orders w
  \/ exists req,
       orders (snd (rebalance_block env proposal decision w)) = orders w ++ [req]
       /\ (fst (rebalance_block env proposal decision w) = Ok Proceed ->
           exists order, ex_broker env req = Ok order).
Proof.
  cbv beta delta [rebalance_block bind lift ret update_proposal_status
                    statement sell_to_rebalance submit_order sleep].
  by_cases; try (left; reflexivity);
    right; eexists; (split; [reflexivity|]); intros Hgoes;
    try discriminate; eexists; eassumption.
Qed.

(** The order of the main trade: always the one request. *)
Lemma main_trade_sent (env : ExecEnv) (proposal : TradeProposal)
  (decision : dict) (w : World) :
  orders (snd (main_trade env proposal decision w))
  = orders w ++ [main_request proposal decision].
Proof.
  cbv beta delta [main_trade bind lift ret update_proposal_status statement
                    submit_order save_executed_trade].
  by_cases; reflexivity.
Qed.

(** The except clause of [execute_trade]: one UPDATE, then None. *)
Lemma handler_outcome (env : ExecEnv) (proposal : TradeProposal) (w : World) :
  let outcome :=
    (update_proposal_status (ex_ledger env AtHandler) (tp_id proposal) REJECTED ;;;
     ret (@None ExecutedTrade)) w in
  orders (snd outcome) = orders w
  /\ Ledger.trades (ledger (snd outcome)) = Ledger.trades (ledger w)
  /\ (forall x, fst outcome <> Ok (Some x))
  /\ (ex_ledger env AtHandler = None ->
      fst outcome = Ok None
      /\ ledger (snd outcome)
         = Ledger.set_status (tp_id proposal) REJECTED (ledger w)).
Proof.
  unfold bind, update_proposal_status, statement, ret.
  destruct (ex_ledger env AtHandler) as [e|]; simpl.
  - split; [reflexivity|split; [reflexivity|split; [discriminate|discriminate]]].
  - split; [reflexivity|split; [reflexivity|split; [discriminate|]]].
    intros _. split; reflexivity.
Qed.

(** A refused main order: the request went out and nothing else
    happened. *)
Lemma main_trade_refused (env : ExecEnv) (proposal : TradeProposal)
  (decision : dict) (w : World) (e : string) :
  ex_broker env (main_request proposal decision) = Raise e ->
  main_trade env proposal decision w
  = (Raise e,
     with_orders (fun sent => sent ++ [main_request proposal decision]) w).
Proof.
  intros Hrefused. unfold main_trade. unfold bind at 1.
  unfold submit_order at 1. rewrite Hrefused. reflexivity.
Qed.

(** An approved execution, by its three stretches: the rebalancing
    block, the main order, and the except clause around both. *)
Lemma execute_trade_approved (env : ExecEnv) (proposal : TradeProposal)
  (decision : dict) (w : World) :
  get_is decision "decision" "APPROVE" = true ->
  execute_trade env proposal decision w
  = match rebalance_block env proposal decision
            (with_clock (fun t => t + Z.of_N (ex_latency env)) w) with
    | (Ok Proceed, w2) =>
        match main_trade env proposal decision w2 with
        | (Ok a, w3) => (Ok a, w3)
        | (Raise e, w3) => (update_proposal_status (ex_ledger env AtHandler) (tp_id proposal)
             REJECTED ;;; ret None) w3
        end
    | (Ok Abandon, w2) => (Ok None, w2)
    | (Raise e, w2) => (update_proposal_status (ex_ledger env AtHandler) (tp_id proposal)
           REJECTED ;;; ret None) w2
    end.
Proof.
  intros Happrove. unfold execute_trade. unfold bind at 1. simpl.
  rewrite Happrove. simpl. unfold try_except. unfold bind at 1.
  destruct (rebalance_block env proposal decision _) as [[[|]|e] w2];
    reflexivity.
Qed.

(** An order the broker refuses is the last one sent: the execution ends
    in the except clause, with no trade returned and none stored. *)
Lemma refusal_ends_the_execution (env : ExecEnv) (proposal : TradeProposal)
  (decision : dict) (w : World) (sent : list OrderRequest)
  (req : OrderRequest) (e : string) :
  get_is decision "decision" "APPROVE" = true ->
  orders (snd (execute_trade env proposal decision w)) = orders w ++ sent ->
  In req sent ->
  ex_broker env req = Raise e ->
  (forall x, fst (execute_trade env proposal decision w) <> Ok (Some x))
  /\ Ledger.trades (ledger (snd (execute_trade env proposal decision w)))
     = Ledger.trades (ledger w)
  /\ exists before, sent = before ++ [req].
Proof.
  intros Happrove. rewrite (@execute_trade_approved env proposal decision w Happrove).
  set (w1 := with_clock (fun t => t + Z.of_N (ex_latency env)) w).
  assert (Hw1 : orders w1 = orders w) by reflexivity.
  assert (Ht1 : Ledger.trades (ledger w1) = Ledger.trades (ledger w))
    by reflexivity.
  clearbody w1.
  pose proof (rebalance_block_sent env proposal decision w1) as Hblock.
  pose proof (rebalance_block_ledger env proposal decision w1) as Hledger.
  destruct (rebalance_block env proposal decision w1) as [[[|]|e'] w2];
    simpl in Hblock, Hledger.
  - (* the block went on to the main order *)
    pose proof (main_trade_sent env proposal decision w2) as Hmain.
    pose proof (main_trade_ledger env proposal decision w2) as Hwritten.
    assert (Hend :
      orders (snd (match main_trade env proposal decision w2 with
                   | (Ok a, w3) => (Ok a, w3)
                   | (Raise e0, w3) => (update_proposal_status (ex_ledger env AtHandler) (tp_id proposal)
             REJECTED ;;; ret None) w3
                   end))
      = orders w2 ++ [main_request proposal decision]).
    { destruct (main_trade env proposal decision w2) as [[a|e0] w3];
        simpl in Hmain |- *; [exact Hmain|].
      destruct (handler_outcome env proposal w3) as [Ho _].
      rewrite Ho. exact Hmain. }
    rewrite Hend. clear Hend. intros Hsent Hin Hrefused.
    assert (Hwhich : req = main_request proposal decision
                     /\ exists before, sent = before ++ [req]).
    { destruct Hblock as [Hnone|[req0 [Hone Hack]]].
      - rewrite Hnone, Hw1 in Hsent. apply app_inv_head in Hsent. subst sent.
        destruct Hin as [Heq|[]]. split; [now symmetry|].
        exists []. rewrite Heq. reflexivity.
      - rewrite Hone, Hw1, <- app_assoc in Hsent.
        apply app_inv_head in Hsent. subst sent.
        destruct (Hack eq_refl) as [order Hacked].
        destruct Hin as [Heq|[Heq|[]]].
        + subst req0. rewrite Hrefused in Hacked. discriminate.
        + split; [now symmetry|]. exists [req0]. rewrite Heq. reflexivity. }
    destruct Hwhich as [Hreq Hlast]. subst req.
    clear Hwritten Hmain.
    rewrite (@main_trade_refused env proposal decision w2 e Hrefused).
    destruct (handler_outcome env proposal
                (with_orders (fun sent0 => sent0 ++ [main_request proposal decision])
                   w2)) as [_ [Htrades [Hnone _]]].
    split; [exact Hnone|]. split; [|exact Hlast].
    rewrite Htrades. simpl. rewrite Hledger. exact Ht1.
  - (* the block gave up: nothing was sent *)
    simpl. intros Hsent Hin Hrefused.
    destruct Hledger as [_ Horders].
    rewrite Horders, Hw1 in Hsent.
    rewrite <- (app_nil_r (orders w)) in Hsent at 1.
    apply app_inv_head in Hsent. subst sent. contradiction.
  - (* the block raised *)
    destruct (handler_outcome env proposal w2) as [Ho [Htrades [Hnone _]]].
    rewrite Ho, Htrades. intros Hsent Hin Hrefused.
    split; [exact Hnone|]. split; [rewrite Hledger; exact Ht1|].
    destruct Hblock as [Hnothing|[req0 [Hone _]]].
    + rewrite Hnothing, Hw1 in Hsent.
      rewrite <- (app_nil_r (orders w)) in Hsent at 1.
      apply app_inv_head in Hsent. subst sent. contradiction.
    + rewrite Hone, Hw1 in Hsent. apply app_inv_head in Hsent. subst sent.
      destruct Hin as [Heq|[]]. exists []. rewrite Heq. reflexivity.
Qed.

(** C8, as amended. For an approved proposal whose except-clause UPDATE
    goes through: [execute_trade] never raises and never leaves the row
    as it found it (REJECTED with None, or EXECUTED with a trade); and
    when the broker refuses an order that [execute_trade] submits, the
    main order or the rebalancing sell before it, that order is the last
    one sent, [execute_trade] returns None (the error is not returned,
    and the graph state keeps its [error] field), the proposal is
    REJECTED and no ExecutedTrade is stored. The same holds whenever the
    broker would refuse the main order. *)
Theorem failed_execution_is_rejected (env : TickerEnv) (proposal : TradeProposal)
  (decision : dict) (w : World) :
  get_is decision "decision" "APPROVE" = true ->
  ex_ledger (te_exec env) AtHandler = None ->
  Ledger.status_of (ledger w) (tp_id proposal) <> None ->
  let outcome := execute_trade (te_exec env) proposal decision w in
  let status := Ledger.status_of (ledger (snd outcome)) (tp_id proposal) in
  let caught :=
    fst outcome = Ok None
    /\ status = Some REJECTED
    /\ Ledger.trades (ledger (snd outcome)) = Ledger.trades (ledger w)
    /\ forall state,
         ts_trade_proposal state = Some proposal ->
         ts_portfolio_decision state = Some decision ->
         fst (_execute_trade env state w) = Ok state in
  ((fst outcome = Ok None /\ status = Some REJECTED)
   \/ (exists x, fst outcome = Ok (Some x) /\ status = Some EXECUTED))
  /\ (forall sent req e,
        orders (snd outcome) = orders w ++ sent ->
        In req sent ->
        ex_broker (te_exec env) req = Raise e ->
        caught /\ exists before, sent = before ++ [req])
  /\ (forall e,
        ex_broker (te_exec env) (main_request proposal decision) = Raise e ->
        caught).
Proof.
  intros Happrove Hhandler Hrow outcome status caught.
  subst caught status outcome.
  destruct (execute_trade (te_exec env) proposal decision w) as [r w'] eqn:Hrun.
  cbn [fst snd].
  assert (Hnode : r = Ok None ->
                  forall state,
                    ts_trade_proposal state = Some proposal ->
                    ts_portfolio_decision state = Some decision ->
                    fst (_execute_trade env state w) = Ok state).
  { intros Hnone state Hproposal Hdecision.
    unfold _execute_trade, guarded. rewrite Hproposal, Hdecision.
    destruct decision as [|entry more]; [discriminate|].
    unfold try_except, bind. rewrite Hrun. subst r. reflexivity. }
  destruct (execute_trade_ends _ _ _ _ Happrove Hhandler Hrow Hrun)
    as [[Hnone Hrejected]|[x [order [Hsome [Hack Hexecuted]]]]].
  - split; [left; split; assumption|]. split.
    + intros sent req e Hsent Hin Hrefused.
      pose proof (@refusal_ends_the_execution (te_exec env) proposal decision
                    w sent req e Happrove) as Hends.
      rewrite Hrun in Hends. cbn [fst snd] in Hends.
      destruct (Hends Hsent Hin Hrefused) as [_ [Htrades Hlast]].
      split; [|exact Hlast].
      split; [exact Hnone|]. split; [exact Hrejected|].
      split; [exact Htrades|exact (Hnode Hnone)].
    + intros e Hrefused.
      split; [exact Hnone|]. split; [exact Hrejected|].
      split; [eapply refused_order_stores_nothing; eassumption|].
      exact (Hnode Hnone).
  - split; [right; exists x; split; assumption|]. split.
    + intros sent req e Hsent Hin Hrefused.
      pose proof (@refusal_ends_the_execution (te_exec env) proposal decision
                    w sent req e Happrove) as Hends.
      rewrite Hrun in Hends. cbn [fst snd] in Hends.
      destruct (Hends Hsent Hin Hrefused) as [Hnot _].
      contradiction (Hnot x).
    + intros e Hrefused. rewrite Hrefused in Hack. discriminate.
Qed.

End Facts.

(** A run of the theorem: OLD is flagged, the confirmation says XYZ. *)
Lemma rebalance_disagreement_aborts_witness :
  let w := Demo.world_with (Demo.acme_proposal (inject_Z 85)) in
  let outcome :=
    execute_trade (RT := Demo.runtime) Demo.disputed_execution
      (Demo.acme_proposal (inject_Z 85)) Demo.approve_selling_old w in
  orders (snd outcome) = []
  /\ Ledger.trades (ledger (snd outcome)) = []
  /\ fst outcome = Ok None
  /\ Ledger.status_of (ledger (snd outcome)) (Some 1) = Some REJECTED.
Proof.
  intros w outcome.
  destruct (@rebalance_disagreement_aborts Demo.runtime Demo.disputed_execution
              (Demo.acme_proposal (inject_Z 85)) Demo.approve_selling_old
              "OLD" (JNum (inject_Z 5)) Demo.poor_account (inject_Z 1500)
              [Demo.holding "OLD"; Demo.holding "XYZ"]
              [("ticker", JStr "XYZ"); ("quantity", JNum (inject_Z 5));
               ("reasoning", JStr "XYZ has the weaker outlook")]
              w)
    as [Horders [Htrades [Hstatus _]]];
    try reflexivity; try discriminate.
  assert (Hupdate : ex_ledger Demo.disputed_execution AtChanged = None
                    \/ ex_ledger Demo.disputed_execution AtHandler = None)
    by (left; reflexivity).
  destruct (Hstatus Hupdate) as [Hnone [_ Hrejected]].
  split; [exact Horders|split; [exact Htrades|split; [exact Hnone|]]].
  apply Hrejected. vm_compute. discriminate.
Defined.

(** C6, the claim as written fails: OLD is flagged, the confirmation
    says XYZ, and the database refuses the UPDATE of the branch and the
    one of the except clause: [execute_trade] raises and the proposal is
    still PENDING. *)
Lemma disagreement_with_failing_updates_stays_pending :
  let w := Demo.world_with (Demo.acme_proposal (inject_Z 85)) in
  let outcome :=
    execute_trade (RT := Demo.runtime) Demo.disputed_offline
      (Demo.acme_proposal (inject_Z 85)) Demo.approve_selling_old w in
  Ledger.status_of (ledger w) (Some 1) = Some PENDING
  /\ fst outcome = Raise "connection already closed"
  /\ Ledger.status_of (ledger (snd outcome)) (Some 1) = Some PENDING
  /\ orders (snd outcome) = [].
Proof. vm_compute. repeat split. Qed.

(** A run of the theorem: the broker refuses the BUY of ACME. *)
Lemma failed_execution_is_rejected_witness :
  let env := {| te_screen := Demo.silent_screen; te_debate := Demo.silent_debate;
                te_proposal := Demo.silent_proposal;
                te_review := Demo.silent_review;
                te_exec := Demo.refused_execution |} in
  let w := Demo.world_with (Demo.acme_proposal (inject_Z 85)) in
  let outcome :=
    execute_trade (RT := Demo.runtime) Demo.refused_execution
      (Demo.acme_proposal (inject_Z 85)) Demo.approve w in
  fst outcome = Ok None
  /\ Ledger.status_of (ledger (snd outcome)) (Some 1) = Some REJECTED.
Proof.
  intros env w outcome.
  assert (Happrove : get_is Demo.approve "decision" "APPROVE" = true)
    by reflexivity.
  assert (Hhandler : ex_ledger (te_exec env) AtHandler = None) by reflexivity.
  assert (Hrow : Ledger.status_of (ledger w)
                   (tp_id (Demo.acme_proposal (inject_Z 85))) <> None)
    by (vm_compute; discriminate).
  destruct (@failed_execution_is_rejected Demo.runtime env
              (Demo.acme_proposal (inject_Z 85)) Demo.approve w
              Happrove Hhandler Hrow) as [_ [Hrefused _]].
  destruct (Hrefused
              [main_request (Demo.acme_proposal (inject_Z 85)) Demo.approve]
              (main_request (Demo.acme_proposal (inject_Z 85)) Demo.approve)
              "insufficient buying power" eq_refl (or_introl eq_refl) eq_refl)
    as [[Hnone [Hrejected _]] _].
  split; assumption.
Defined.

(** C8, the claim as written fails: the broker refuses the order with
    "insufficient buying power", and the caller of [execute_trade] gets
    None, not the error; the graph node leaves [error] unset. *)
Lemma refused_order_error_is_not_returned :
  let w := Demo.world_with (Demo.acme_proposal (inject_Z 85)) in
  let env := Demo.refused_execution in
  ex_broker env (main_request (Demo.acme_proposal (inject_Z 85)) Demo.approve)
  = Raise "insufficient buying power"
  /\ fst (execute_trade (RT := Demo.runtime) env
            (Demo.acme_proposal (inject_Z 85)) Demo.approve w)
     = Ok None
  /\ orders (snd (execute_trade (RT := Demo.runtime) env
                    (Demo.acme_proposal (inject_Z 85)) Demo.approve w))
     = [main_request (Demo.acme_proposal (inject_Z 85)) Demo.approve].
Proof. vm_compute. repeat split. Qed.

End Execution.

(** ** Screening *)

Module Screening.
Import Trader.

Lemma analysis_event_ticker (env : ScreenEnv) (ticker : string)
  (event : AnalysisEvent) :
  analysis_event env ticker = Ok event -> ae_ticker event = ticker.
Proof.
  unfold analysis_event.
  destruct (sc_articles env); [|discriminate].
  destruct (sc_snapshot env) as [[s|]|]; [| |discriminate].
  - destruct (sc_llm env _); [|discriminate].
    destruct (json_loads _); [|discriminate].
    destruct (attr_get _ _); [|discriminate].
    destruct (validate_str _); [|discriminate].
    intros Heq. inversion Heq. reflexivity.
  - destruct (sc_refetch env); [|discriminate].
    destruct (sc_llm env _); [|discriminate].
    destruct (json_loads _); [|discriminate].
    destruct (attr_get _ _); [|discriminate].
    destruct (validate_str _); [|discriminate].
    intros Heq. inversion Heq. reflexivity.
Qed.

Lemma analysis_event_needs_oracle (env : ScreenEnv) (ticker e : string) :
  (forall context, sc_llm env context = Raise e) ->
  exists e', analysis_event env ticker = Raise e'.
Proof.
  intros Horacle. unfold analysis_event.
  destruct (sc_articles env); [|now eexists].
  destruct (sc_snapshot env) as [[s|]|]; [| |now eexists].
  - rewrite Horacle. now eexists.
  - destruct (sc_refetch env); [|now eexists].
    rewrite Horacle. now eexists.
Qed.

(** The try body of [analyze_ticker] either raises and writes nothing, or
    returns after appending exactly one AnalysisEvent. *)
Lemma analyze_body_outcome (env : ScreenEnv) (ticker : string) (w : World) :
  (exists e, analyze_body env ticker w = (Raise e, w))
  \/ (exists event,
        analyze_body env ticker w
        = (Ok {| an_event_id := Some (Ledger.next_id (Ledger.events (ledger w)));
                 an_analysis := ae_output_data event; an_ticker := ticker |},
           with_ledger (Ledger.add_event event) w)
        /\ ae_ticker event = ticker).
Proof.
  unfold analyze_body, bind, lift, ret, save_analysis_event.
  destruct (analysis_event env ticker) as [event|e] eqn:Hevent;
    [|left; now exists e].
  destruct (sc_save_event env) as [e|]; [left; now exists e|].
  right. exists event. split; [reflexivity|].
  eapply analysis_event_ticker; eassumption.
Qed.

(** C3, as amended. When the try body of the screening raises (the
    oracle call, or any step before or after it), [analyze_ticker]
    returns the degraded result: is_interesting false, the error text as
    reasoning, no event id; and nothing is written to the ledger. An
    AnalysisEvent is persisted exactly when the body runs to its end. *)
Theorem screening_fails_closed (env : ScreenEnv) (ticker : string) (w : World) :
  let outcome := analyze_ticker env ticker w in
  (forall e,
      fst (analyze_body env ticker w) = Raise e ->
      outcome = (Ok (degraded ticker e), w)
      /\ is_interesting (degraded ticker e) = false)
  /\ ((exists e, forall context, sc_llm env context = Raise e) ->
      exists e, outcome = (Ok (degraded ticker e), w))
  /\ (forall r,
        fst (analyze_body env ticker w) = Ok r ->
        fst outcome = Ok r
        /\ an_event_id r = Some (Ledger.next_id (Ledger.events (ledger w)))
        /\ exists event,
             ledger (snd outcome) = Ledger.add_event event (ledger w)
             /\ ae_ticker event = ticker
             /\ ae_output_data event = an_analysis r).
Proof.
  intros outcome. subst outcome. unfold analyze_ticker, try_except.
  destruct (analyze_body_outcome env ticker w) as [[e He]|[event [He Hticker]]];
    rewrite He; simpl.
  - split; [|split].
    + intros e' He'. inversion He'; subst. split; reflexivity.
    + intros _. now exists e.
    + intros r Hr. discriminate.
  - split; [|split].
    + intros e' He'. discriminate.
    + intros [e Horacle]. exfalso.
      destruct (analysis_event_needs_oracle env ticker Horacle) as [e' He'].
      revert He. unfold analyze_body, bind, lift. rewrite He'. discriminate.
    + intros r Hr. inversion Hr; subst. simpl.
      split; [reflexivity|split; [reflexivity|]].
      exists event. repeat split; assumption.
Qed.

(** A run of the theorem: the oracle is down. *)
Lemma screening_fails_closed_witness :
  analyze_ticker Demo.screening_with_oracle_down "ACME" Demo.quiet_world
  = (Ok (degraded "ACME" "Connection error."), Demo.quiet_world).
Proof.
  destruct (screening_fails_closed Demo.screening_with_oracle_down "ACME"
              Demo.quiet_world) as [Hraise _].
  exact (proj1 (Hraise "Connection error." eq_refl)).
Defined.

(** C3, the claim as written fails: the oracle call of the screening
    raises, the stage answers not interesting, and the table of
    AnalysisEvents is as empty as before. *)
Lemma oracle_failure_persists_no_event :
  let outcome :=
    analyze_ticker Demo.screening_with_oracle_down "ACME" Demo.quiet_world in
  fst outcome = Ok (degraded "ACME" "Connection error.")
  /\ Ledger.events (ledger (snd outcome)) = []
  /\ Ledger.events
       (ledger (snd (analyze_ticker Demo.screening_interesting "ACME"
                       Demo.quiet_world)))
     = [{| ae_id := Some 1; ae_ticker := "ACME";
           ae_event_type := "ticker_analysis";
           ae_reasoning := "earnings surprise";
           ae_output_data := [("is_interesting", JBool true);
                              ("reasoning", JStr "earnings surprise");
                              ("confidence", JNum (inject_Z 80))];
           ae_agent_name := "trader_agent" |}].
Proof. vm_compute. repeat split. Qed.

End Screening.

(** ** Debate *)

Module Debating.
Import DebateAgents TradingGraph.

Lemma debate_of_needs_all (env : DebateEnv) (ticker : string) (id : Z)
  (articles : list Article) (snapshot : option Snapshot)
  (recent_trades : list ExecutedTrade) :
  (exists e, forall context, de_bull env context = Raise e)
  \/ (exists e, forall context, de_bear env context = Raise e)
  \/ (exists e, forall bull bear, de_consensus env bull bear = Raise e) ->
  exists e, debate_of env ticker id articles snapshot recent_trades = Raise e.
Proof.
  intros Hfail. unfold debate_of, make_argument.
  destruct (PortfolioManager.json_dumps_rows _); [|now eexists].
  destruct Hfail as [[e He]|[[e He]|[e He]]].
  - rewrite He. now eexists.
  - destruct (de_bull env _); [|now eexists].
    rewrite He. now eexists.
  - destruct (de_bull env _); [|now eexists].
    destruct (de_bear env _); [|now eexists].
    rewrite He. now eexists.
Qed.

Lemma debate_of_consensus (env : DebateEnv) (ticker : string) (id : Z)
  (articles : list Article) (snapshot : option Snapshot)
  (recent_trades : list ExecutedTrade) (debate : Debate) :
  debate_of env ticker id articles snapshot recent_trades = Ok debate ->
  exists consensus,
    db_final_consensus debate = Some consensus
    /\ de_consensus env (db_bull_argument debate) (db_bear_argument debate)
       = Ok consensus.
Proof.
  unfold debate_of, make_argument.
  destruct (PortfolioManager.json_dumps_rows _); [|discriminate].
  destruct (de_bull env _) as [bull|]; [|discriminate].
  destruct (de_bear env _) as [bear|]; [|discriminate].
  destruct (de_consensus env bull bear) as [consensus|] eqn:Hconsensus;
    [|discriminate].
  intros Heq. inversion Heq; subst. simpl. now exists consensus.
Qed.

(** [conduct_debate] either raises and writes nothing, or returns the row
    it has just appended. *)
Lemma conduct_debate_outcome (env : DebateEnv) (ticker : string) (id : Z)
  (w : World) :
  (exists e, conduct_debate env ticker id w = (Raise e, w))
  \/ (exists articles snapshot debate,
        debate_of env ticker id articles snapshot
          (Ledger.recent_trades (ledger w) (Some ticker)
             (clock w - 30 * Ledger.ms_per_day))
        = Ok debate
        /\ conduct_debate env ticker id w
           = (Ok (Ledger.set_db_id (Ledger.next_id (Ledger.debates (ledger w)))
                    debate),
              with_ledger (Ledger.add_debate debate) w)).
Proof.
  unfold conduct_debate, bind, lift, ret, get_recent_trades, save_debate.
  destruct (de_articles env) as [articles|e]; [|left; now exists e].
  destruct (de_snapshot env) as [snapshot|e]; [|left; now exists e].
  destruct (de_recent_trades env) as [e|]; [left; now exists e|].
  destruct (debate_of env ticker id articles snapshot _) as [debate|e] eqn:Hdebate;
    [|left; now exists e].
  destruct (de_save env) as [e|]; [left; now exists e|].
  right. exists articles, snapshot, debate. split; [exact Hdebate|reflexivity].
Qed.

(** C7, as amended. When any of the three oracle calls of the debate
    fails (the bull argument, the bear argument or the consensus), the
    stage raises and no transcript is written; the graph node records the
    error. A transcript is persisted only when all three calls answered,
    and it then carries the consensus text. *)
Theorem debate_needs_all_three_calls (env : TickerEnv) (ticker : string)
  (id : Z) (w : World) :
  let outcome := conduct_debate (te_debate env) ticker id w in
  ((exists e, forall context, de_bull (te_debate env) context = Raise e)
   \/ (exists e, forall context, de_bear (te_debate env) context = Raise e)
   \/ (exists e, forall bull bear,
          de_consensus (te_debate env) bull bear = Raise e) ->
   exists e,
     outcome = (Raise e, w)
     /\ forall state,
          usable_event_id (ts_analysis_result state) = Some id ->
          ts_ticker state = ticker ->
          _conduct_debate env state w = (Ok (set_error e state), w))
  /\ (forall e, fst outcome = Raise e -> snd outcome = w)
  /\ (forall debate,
        fst outcome = Ok debate ->
        Ledger.debates (ledger (snd outcome))
        = Ledger.debates (ledger w) ++ [debate]
        /\ exists consensus,
             db_final_consensus debate = Some consensus
             /\ de_consensus (te_debate env) (db_bull_argument debate)
                  (db_bear_argument debate) = Ok consensus).
Proof.
  intros outcome. subst outcome.
  destruct (conduct_debate_outcome (te_debate env) ticker id w)
    as [[e He]|[articles [snapshot [debate [Hdebate Hrun]]]]].
  - rewrite He. simpl. split; [|split].
    + intros _. exists e. split; [reflexivity|].
      intros state Hid Hticker.
      unfold _conduct_debate, guarded, try_except. rewrite Hid, Hticker.
      unfold bind at 1. rewrite He. reflexivity.
    + reflexivity.
    + intros debate' Hok. discriminate.
  - rewrite Hrun. simpl. split; [|split].
    + intros Hfail. exfalso.
      destruct (debate_of_needs_all (te_debate env) ticker id articles snapshot
                  (Ledger.recent_trades (ledger w) (Some ticker)
                     (clock w - 30 * Ledger.ms_per_day)) Hfail) as [e He].
      rewrite He in Hdebate. discriminate.
    + intros e He. discriminate.
    + intros debate' Hok. inversion Hok; subst. split; [reflexivity|].
      destruct (debate_of_consensus _ _ _ _ _ _ Hdebate)
        as [consensus [Hsome Hcall]].
      exists consensus. split; assumption.
Qed.

(** A run of the theorem: the consensus call fails. *)
Lemma debate_needs_all_three_calls_witness :
  exists e,
    conduct_debate Demo.debate_without_consensus "ACME" 1 Demo.quiet_world
    = (Raise e, Demo.quiet_world).
Proof.
  destruct (debate_needs_all_three_calls
              {| te_screen := Demo.silent_screen;
                 te_debate := Demo.debate_without_consensus;
                 te_proposal := Demo.silent_proposal;
                 te_review := Demo.silent_review;
                 te_exec := Demo.smooth_execution |}
              "ACME" 1 Demo.quiet_world) as [Hfail _].
  destruct Hfail as [e [Hrun _]].
  - right. right. exists "Request timed out.". reflexivity.
  - exists e. exact Hrun.
Defined.

(** C7, the claim as written fails: both analysts answer, the consensus
    call fails, and the stage raises with no transcript in the ledger. *)
Lemma missing_consensus_fails_the_debate :
  let outcome :=
    conduct_debate Demo.debate_without_consensus "ACME" 1 Demo.quiet_world in
  de_bull Demo.debate_without_consensus
    {| dc_ticker := "ACME"; dc_current_price := None; dc_articles := [];
       dc_article_count := 0; dc_recent_trades := [] |}
  = Ok "Margins are expanding."
  /\ de_bear Demo.debate_without_consensus
       {| dc_ticker := "ACME"; dc_current_price := None; dc_articles := [];
          dc_article_count := 0; dc_recent_trades := [] |}
     = Ok "The guidance is weak."
  /\ fst outcome = Raise "Request timed out."
  /\ Ledger.debates (ledger (snd outcome)) = [].
Proof. vm_compute. repeat split. Qed.

End Debating.

(** ** The proposal stage *)

Module Proposing.
Import TradingGraph.

Section Facts.
Context {RT : Runtime}.

(** The constructor call on an answer that hits the floor: the fields
    come from the override, and only the confidence itself is still to
    be validated. *)
Lemma build_proposal_forced (ticker : string) (snapshot : Snapshot)
  (event_id : Z) (debate_result : DebateResult) (answer : dict) :
  let action := dict_get_default answer "action" (JStr "HOLD") in
  let confidence := dict_get_default answer "confidence_score" (JNum 0) in
  str_eq action "BUY" || str_eq action "SELL" = true ->
  lt_70 confidence = Ok true ->
  build_proposal ticker snapshot event_id debate_result (JObj answer)
  = (c <- validate_confidence confidence ;;
     Ok {| tp_id := None; tp_ticker := ticker; tp_action := HOLD;
           tp_quantity := 0; tp_proposed_price := Some (sn_price snapshot);
           tp_reasoning := trading_note confidence answer;
           tp_confidence_score := c;
           tp_analysis_event_id := Some event_id;
           tp_debate_id := Some (dr_debate_id debate_result);
           tp_status := PENDING |}).
Proof.
  intros action confidence Htrade Hlow.
  unfold build_proposal. simpl attr_get. cbv iota beta.
  fold (dict_get_default answer "confidence_score" (JNum 0)).
  fold confidence. fold action.
  unfold floor_applies. rewrite Htrade, Hlow. simpl.
  unfold dict_get_default at 1.
  rewrite dict_get_set_same. simpl.
  destruct (validate_confidence confidence); reflexivity.
Qed.

(** The stage on an answer that hits the floor, once the snapshot is at
    hand: the confidence is validated, then the HOLD is stored. *)
Lemma propose_forced (env : TickerEnv) (state : TradingState) (event_id : Z)
  (debate_result : DebateResult) (snapshot : Snapshot) (answer : dict)
  (w : World) :
  pe_llm (te_proposal env) debate_result = Ok (Encodes (JObj answer)) ->
  str_eq (dict_get_default answer "action" (JStr "HOLD")) "BUY"
  || str_eq (dict_get_default answer "action" (JStr "HOLD")) "SELL" = true ->
  lt_70 (dict_get_default answer "confidence_score" (JNum 0)) = Ok true ->
  try_except (propose env state event_id debate_result snapshot)
    (fun e => ret (set_error e state)) w
  = match validate_confidence
            (dict_get_default answer "confidence_score" (JNum 0)) with
    | Raise e => (Ok (set_error e state), w)
    | Ok confidence =>
        match pe_save (te_proposal env) with
        | Some e => (Ok (set_error e state), w)
        | None =>
            (Ok (set_proposal
                   (Ledger.set_tp_id (Ledger.next_id (Ledger.proposals (ledger w)))
                      (held (ts_ticker state) snapshot event_id debate_result
                         answer confidence))
                   state),
             with_ledger
               (Ledger.add_proposal
                  (held (ts_ticker state) snapshot event_id debate_result
                     answer confidence)) w)
        end
    end.
Proof.
  intros Hanswer Htrade Hlow.
  unfold try_except, propose.
  unfold bind at 1. unfold lift at 1. rewrite Hanswer.
  unfold bind at 1. unfold lift at 1. simpl json_loads. cbv iota beta.
  unfold bind at 1. unfold lift at 1.
  rewrite (build_proposal_forced _ _ _ _ _ Htrade Hlow).
  destruct (validate_confidence _) as [confidence|e]; [|reflexivity].
  unfold bind, save_trade_proposal, ret.
  destruct (pe_save (te_proposal env)); reflexivity.
Qed.

(** C5. When the oracle of the proposal stage answers BUY or SELL with a
    confidence below 70, the stage persists nothing but a HOLD of
    quantity 0 whose reasoning is the oracle's followed by the note
    [ [Rejected: Confidence c < 70 required for trading]], whichever way
    the snapshot came to hand (read from the ledger, or fetched and saved
    first): either the stage ends with an error and the world as it was
    (no event id, a failing snapshot read or fetch, a confidence that
    fails validation, a failing INSERT), or exactly one row is appended
    to the proposals, and it is that HOLD with status PENDING, the
    events, the debates, the trades and the broker untouched. For a
    confidence between 0 and 70, a snapshot at hand and a working INSERT
    the row is written. *)
Theorem low_confidence_forces_hold (env : TickerEnv) (state : TradingState)
  (w : World) (debate_result : DebateResult) (answer : dict) :
  ts_debate_result state = Some debate_result ->
  pe_llm (te_proposal env) debate_result = Ok (Encodes (JObj answer)) ->
  str_eq (dict_get_default answer "action" (JStr "HOLD")) "BUY"
  || str_eq (dict_get_default answer "action" (JStr "HOLD")) "SELL" = true ->
  lt_70 (dict_get_default answer "confidence_score" (JNum 0)) = Ok true ->
  let outcome := _create_proposal_from_debate env state w in
  let row event_id snapshot confidence :=
    {| tp_id := Some (Ledger.next_id (Ledger.proposals (ledger w)));
       tp_ticker := ts_ticker state; tp_action := HOLD; tp_quantity := 0;
       tp_proposed_price := Some (sn_price snapshot);
       tp_reasoning :=
         (format_value (dict_get_default answer "reasoning" (JStr ""))
          ++ " [Rejected: Confidence "
          ++ format_value (dict_get_default answer "confidence_score" (JNum 0))
          ++ " < 70 required for trading]")%string;
       tp_confidence_score := confidence;
       tp_analysis_event_id := Some event_id;
       tp_debate_id := Some (dr_debate_id debate_result);
       tp_status := PENDING |} in
  let at_hand snapshot :=
    pe_snapshot (te_proposal env) = Ok (Some snapshot)
    \/ (pe_snapshot (te_proposal env) = Ok None
        /\ pe_refetch (te_proposal env) = Ok (Some snapshot)) in
  ((snd outcome = w /\ exists e, fst outcome = Ok (set_error e state))
   \/ (exists event_id snapshot confidence,
         usable_event_id (ts_analysis_result state) = Some event_id
         /\ at_hand snapshot
         /\ fst outcome
            = Ok (set_proposal (row event_id snapshot confidence) state)
         /\ Ledger.proposals (ledger (snd outcome))
            = Ledger.proposals (ledger w) ++ [row event_id snapshot confidence]
         /\ Ledger.events (ledger (snd outcome)) = Ledger.events (ledger w)
         /\ Ledger.debates (ledger (snd outcome)) = Ledger.debates (ledger w)
         /\ Ledger.trades (ledger (snd outcome)) = Ledger.trades (ledger w)
         /\ orders (snd outcome) = orders w))
  /\ (forall event_id snapshot c,
        usable_event_id (ts_analysis_result state) = Some event_id ->
        at_hand snapshot ->
        dict_get_default answer "confidence_score" (JNum 0) = JNum c ->
        Qle_bool 0 c = true ->
        pe_save (te_proposal env) = None ->
        Ledger.proposals (ledger (snd outcome))
        = Ledger.proposals (ledger w) ++ [row event_id snapshot (Some c)]).
Proof.
  intros Hdebate Hanswer Htrade Hlow outcome row at_hand.
  pose (finish := fun event_id snapshot =>
    match validate_confidence
            (dict_get_default answer "confidence_score" (JNum 0)) with
    | Raise e => (Ok (set_error e state), w)
    | Ok confidence =>
        match pe_save (te_proposal env) with
        | Some e => (Ok (set_error e state), w)
        | None =>
            (Ok (set_proposal (row event_id snapshot confidence) state),
             with_ledger
               (Ledger.add_proposal
                  (held (ts_ticker state) snapshot event_id debate_result
                     answer confidence)) w)
        end
    end).
  assert (Hrun :
    outcome
    = match usable_event_id (ts_analysis_result state) with
      | None => (Ok (set_error "No analysis event ID available" state), w)
      | Some event_id =>
          match pe_snapshot (te_proposal env) with
          | Raise e => (Ok (set_error e state), w)
          | Ok (Some snapshot) => finish event_id snapshot
          | Ok None =>
              match pe_refetch (te_proposal env) with
              | Raise e =>
                  (Ok (set_error ("Failed to fetch snapshot: " ++ e) state), w)
              | Ok None =>
                  (Ok (set_error "Failed to retrieve snapshot after saving" state),
                   w)
              | Ok (Some snapshot) => finish event_id snapshot
              end
          end
      end).
  { subst outcome finish row.
    unfold _create_proposal_from_debate, guarded.
    destruct (usable_event_id (ts_analysis_result state)) as [event_id|];
      [|reflexivity].
    rewrite Hdebate.
    destruct (pe_snapshot (te_proposal env)) as [[snapshot|]|e] eqn:Hsnapshot.
    - unfold try_except at 1. unfold bind at 1. unfold lift at 1.
      pose proof (@propose_forced env state event_id debate_result snapshot
                    answer w Hanswer Htrade Hlow) as Hpropose.
      unfold try_except in Hpropose. rewrite Hpropose. reflexivity.
    - unfold try_except at 1. unfold bind at 1. unfold lift at 1.
      destruct (pe_refetch (te_proposal env)) as [[snapshot|]|e];
        try reflexivity.
      pose proof (@propose_forced env state event_id debate_result snapshot
                    answer w Hanswer Htrade Hlow) as Hpropose.
      unfold try_except in Hpropose. rewrite Hpropose. reflexivity.
    - reflexivity. }
  assert (Hfinish : forall event_id snapshot,
             usable_event_id (ts_analysis_result state) = Some event_id ->
             at_hand snapshot ->
             outcome = finish event_id snapshot).
  { intros event_id snapshot Hevent [Hread|[Hnone Hfetched]]; rewrite Hrun, Hevent.
    - rewrite Hread. reflexivity.
    - rewrite Hnone, Hfetched. reflexivity. }
  split.
  - assert (Hends : forall event_id snapshot,
               usable_event_id (ts_analysis_result state) = Some event_id ->
               at_hand snapshot ->
               (snd (finish event_id snapshot) = w
                /\ exists e, fst (finish event_id snapshot) = Ok (set_error e state))
               \/ (exists confidence,
                     fst (finish event_id snapshot)
                     = Ok (set_proposal (row event_id snapshot confidence) state)
                     /\ Ledger.proposals (ledger (snd (finish event_id snapshot)))
                        = Ledger.proposals (ledger w)
                          ++ [row event_id snapshot confidence]
                     /\ Ledger.events (ledger (snd (finish event_id snapshot)))
                        = Ledger.events (ledger w)
                     /\ Ledger.debates (ledger (snd (finish event_id snapshot)))
                        = Ledger.debates (ledger w)
                     /\ Ledger.trades (ledger (snd (finish event_id snapshot)))
                        = Ledger.trades (ledger w)
                     /\ orders (snd (finish event_id snapshot)) = orders w)).
    { intros event_id snapshot _ _. unfold finish.
      destruct (validate_confidence _) as [confidence|e];
        [|left; split; [reflexivity|now exists e]].
      destruct (pe_save (te_proposal env)) as [e|];
        [left; split; [reflexivity|now exists e]|].
      right. exists confidence. repeat split. }
    destruct (usable_event_id (ts_analysis_result state)) as [event_id|] eqn:Hevent;
      [|left; rewrite Hrun; split; [reflexivity|eexists; reflexivity]].
    destruct (pe_snapshot (te_proposal env)) as [[snapshot|]|e] eqn:Hsnapshot.
    + assert (Hhand : at_hand snapshot) by (left; reflexivity).
      rewrite (Hfinish event_id snapshot eq_refl Hhand).
      destruct (Hends event_id snapshot eq_refl Hhand) as [Hnothing|[c Hrow]].
      * left. exact Hnothing.
      * right. exists event_id, snapshot, c.
        split; [reflexivity|]. split; [exact Hhand|exact Hrow].
    + destruct (pe_refetch (te_proposal env)) as [[snapshot|]|e] eqn:Hrefetch.
      * assert (Hhand : at_hand snapshot) by (right; split; reflexivity).
        rewrite (Hfinish event_id snapshot eq_refl Hhand).
        destruct (Hends event_id snapshot eq_refl Hhand) as [Hnothing|[c Hrow]].
        -- left. exact Hnothing.
        -- right. exists event_id, snapshot, c.
           split; [reflexivity|]. split; [exact Hhand|exact Hrow].
      * left. rewrite Hrun. split; [reflexivity|eexists; reflexivity].
      * left. rewrite Hrun. split; [reflexivity|eexists; reflexivity].
    + left. rewrite Hrun. split; [reflexivity|eexists; reflexivity].
  - intros event_id snapshot c Hevent Hhand Hnum Hpositive Hsave.
    rewrite (Hfinish event_id snapshot Hevent Hhand). unfold finish.
    rewrite Hnum, Hsave.
    rewrite Hnum in Hlow. simpl in Hlow.
    unfold validate_confidence. rewrite Hpositive.
    assert (Hlt : (c < 70)%Q).
    { apply Qnot_le_lt. intro Hle. apply Qle_bool_iff in Hle.
      rewrite Hle in Hlow. discriminate. }
    assert (Hbelow : Qle_bool c 100 = true).
    { apply Qle_bool_iff. apply Qlt_le_weak.
      eapply Qlt_trans; [exact Hlt|]. unfold Qlt. simpl. lia. }
    rewrite Hbelow. simpl. reflexivity.
Qed.

End Facts.

(** A run of the theorem: no snapshot is stored, one is fetched and
    saved, and the oracle answers a BUY of 10 with confidence 50. *)
Lemma low_confidence_forces_hold_witness :
  let env := {| te_screen := Demo.silent_screen; te_debate := Demo.silent_debate;
                te_proposal := Demo.refetching (Demo.proposal_from Demo.timid_buy);
                te_review := Demo.silent_review;
                te_exec := Demo.smooth_execution |} in
  Ledger.proposals
    (ledger (snd (_create_proposal_from_debate (RT := Demo.runtime) env
                    Demo.debated_state Demo.quiet_world)))
  = [{| tp_id := Some 1; tp_ticker := "ACME"; tp_action := HOLD;
        tp_quantity := 0; tp_proposed_price := Some (inject_Z 150);
        tp_reasoning :=
          "one upbeat report [Rejected: Confidence 50 < 70 required for trading]";
        tp_confidence_score := Some (inject_Z 50);
        tp_analysis_event_id := Some 1; tp_debate_id := Some 1;
        tp_status := PENDING |}].
Proof.
  intros env.
  destruct (@low_confidence_forces_hold Demo.runtime env Demo.debated_state
              Demo.quiet_world Demo.acme_debate Demo.timid_buy
              eq_refl eq_refl eq_refl eq_refl) as [_ Hstored].
  exact (Hstored 1 {| sn_price := inject_Z 150 |} (inject_Z 50) eq_refl
           (or_intror (conj eq_refl eq_refl)) eq_refl eq_refl eq_refl).
Defined.

End Proposing.

(** ** The advisory lock *)

Module LockFacts.
Import Locks.




(** What polling changes: the clock, and the holder of the lock when it
    is granted. *)
Lemma wait_loop_effect (lock : GlobalPromptLock) (env : LockEnv) (start : Z) :
  forall (budget k : nat) (w : World),
    let outcome := wait_loop budget lock env start k w in
    sessions (snd outcome) = sessions w
    /\ warnings (snd outcome) = warnings w
    /\ ledger (snd outcome) = ledger w
    /\ orders (snd outcome) = orders w
    /\ (fst outcome = Returned (Ok true) ->
        lock_holder (snd outcome) = Some (lk_session env))
    /\ (fst outcome <> Returned (Ok true) ->
        lock_holder (snd outcome) = lock_holder w).
Proof.
  induction budget as [|budget IH]; intros k w; simpl.
  - repeat split; intros; try reflexivity. discriminate.
  - destruct (lk_poll env k) as [[|]|e]; simpl.
    + repeat split; intros; try reflexivity. now contradiction H.
    + destruct (_ <? _); simpl.
      * repeat split; intros; try reflexivity. discriminate.
      * specialize (IH (S k)
                      (with_clock (fun t => t + Z.of_N (retry_interval lock))
                         (with_clock (fun t => t + Z.of_N (lk_poll_time env k))
                            (with_lock_call (lk_session env)
                               (TryLock (lock_key lock)) w)))).
        simpl in IH. exact IH.
    + repeat split; intros; try reflexivity. discriminate.
Qed.









(** The same run as the witness, step by step: polling took three polls
    of 3 ms and two sleeps of 500 ms. *)
Example acquire_when_block_raises_and_release_fails :
  acquire Demo.prompt_lock Demo.contended_lock
    (@raise unit "model overloaded") Demo.quiet_world
  = (Returned (Raise "model overloaded"),
     {| ledger := Ledger.empty; clock := Demo.monday_afternoon + 1009;
        orders := []; lock_holder := None; sessions := [];
        warnings := ["Failed to release prompt lock: server closed the connection unexpectedly"];
        lock_calls := [(7%nat, TryLock 42); (7%nat, TryLock 42);
                       (7%nat, TryLock 42); (7%nat, Unlock 42)] |}).
Proof. vm_compute. reflexivity. Qed.

(** A lock that is never granted: 241 polls, then TimeoutError. *)
Example acquire_times_out :
  fst (acquire Demo.prompt_lock Demo.starved_lock (ret tt) Demo.quiet_world)
  = Returned (Raise "Timed out acquiring global prompt lock").
Proof. vm_compute. reflexivity. Qed.

End LockFacts.

(** ** What the stages leave alone *)

#[export] Instance same_lock_stable : Stable same_lock.
Proof. split; [exact _| | |]; intros; split; reflexivity. Qed.

#[export] Instance later_stable : Stable later.
Proof.
  split; [exact _| | |]; intros; unfold later; simpl; lia.
Qed.

Module StageFacts.
Import Trader DebateAgents PortfolioManager TradingGraph TradingSystem.

Section Stable.
Context (R : World -> World -> Prop) `{Stable R}.

Lemma sleep_stable n : keeps R (sleep n).
Proof. intro w. apply stable_clock. Qed.

Lemma statement_stable f run : keeps R (statement f run).
Proof.
  intro w. unfold statement. destruct f; simpl.
  - apply pre_refl.
  - apply stable_ledger.
Qed.

Lemma save_executed_trade_stable f x : keeps R (save_executed_trade f x).
Proof.
  intro w. unfold save_executed_trade. destruct f; simpl.
  - apply pre_refl.
  - apply stable_ledger.
Qed.

Lemma save_analysis_event_stable f x : keeps R (save_analysis_event f x).
Proof.
  intro w. unfold save_analysis_event. destruct f; simpl.
  - apply pre_refl.
  - apply stable_ledger.
Qed.

Lemma save_debate_stable f x : keeps R (save_debate f x).
Proof.
  intro w. unfold save_debate. destruct f; simpl.
  - apply pre_refl.
  - apply stable_ledger.
Qed.

Lemma save_trade_proposal_stable f x : keeps R (save_trade_proposal f x).
Proof.
  intro w. unfold save_trade_proposal. destruct f; simpl.
  - apply pre_refl.
  - apply stable_ledger.
Qed.

Lemma submit_order_stable broker req : keeps R (submit_order broker req).
Proof. intro w. apply stable_orders. Qed.

End Stable.

(** Going through a stage: control structure, then the primitives. *)
Ltac stable_using known :=
  repeat first
    [ known
    | apply sleep_stable | apply statement_stable
    | apply save_executed_trade_stable | apply save_analysis_event_stable
    | apply save_debate_stable | apply save_trade_proposal_stable
    | apply submit_order_stable | apply get_recent_trades_same
    | apply has_traded_today_same
    | keeps_step ];
  try exact _.

Ltac stable := stable_using fail.

Section Stages.
Context {RT : Runtime} (R : World -> World -> Prop) `{Stable R}.

Lemma analyze_ticker_stable env ticker : keeps R (analyze_ticker env ticker).
Proof. unfold analyze_ticker, analyze_body. stable. Qed.

Lemma conduct_debate_stable env ticker id : keeps R (conduct_debate env ticker id).
Proof. unfold conduct_debate. stable. Qed.

Lemma review_proposal_stable env proposal : keeps R (review_proposal env proposal).
Proof.
  unfold review_proposal, review_body, buying_power_check, decide. stable.
Qed.

Lemma execute_trade_stable env proposal decision :
  keeps R (execute_trade env proposal decision).
Proof.
  unfold execute_trade, rebalance_block, main_trade, sell_to_rebalance,
    update_proposal_status.
  stable.
Qed.

Lemma node_step_stable env n state : keeps R (node_step env n state).
Proof.
  unfold node_step, _analyze_ticker, _conduct_debate,
    _create_proposal_from_debate, propose, _review_proposal, _execute_trade,
    guarded.
  destruct n;
    stable_using ltac:(first [ apply analyze_ticker_stable
                             | apply conduct_debate_stable
                             | apply review_proposal_stable
                             | apply execute_trade_stable ]).
Qed.

Lemma invoke_from_stable env limit : forall n state,
  keeps R (invoke_from limit env n state).
Proof.
  induction limit as [|limit IH]; intros n state; destruct n;
    cbn [invoke_from];
    try (apply keeps_ret; exact _); try (apply keeps_raise; exact _);
    (apply keeps_bind; [exact _|apply node_step_stable|intros next; apply IH]).
Qed.

Lemma process_ticker_stable env ticker : keeps R (process_ticker env ticker).
Proof.
  unfold process_ticker, run. stable_using ltac:(apply invoke_from_stable).
Qed.

Lemma run_cycle_stable env cycle : keeps R (run_cycle env cycle).
Proof.
  unfold run_cycle, update_stock_data.
  apply keeps_bind; [exact _|apply keeps_ret; exact _|intros _].
  induction (en_stocks env) as [|ticker rest IH]; simpl;
    stable_using ltac:(first [apply process_ticker_stable | apply IH]).
Qed.

Lemma should_run_trading_cycle_stable cycle :
  keeps R (should_run_trading_cycle cycle).
Proof. unfold should_run_trading_cycle. stable. Qed.

Lemma loop_pass_stable env k : keeps R (loop_pass env k).
Proof.
  unfold loop_pass.
  stable_using ltac:(first [ apply run_cycle_stable
                           | apply should_run_trading_cycle_stable ]).
Qed.

Lemma engine_step_stable env phase w : R w (snd (engine_step env phase w)).
Proof.
  unfold engine_step.
  destruct phase as [k|k [|ticker todo]|k todo n state].
  - pose proof (should_run_trading_cycle_stable (en_cycle env k) w) as Hcheck.
    destruct (should_run_trading_cycle (en_cycle env k) w) as [[[|]|e] w'];
      cbn [fst snd] in *.
    + exact Hcheck.
    + eapply pre_trans; [exact Hcheck|apply sleep_stable; exact _].
    + eapply pre_trans; [exact Hcheck|apply sleep_stable; exact _].
  - cbn [fst snd]. apply sleep_stable; exact _.
  - cbn [fst snd]. apply pre_refl.
  - assert (Hstep : forall n',
              R w (snd (match node_step (cy_ticker (en_cycle env k) (ts_ticker state))
                                n' state w with
                        | (Ok next, w') => (Inside k todo (fst next) (snd next), w')
                        | (Raise e, w') => (Between k todo, snd (sleep 5000 w'))
                        end))).
    { intros n'.
      pose proof (node_step_stable (cy_ticker (en_cycle env k) (ts_ticker state))
                    n' state w) as Hnode.
      destruct (node_step _ n' state w) as [[next|e] w']; cbn [fst snd] in *.
      - exact Hnode.
      - eapply pre_trans; [exact Hnode|apply sleep_stable; exact _]. }
    destruct n; try apply Hstep.
    cbn [fst snd]. apply sleep_stable; exact _.
Qed.

Lemma engine_steps_stable env n : forall phase w,
  R w (snd (engine_steps env n phase w)).
Proof.
  induction n as [|n IH]; intros phase w; simpl.
  - apply pre_refl.
  - pose proof (engine_step_stable env phase w) as Hstep.
    destruct (engine_step env phase w) as [phase' w']. simpl in Hstep.
    eapply pre_trans; [exact Hstep|apply IH].
Qed.

End Stages.
End StageFacts.

(** ** The engine *)

Module EngineFacts.
Import TradingGraph TradingSystem StageFacts.

(** A trade stamped today is seen by the daily check. *)
Lemma traded_today (l : Ledger.t) (x : ExecutedTrade) (t now : Z) :
  In x (Ledger.trades l) ->
  et_executed_at x = Some t ->
  Ledger.day_of t = Ledger.day_of now ->
  Ledger.traded_since l (Ledger.today_start now) = true.
Proof.
  intros Hin Hat Hday. unfold Ledger.traded_since.
  assert (Hkept : In x (filter (fun x => Ledger.at_or_after (Ledger.today_start now)
                                           (et_executed_at x))
                          (Ledger.trades l))).
  { apply filter_In. split; [exact Hin|].
    rewrite Hat. simpl. apply Z.leb_le.
    unfold Ledger.today_start. fold (Ledger.day_of now). rewrite <- Hday.
    unfold Ledger.day_of. apply Z.mul_div_le. reflexivity. }
  destruct (filter _ _) as [|y rows]; [contradiction|].
  simpl. apply Z.ltb_lt. lia.
Qed.

Lemma day_of_monotone (a b : Z) : a <= b -> Ledger.day_of a <= Ledger.day_of b.
Proof. intros Hle. unfold Ledger.day_of. apply Z.div_le_mono; [reflexivity|exact Hle]. Qed.

Section Facts.
Context {RT : Runtime}.

(** With a trade today the check answers no, or raises; it never says go. *)
Lemma should_run_after_trade (cycle : CycleEnv) (w : World) :
  has_trade_today w ->
  should_run_trading_cycle cycle w = (Ok false, w)
  \/ exists e, should_run_trading_cycle cycle w = (Raise e, w).
Proof.
  intros [x [t [Hin [Hat Hday]]]].
  unfold should_run_trading_cycle.
  destruct (cy_market_open cycle); simpl; [|left; reflexivity].
  unfold bind, has_traded_today.
  destruct (cy_has_traded cycle) as [e|]; [right; now exists e|].
  rewrite (@traded_today _ _ _ _ Hin Hat Hday). left. reflexivity.
Qed.

(** One step from the top of the loop with a trade today: back to the
    top, the ledger and the broker untouched. *)
Lemma waiting_step_after_trade (env : EngineEnv) (k : nat) (w : World) :
  has_trade_today w ->
  exists w',
    engine_step env (Waiting k) w = (Waiting (S k), w')
    /\ ledger w' = ledger w /\ orders w' = orders w.
Proof.
  intros Htoday. unfold engine_step.
  destruct (should_run_after_trade (en_cycle env k) Htoday) as [Hno|[e He]].
  - rewrite Hno. eexists. repeat split.
  - rewrite He. eexists. repeat split.
Qed.

Lemma steps_after_trade (env : EngineEnv) (n : nat) : forall (k : nat) (w : World),
  has_trade_today w ->
  Ledger.day_of (clock (snd (engine_steps env n (Waiting k) w)))
  = Ledger.day_of (clock w) ->
  ledger (snd (engine_steps env n (Waiting k) w)) = ledger w
  /\ orders (snd (engine_steps env n (Waiting k) w)) = orders w
  /\ fst (engine_steps env n (Waiting k) w) = Waiting (n + k).
Proof.
  induction n as [|n IH]; intros k w Htoday Hday.
  - simpl. repeat split.
  - cbn [engine_steps] in *.
    destruct (waiting_step_after_trade env k Htoday) as [w1 [Hstep [Hledger Horders]]].
    pose proof (@engine_step_stable _ later _ env (Waiting k) w) as Hlater1.
    rewrite Hstep in *. cbn [snd] in Hlater1.
    pose proof (@engine_steps_stable _ later _ env n (Waiting (S k)) w1) as Hlater2.
    unfold later in Hlater1, Hlater2.
    assert (Hsame : Ledger.day_of (clock w1) = Ledger.day_of (clock w)).
    { pose proof (day_of_monotone Hlater1). pose proof (day_of_monotone Hlater2).
      lia. }
    assert (Htoday1 : has_trade_today w1).
    { destruct Htoday as [x [t [Hin [Hat Ht]]]]. exists x, t.
      rewrite Hledger, Hsame. repeat split; assumption. }
    rewrite <- Hsame in Hday.
    destruct (IH (S k) w1 Htoday1 Hday) as [Hl [Ho Hp]].
    rewrite Hl, Ho, Hp, Hledger, Horders.
    repeat split. f_equal. lia.
Qed.

(** The same for a whole pass of the loop. *)
Lemma loop_pass_after_trade (env : EngineEnv) (k : nat) (w : World) :
  has_trade_today w ->
  exists w',
    loop_pass env k w = (Ok tt, w')
    /\ ledger w' = ledger w /\ orders w' = orders w.
Proof.
  intros Htoday. unfold loop_pass, try_except. unfold bind at 1.
  destruct (should_run_after_trade (en_cycle env k) Htoday) as [Hno|[e He]].
  - rewrite Hno. eexists. repeat split.
  - rewrite He. eexists. repeat split.
Qed.

Lemma run_passes_stable (R : World -> World -> Prop) `{Stable R}
  (env : EngineEnv) (n : nat) : forall k, keeps R (run_passes env n k).
Proof.
  induction n as [|n IH]; intros k; simpl.
  - apply keeps_ret; exact _.
  - apply keeps_bind; [exact _|apply loop_pass_stable; exact _|intros _; apply IH].
Qed.

Lemma passes_after_trade (env : EngineEnv) (n : nat) : forall (k : nat) (w : World),
  has_trade_today w ->
  Ledger.day_of (clock (snd (run_passes env n k w))) = Ledger.day_of (clock w) ->
  ledger (snd (run_passes env n k w)) = ledger w
  /\ orders (snd (run_passes env n k w)) = orders w.
Proof.
  induction n as [|n IH]; intros k w Htoday Hday.
  - simpl. split; reflexivity.
  - cbn [run_passes] in *. unfold bind in *.
    destruct (loop_pass_after_trade env k Htoday) as [w1 [Hpass [Hledger Horders]]].
    pose proof (@loop_pass_stable _ later _ env k w) as Hlater1.
    rewrite Hpass in *. cbn [snd] in Hlater1.
    pose proof (@run_passes_stable later _ env n (S k) w1) as Hlater2.
    unfold later in Hlater1, Hlater2.
    assert (Hsame : Ledger.day_of (clock w1) = Ledger.day_of (clock w)).
    { pose proof (day_of_monotone Hlater1). pose proof (day_of_monotone Hlater2).
      lia. }
    assert (Htoday1 : has_trade_today w1).
    { destruct Htoday as [x [t [Hin [Hat Ht]]]]. exists x, t.
      rewrite Hledger, Hsame. repeat split; assumption. }
    rewrite <- Hsame in Hday.
    destruct (IH (S k) w1 Htoday1 Hday) as [Hl Ho].
    rewrite Hl, Ho, Hledger, Horders. split; reflexivity.
Qed.

(** C1, as amended. One engine process evaluates the has-traded-today
    check at the top of every pass, before any ticker is processed; once
    an ExecutedTrade stamped today is in the ledger the check never
    answers go, and every later pass that ends the same day leaves the
    ledger and the broker untouched, whether the loop is followed step
    by step or pass by pass. *)
Theorem daily_cap_gates_each_pass (env : EngineEnv) (w : World) :
  has_trade_today w ->
  (forall cycle, fst (should_run_trading_cycle cycle w) <> Ok true)
  /\ (forall n k,
        Ledger.day_of (clock (snd (engine_steps env n (Waiting k) w)))
        = Ledger.day_of (clock w) ->
        ledger (snd (engine_steps env n (Waiting k) w)) = ledger w
        /\ orders (snd (engine_steps env n (Waiting k) w)) = orders w
        /\ fst (engine_steps env n (Waiting k) w) = Waiting (n + k))
  /\ (forall n k,
        Ledger.day_of (clock (snd (run_passes env n k w)))
        = Ledger.day_of (clock w) ->
        ledger (snd (run_passes env n k w)) = ledger w
        /\ orders (snd (run_passes env n k w)) = orders w).
Proof.
  intros Htoday. split; [|split].
  - intros cycle.
    destruct (should_run_after_trade cycle Htoday) as [Hno|[e He]].
    + rewrite Hno. discriminate.
    + rewrite He. discriminate.
  - intros n k. now apply steps_after_trade.
  - intros n k. now apply passes_after_trade.
Qed.

(** No step and no pass of the engine touches the advisory lock or opens
    a session. *)
Lemma engine_leaves_the_lock (env : EngineEnv) :
  (forall n phase w, same_lock w (snd (engine_steps env n phase w)))
  /\ (forall n k w, same_lock w (snd (run_passes env n k w))).
Proof.
  split.
  - intros n phase w. apply engine_steps_stable. exact _.
  - intros n k w. apply (@run_passes_stable same_lock _ env n k w).
Qed.

End Facts.
End EngineFacts.

(** ** Coordination between engine processes *)

Module Coordination.
Import TradingGraph TradingSystem Locks StageFacts EngineFacts LockFacts.

(** C4, as amended. The engine runs its daily check and its cycle without
    the advisory lock: no step and no pass of the loop changes the
    holder of the lock or the open sessions. The lock itself, where a
    block is put under it, never runs the block after a timeout:
    [acquire] raises TimeoutError, and the ledger and the broker are as
    they were. *)
Theorem engine_never_takes_the_lock {RT : Runtime} (env : EngineEnv) :
  (forall n phase w,
      lock_holder (snd (engine_steps env n phase w)) = lock_holder w
      /\ sessions (snd (engine_steps env n phase w)) = sessions w)
  /\ (forall n k w,
        lock_holder (snd (run_passes env n k w)) = lock_holder w
        /\ sessions (snd (run_passes env n k w)) = sessions w)
  /\ (forall (A : Type) lock lenv (body : M A) w w1 w2,
        _connect lenv w = (Ok tt, w1) ->
        _wait_for_lock lock lenv w1 = (Returned (Ok false), w2) ->
        acquire lock lenv body w
        = (Returned (Raise "Timed out acquiring global prompt lock"),
           close_session lenv w2)
        /\ ledger (close_session lenv w2) = ledger w
        /\ orders (close_session lenv w2) = orders w).
Proof.
  destruct (engine_leaves_the_lock env) as [Hsteps Hpasses].
  split; [exact Hsteps|split; [exact Hpasses|]].
  intros A lock lenv body w w1 w2 Hconnect Hwait.
  unfold acquire. rewrite Hconnect, Hwait. split; [reflexivity|].
  pose proof (wait_loop_effect lock lenv (clock w1) (passes_needed lock) 0 w1)
    as Heffect.
  fold (_wait_for_lock lock lenv w1) in Heffect. rewrite Hwait in Heffect.
  simpl in Heffect. destruct Heffect as [_ [_ [Hledger [Horders _]]]].
  unfold _connect in Hconnect.
  destruct (lk_connect lenv); [discriminate|].
  destruct (lk_setup lenv); [discriminate|]. inversion Hconnect; subst w1.
  simpl. split; assumption.
Qed.

(** A run of the theorem: a block under a lock that is never granted. *)
Lemma engine_never_takes_the_lock_witness :
  acquire Demo.prompt_lock Demo.starved_lock
    (submit_order (fun _ => Ok (Demo.filled (inject_Z 150)))
       {| or_symbol := JStr "ACME"; or_qty := JNum (inject_Z 10);
          or_side := "BUY" |})
    Demo.quiet_world
  = (Returned (Raise "Timed out acquiring global prompt lock"),
     close_session Demo.starved_lock
       (snd (_wait_for_lock Demo.prompt_lock Demo.starved_lock
               (snd (_connect Demo.starved_lock Demo.quiet_world))))).
Proof.
  destruct (@engine_never_takes_the_lock Demo.runtime (Demo.engine ["ACME"]))
    as [_ [_ Htimeout]].
  refine (proj1 (Htimeout _ Demo.prompt_lock Demo.starved_lock _
                   Demo.quiet_world
                   (snd (_connect Demo.starved_lock Demo.quiet_world))
                   (snd (_wait_for_lock Demo.prompt_lock Demo.starved_lock
                           (snd (_connect Demo.starved_lock Demo.quiet_world))))
                   eq_refl _)).
  vm_compute. reflexivity.
Defined.

(** C4, the claim as written fails: one pass of the engine on an open
    market checks the daily cap, runs the cycle and trades, and at every
    step of it the advisory lock is free and no session is open. *)
Lemma cycle_runs_with_the_lock_free :
  let at_step n :=
    engine_steps (RT := Demo.runtime) (Demo.engine ["ACME"]) n (Waiting 0)
      Demo.quiet_world in
  map (fun n => (lock_holder (snd (at_step n)), sessions (snd (at_step n))))
      (seq 0 10)
  = repeat (None, []) 10
  /\ fst (at_step 1%nat) = Between 0 ["ACME"]
  /\ List.length (Ledger.trades (ledger (snd (at_step 7%nat)))) = 1%nat
  /\ fst (at_step 9%nat) = Waiting 1.
Proof. vm_compute. repeat split. Qed.

(** A run of the daily cap: after the pass above has traded, three more
    hourly passes of the same day change nothing. *)
Lemma daily_cap_gates_each_pass_witness :
  let traded :=
    snd (engine_steps (RT := Demo.runtime) (Demo.engine ["ACME"]) 9 (Waiting 0)
           Demo.quiet_world) in
  ledger (snd (engine_steps (RT := Demo.runtime) (Demo.engine ["ACME"]) 3
                 (Waiting 1) traded))
  = ledger traded.
Proof.
  intros traded.
  assert (Htoday : has_trade_today traded).
  { eexists; eexists. split; [left; reflexivity|].
    split; [reflexivity|]. vm_compute. reflexivity. }
  destruct (@daily_cap_gates_each_pass Demo.runtime (Demo.engine ["ACME"])
              traded Htoday) as [_ [Hsteps _]].
  refine (proj1 (Hsteps 3%nat 1%nat _)).
  vm_compute. reflexivity.
Defined.

(** C1, the claim as written fails: two engine processes on one
    database both pass the daily check before either has traded, and
    each then stores an ExecutedTrade on the same day. *)
Lemma two_engines_trade_twice_in_a_day :
  let final :=
    system_run (RT := Demo.runtime) (Demo.engine ["ACME"]) (Demo.engine ["ACME"])
      Demo.racing_schedule Demo.two_engines in
  map (fun x => option_map Ledger.day_of (et_executed_at x))
      (Ledger.trades (ledger (sy_world final)))
  = [Some 20458; Some 20458]
  /\ List.length (Ledger.trades_on (ledger (sy_world final)) 20458) = 2%nat
  /\ map tp_status (Ledger.proposals (ledger (sy_world final)))
     = [EXECUTED; EXECUTED].
Proof. vm_compute. repeat split. Qed.

(** One process, two tickers: once ACME has traded, the review of BETA
    reads the trade among the recent ones, [json.dumps] raises on its
    [executed_at], and the review fails closed; BETA is not executed. *)
Example second_ticker_is_rejected_at_review :
  let final :=
    snd (engine_steps (RT := Demo.runtime) (Demo.engine ["ACME"; "BETA"]) 14
           (Waiting 0) Demo.quiet_world) in
  map et_ticker (Ledger.trades (ledger final)) = ["ACME"]
  /\ map tp_status (Ledger.proposals (ledger final)) = [EXECUTED; PENDING]
  /\ List.length (orders final) = 1%nat.
Proof. vm_compute. repeat split. Qed.

End Coordination.

(** ** The loop pass by pass and step by step *)

Module Simulation.
Import Trader DebateAgents PortfolioManager TradingGraph TradingSystem.

Section Facts.
Context {RT : Runtime}.

Lemma guarded_ticker (body : M TradingState) (state : TradingState) (w : World) :
  (forall s w', body w = (Ok s, w') -> ts_ticker s = ts_ticker state) ->
  forall s w', guarded body state w = (Ok s, w') -> ts_ticker s = ts_ticker state.
Proof.
  intros Hbody s w'. unfold guarded, try_except.
  destruct (body w) as [[s0|e] w0] eqn:Hrun.
  - intros Heq. inversion Heq; subst. eapply Hbody. reflexivity.
  - unfold ret. intros Heq. inversion Heq; subst. reflexivity.
Qed.

(** A node may rewrite every field of the state but the ticker, and the
    edge it leaves by leads strictly closer to END. *)
Lemma node_step_progress (env : TickerEnv) (n : Node) (state : TradingState)
  (w w' : World) (next : Node * TradingState) :
  n <> END ->
  node_step env n state w = (Ok next, w') ->
  ts_ticker (snd next) = ts_ticker state
  /\ (distance (fst next) < distance n)%nat.
Proof.
  intros Hnode. unfold node_step.
  destruct n; try contradiction; unfold bind at 1.
  - destruct (_analyze_ticker env state w) as [[s|e] w1] eqn:Hrun;
      [|discriminate].
    unfold bind, lift, ret. destruct (_should_debate s) as [go|e]; [|discriminate].
    intros Heq. inversion Heq; subst. simpl. split.
    + revert Hrun. unfold _analyze_ticker. apply guarded_ticker.
      intros s0 w0. destruct (String.eqb (ts_ticker state) "").
      * unfold ret. intros Heq0. inversion Heq0. reflexivity.
      * unfold bind. destruct (analyze_ticker _ _ w) as [[r|e] w2];
          [|discriminate].
        unfold ret. intros Heq0. inversion Heq0. reflexivity.
    + destruct go; simpl; lia.
  - destruct (_conduct_debate env state w) as [[s|e] w1] eqn:Hrun;
      [|discriminate].
    unfold ret. intros Heq. inversion Heq; subst. simpl. split; [|lia].
    revert Hrun. unfold _conduct_debate. apply guarded_ticker.
    intros s0 w0. destruct (usable_event_id _).
    + unfold bind. destruct (conduct_debate _ _ _ w) as [[d|e] w2];
        [|discriminate].
      destruct (db_id d) as [i|]; [destruct (i =? 0)|];
        unfold ret; intros Heq0; inversion Heq0; reflexivity.
    + unfold ret. intros Heq0. inversion Heq0. reflexivity.
  - destruct (_create_proposal_from_debate env state w) as [[s|e] w1] eqn:Hrun;
      [|discriminate].
    unfold ret. intros Heq. inversion Heq; subst. simpl. split; [|lia].
    revert Hrun. unfold _create_proposal_from_debate. apply guarded_ticker.
    intros s0 w0.
    assert (Hpropose : forall event_id debate_result snapshot,
               propose env state event_id debate_result snapshot w = (Ok s0, w0) ->
               ts_ticker s0 = ts_ticker state).
    { intros event_id debate_result snapshot. unfold propose, bind, lift, ret.
      destruct (pe_llm _ _); [|discriminate].
      destruct (json_loads _); [|discriminate].
      destruct (build_proposal _ _ _ _ _); [|discriminate].
      destruct (save_trade_proposal _ _ w) as [[i|e] w2]; [|discriminate].
      intros Heq0. inversion Heq0. reflexivity. }
    destruct (usable_event_id _);
      [|unfold ret; intros Heq0; inversion Heq0; reflexivity].
    destruct (ts_debate_result state);
      [|unfold ret; intros Heq0; inversion Heq0; reflexivity].
    unfold bind at 1. unfold lift at 1.
    destruct (pe_snapshot _) as [[snapshot|]|e]; [apply Hpropose| |discriminate].
    destruct (pe_refetch _) as [[snapshot|]|e]; [apply Hpropose| |];
      unfold ret; intros Heq0; inversion Heq0; reflexivity.
  - destruct (_review_proposal env state w) as [[s|e] w1] eqn:Hrun;
      [|discriminate].
    unfold bind, lift, ret. destruct (_should_execute s) as [go|e]; [|discriminate].
    intros Heq. inversion Heq; subst. simpl. split.
    + revert Hrun. unfold _review_proposal. apply guarded_ticker.
      intros s0 w0. destruct (ts_trade_proposal state).
      * unfold bind. destruct (review_proposal _ _ w) as [[d|e] w2];
          [|discriminate].
        unfold ret. intros Heq0. inversion Heq0. reflexivity.
      * unfold ret. intros Heq0. inversion Heq0. reflexivity.
    + destruct go; simpl; lia.
  - destruct (_execute_trade env state w) as [[s|e] w1] eqn:Hrun;
      [|discriminate].
    unfold ret. intros Heq. inversion Heq; subst. simpl. split; [|lia].
    revert Hrun. unfold _execute_trade. apply guarded_ticker.
    intros s0 w0.
    destruct (ts_trade_proposal state) as [p|];
      [|unfold ret; intros Heq0; inversion Heq0; reflexivity].
    destruct (ts_portfolio_decision state) as [[|entry more]|];
      try (unfold ret; intros Heq0; inversion Heq0; reflexivity).
    unfold bind. destruct (execute_trade _ _ _ w) as [[[x|]|e] w2];
      try discriminate; unfold ret; intros Heq0; inversion Heq0; reflexivity.
Qed.


Lemma Node_eq_END (n : Node) : n = END \/ n <> END.
Proof. destruct n; (left; reflexivity) || (right; discriminate). Qed.

Lemma process_ticker_returns (env : TickerEnv) (ticker : string) (w : World) e w' :
  process_ticker env ticker w = (Raise e, w') -> False.
Proof.
  unfold process_ticker, try_except, bind, ret.
  destruct (run _ _ w) as [[s|e0] w3]; discriminate.
Qed.

Lemma process_ticker_by_nodes (env : TickerEnv) (ticker : string) :
  process_ticker env ticker
  = try_except
      (let* result :=
         invoke_from recursion_limit env analyze_ticker_node
           (initial_state ticker) in
       ret tt)
      (fun e => ret tt).
Proof. unfold process_ticker, run. reflexivity. Qed.

Lemma process_all_returns (cycle : CycleEnv) (todo : list string) :
  forall (w : World) e w', process_all cycle todo w = (Raise e, w') -> False.
Proof.
  induction todo as [|ticker todo IH]; intros w e w'.
  - discriminate.
  - cbn [process_all]. unfold bind at 1.
    destruct (process_ticker _ _ w) as [[[]|e0] w1] eqn:Hrun.
    + unfold bind at 1, sleep at 1. apply IH.
    + intros _. exact (process_ticker_returns _ _ _ Hrun).
Qed.

Lemma loop_pass_returns (env : EngineEnv) (k : nat) (w : World) e w' :
  loop_pass env k w = (Raise e, w') -> False.
Proof.
  unfold loop_pass, try_except, bind at 1.
  destruct (should_run_trading_cycle _ w) as [[go|e0] w1]; [|discriminate].
  unfold bind at 1.
  destruct ((if go then run_cycle env (en_cycle env k) else ret tt) w1)
    as [[[]|e0] w2] eqn:Hrun; [discriminate|].
  intros _. destruct go; [|discriminate].
  revert Hrun. unfold run_cycle, update_stock_data, bind at 1, ret.
  apply process_all_returns.
Qed.

Lemma engine_steps_app (env : EngineEnv) (n m : nat) (phase : Phase) (w : World) :
  engine_steps env (n + m) phase w
  = engine_steps env m (fst (engine_steps env n phase w))
      (snd (engine_steps env n phase w)).
Proof.
  revert phase w. induction n as [|n IH]; intros phase w; simpl.
  - reflexivity.
  - destruct (engine_step env phase w) as [phase' w']. apply IH.
Qed.

(** One ticker: the steps of the engine through the graph end where
    [process_ticker] and the pause after it end, whenever the budget of
    super-steps covers the path that is left. *)
Lemma inside_by_steps (env : EngineEnv) (k : nat) (todo : list string)
  (limit : nat) :
  forall (n : Node) (state : TradingState) (w : World),
    (distance n <= limit)%nat ->
    exists m,
      engine_steps env m (Inside k todo n state) w
      = (Between k todo,
         snd (sleep 5000
                (snd (try_except
                        (let* result :=
                           invoke_from limit
                             (cy_ticker (en_cycle env k) (ts_ticker state))
                             n state in
                         ret tt)
                        (fun e => ret tt) w)))).
Proof.
  induction limit as [|limit IH]; intros n state w Hlimit.
  - destruct n; simpl in Hlimit; try lia.
    exists 1%nat. reflexivity.
  - destruct (Node_eq_END n) as [Hend|Hnode].
    + subst n. exists 1%nat. reflexivity.
    + destruct (node_step (cy_ticker (en_cycle env k) (ts_ticker state)) n state w)
        as [[next|e] w1] eqn:Hstep.
      * destruct (@node_step_progress _ _ _ _ _ _ Hnode Hstep) as [Hticker Hcloser].
        destruct (IH (fst next) (snd next) w1) as [m Hm]; [lia|].
        exists (S m). cbn [engine_steps].
        assert (Hone : engine_step env (Inside k todo n state) w
                       = (Inside k todo (fst next) (snd next), w1)).
        { destruct n; try contradiction; cbn [engine_step]; rewrite Hstep;
            reflexivity. }
        rewrite Hone, Hm, Hticker.
        assert (Hinvoke :
                  invoke_from (S limit)
                    (cy_ticker (en_cycle env k) (ts_ticker state)) n state w
                  = invoke_from limit
                      (cy_ticker (en_cycle env k) (ts_ticker state))
                      (fst next) (snd next) w1).
        { destruct n; try contradiction; cbn [invoke_from]; unfold bind at 1;
            rewrite Hstep; reflexivity. }
        unfold try_except, bind at 2. rewrite Hinvoke.
        unfold try_except, bind. reflexivity.
      * exists 1%nat. cbn [engine_steps].
        assert (Hone : engine_step env (Inside k todo n state) w
                       = (Between k todo, snd (sleep 5000 w1))).
        { destruct n; try contradiction; cbn [engine_step]; rewrite Hstep;
            reflexivity. }
        rewrite Hone.
        assert (Hinvoke :
                  invoke_from (S limit)
                    (cy_ticker (en_cycle env k) (ts_ticker state)) n state w
                  = (Raise e, w1)).
        { destruct n; try contradiction; cbn [invoke_from]; unfold bind at 1;
            rewrite Hstep; reflexivity. }
        unfold try_except, bind. rewrite Hinvoke. reflexivity.
Qed.

(** The rest of a cycle: the steps through the tickers still to do end
    where the [for] loop and the pause of the pass end. *)
Lemma between_by_steps (env : EngineEnv) (k : nat) (todo : list string) :
  forall w : World,
    exists m,
      engine_steps env m (Between k todo) w
      = (Waiting (S k),
         snd (sleep (en_interval_minutes env * 60000)
                (snd (process_all (en_cycle env k) todo w)))).
Proof.
  induction todo as [|ticker todo IH]; intros w.
  - exists 1%nat. reflexivity.
  - destruct (@inside_by_steps env k todo recursion_limit analyze_ticker_node
                (initial_state ticker) w) as [m1 Hm1];
      [unfold recursion_limit; simpl; lia|].
    set (w1 := snd (sleep 5000
                      (snd (process_ticker (cy_ticker (en_cycle env k) ticker)
                              ticker w)))).
    destruct (IH w1) as [m2 Hm2].
    exists (S (m1 + m2)). cbn [engine_steps engine_step].
    rewrite engine_steps_app, Hm1. cbn [fst snd].
    change (ts_ticker (initial_state ticker)) with ticker.
    rewrite <- process_ticker_by_nodes.
    fold w1. rewrite Hm2. f_equal. f_equal. f_equal.
    cbn [process_all]. unfold bind at 1. subst w1.
    destruct (process_ticker (cy_ticker (en_cycle env k) ticker) ticker w)
      as [[[]|e] w2] eqn:Hrun.
    + reflexivity.
    + exfalso. exact (process_ticker_returns _ _ _ Hrun).
Qed.

(** One pass of [while True], taken step by step, is [loop_pass]. *)
Lemma pass_by_steps (env : EngineEnv) (k : nat) (w : World) :
  exists m,
    engine_steps env m (Waiting k) w = (Waiting (S k), snd (loop_pass env k w)).
Proof.
  unfold loop_pass, try_except, bind at 1.
  destruct (should_run_trading_cycle (en_cycle env k) w) as [[[|]|e] w1] eqn:Hgo.
  - destruct (between_by_steps env k (en_stocks env) w1) as [m Hm].
    exists (S m). cbn [engine_steps engine_step]. rewrite Hgo, Hm.
    f_equal. unfold run_cycle, update_stock_data, bind at 1 2, ret.
    destruct (process_all (en_cycle env k) (en_stocks env) w1)
      as [[[]|e] w2] eqn:Hall.
    + reflexivity.
    + exfalso. exact (process_all_returns _ _ _ Hall).
  - exists 1%nat. cbn [engine_steps engine_step]. rewrite Hgo. reflexivity.
  - exists 1%nat. cbn [engine_steps engine_step]. rewrite Hgo. reflexivity.
Qed.

(** Any number of passes of the loop is a run of the step-by-step engine. *)
Lemma passes_by_steps (env : EngineEnv) (n : nat) :
  forall (k : nat) (w : World),
    exists m,
      engine_steps env m (Waiting k) w
      = (Waiting (n + k), snd (run_passes env n k w)).
Proof.
  induction n as [|n IH]; intros k w.
  - exists 0%nat. reflexivity.
  - destruct (pass_by_steps env k w) as [m1 Hm1].
    destruct (IH (S k) (snd (loop_pass env k w))) as [m2 Hm2].
    exists (m1 + m2)%nat. rewrite engine_steps_app, Hm1. cbn [fst snd].
    rewrite Hm2. replace (n + S k)%nat with (S n + k)%nat by lia.
    f_equal. cbn [run_passes]. unfold bind at 1.
    destruct (loop_pass env k w) as [[[]|e] w1] eqn:Hpass.
    + reflexivity.
    + exfalso. exact (loop_pass_returns _ _ _ Hpass).
Qed.

End Facts.
End Simulation.

(** ** More on the risk gate and the execution stage *)

Module OrderFlow.
Import PortfolioManager TradingGraph TradingSystem RiskGate StageFacts Execution
  EngineFacts.

Section Facts.
Context {RT : Runtime}.

(** X1. The risk-gate review only reads: whatever the collaborators
    answer, it leaves every table of the ledger, the orders sent to the
    broker, the advisory lock and the open sessions as they were; time
    alone moves on. *)
Theorem review_proposal_only_reads (env : ReviewEnv) (proposal : TradeProposal)
  (w : World) :
  ledger (snd (review_proposal env proposal w)) = ledger w
  /\ orders (snd (review_proposal env proposal w)) = orders w
  /\ lock_holder (snd (review_proposal env proposal w)) = lock_holder w
  /\ sessions (snd (review_proposal env proposal w)) = sessions w
  /\ clock w <= clock (snd (review_proposal env proposal w)).
Proof.
  pose proof (review_proposal_same_ledger env proposal w) as Hledger.
  pose proof (review_proposal_same_orders env proposal w) as Horders.
  pose proof (@review_proposal_stable _ same_lock _ env proposal w) as Hlock.
  pose proof (@review_proposal_stable _ later _ env proposal w) as Hlater.
  destruct Hlock as [Hholder Hsessions].
  repeat split; assumption.
Qed.

(** X2. A decision that is not APPROVE: [execute_trade] sends no order
    and stores no trade. Its one UPDATE stands outside the [try]: when it
    goes through the proposal is REJECTED and None is returned, and when
    it raises, the exception reaches the caller and the ledger is as it
    was. *)
Theorem unapproved_execution_sends_nothing (env : ExecEnv)
  (proposal : TradeProposal) (decision : dict) (w : World) :
  get_is decision "decision" "APPROVE" = false ->
  let outcome := execute_trade env proposal decision w in
  orders (snd outcome) = orders w
  /\ Ledger.trades (ledger (snd outcome)) = Ledger.trades (ledger w)
  /\ match ex_ledger env AtNotApproved with
     | None =>
         fst outcome = Ok None
         /\ ledger (snd outcome)
            = Ledger.set_status (tp_id proposal) REJECTED (ledger w)
         /\ (Ledger.status_of (ledger w) (tp_id proposal) <> None ->
             Ledger.status_of (ledger (snd outcome)) (tp_id proposal)
             = Some REJECTED)
     | Some e => fst outcome = Raise e /\ ledger (snd outcome) = ledger w
     end.
Proof.
  intros Hreject outcome. subst outcome.
  unfold execute_trade. unfold bind at 1. simpl. rewrite Hreject. simpl.
  unfold bind, update_proposal_status, statement, ret.
  destruct (ex_ledger env AtNotApproved) as [e|]; simpl.
  - split; [reflexivity|split; [reflexivity|split; reflexivity]].
  - split; [reflexivity|split; [reflexivity|]].
    split; [reflexivity|split; [reflexivity|]].
    intros Hrow. now apply status_of_set_status.
Qed.

(** The rebalancing block is skipped unless the proposal is a BUY. *)
Lemma rebalance_block_only_for_buy (env : ExecEnv) (proposal : TradeProposal)
  (decision : dict) (w : World) :
  tp_action proposal <> BUY ->
  rebalance_block env proposal decision w = (Ok Proceed, w).
Proof.
  intros Hother. unfold rebalance_block.
  destruct (dict_get decision "position_to_sell") as [target|]; [|reflexivity].
  destruct (dict_get decision "sell_quantity") as [amount|]; [|reflexivity].
  destruct (tp_action proposal); [contradiction| |];
    rewrite !andb_false_r; reflexivity.
Qed.

(** The rebalancing block is skipped when the decision names no position. *)
Lemma rebalance_block_without_target (env : ExecEnv) (proposal : TradeProposal)
  (decision : dict) (w : World) :
  dict_get decision "position_to_sell" = None ->
  rebalance_block env proposal decision w = (Ok Proceed, w).
Proof. intros Hnone. unfold rebalance_block. rewrite Hnone. reflexivity. Qed.

(** An approved execution whose rebalancing block is skipped, up to the
    main order. *)
Lemma execute_trade_main_order (env : ExecEnv) (proposal : TradeProposal)
  (decision : dict) (w : World) :
  get_is decision "decision" "APPROVE" = true ->
  (forall w1, rebalance_block env proposal decision w1 = (Ok Proceed, w1)) ->
  execute_trade env proposal decision w
  = try_except (main_trade env proposal decision)
      (fun e =>
         update_proposal_status (ex_ledger env AtHandler) (tp_id proposal)
           REJECTED ;;;
         ret None)
      (snd (sleep (ex_latency env) w)).
Proof.
  intros Happrove Hskip.
  unfold execute_trade. unfold bind at 1. simpl. rewrite Happrove. simpl.
  unfold try_except. unfold bind at 1. rewrite Hskip. reflexivity.
Qed.

(** The main order when the broker reports no fill price. *)
Lemma main_trade_unfilled (env : ExecEnv) (proposal : TradeProposal)
  (decision : dict) (order : Order) (w : World) :
  ex_broker env (main_request proposal decision) = Ok order ->
  od_price order = None ->
  main_trade env proposal decision w
  = (Raise "[<class 'decimal.ConversionSyntax'>]",
     with_orders (fun sent => sent ++ [main_request proposal decision]) w).
Proof.
  intros Hack Hprice.
  unfold main_trade. unfold bind at 1. unfold submit_order at 1.
  rewrite Hack. unfold bind at 1. unfold lift at 1.
  unfold execution_price_of. rewrite Hprice. reflexivity.
Qed.

(** X3. A main order that the broker accepts without a fill price (the
    dictionary of [submit_order] then carries [price: None]) is never
    recorded, whatever the rebalancing block did before: [execute_trade]
    stores no ExecutedTrade, returns no trade and leaves the ledger as it
    was but for the status REJECTED. Whenever the main order went out,
    [Decimal(str(None))] raises and the except clause runs: if its UPDATE
    goes through the proposal is REJECTED and None is returned, and if it
    raises, that exception reaches the caller and the ledger is
    unchanged. When the decision names no position to sell, the main
    order is the one order sent. *)
Theorem unfilled_order_is_not_recorded (env : ExecEnv)
  (proposal : TradeProposal) (decision : dict) (order : Order) (w : World) :
  get_is decision "decision" "APPROVE" = true ->
  ex_broker env (main_request proposal decision) = Ok order ->
  od_price order = None ->
  let outcome := execute_trade env proposal decision w in
  Ledger.trades (ledger (snd outcome)) = Ledger.trades (ledger w)
  /\ (forall x, fst outcome <> Ok (Some x))
  /\ (ledger (snd outcome) = ledger w
      \/ ledger (snd outcome)
         = Ledger.set_status (tp_id proposal) REJECTED (ledger w))
  /\ (forall sent,
        orders (snd outcome) = orders w ++ sent ->
        In (main_request proposal decision) sent ->
        (ex_ledger env AtHandler = None ->
         fst outcome = Ok None
         /\ ledger (snd outcome)
            = Ledger.set_status (tp_id proposal) REJECTED (ledger w))
        /\ (forall e, ex_ledger env AtHandler = Some e ->
                      fst outcome = Raise e /\ ledger (snd outcome) = ledger w))
  /\ (dict_get decision "position_to_sell" = None ->
      orders (snd outcome) = orders w ++ [main_request proposal decision]).
Proof.
  intros Happrove Hack Hprice outcome. subst outcome.
  assert (Hhandler : forall w2,
             ledger w2 = ledger w ->
             let ended :=
               (update_proposal_status (ex_ledger env AtHandler)
                  (tp_id proposal) REJECTED ;;; ret (@None ExecutedTrade)) w2 in
             Ledger.trades (ledger (snd ended)) = Ledger.trades (ledger w)
             /\ (forall x, fst ended <> Ok (Some x))
             /\ (ledger (snd ended) = ledger w
                 \/ ledger (snd ended)
                    = Ledger.set_status (tp_id proposal) REJECTED (ledger w))
             /\ (ex_ledger env AtHandler = None ->
                 fst ended = Ok None
                 /\ ledger (snd ended)
                    = Ledger.set_status (tp_id proposal) REJECTED (ledger w))
             /\ (forall e, ex_ledger env AtHandler = Some e ->
                           fst ended = Raise e /\ ledger (snd ended) = ledger w)).
  { intros w2 Hsame.
    unfold bind, update_proposal_status, statement, ret.
    destruct (ex_ledger env AtHandler) as [e|]; simpl; rewrite Hsame.
    - split; [reflexivity|]. split; [discriminate|]. split; [now left|].
      split; [discriminate|]. intros e' He'. inversion He'. now split.
    - split; [reflexivity|]. split; [discriminate|]. split; [now right|].
      split; [now split|]. discriminate. }
  split; [|split; [|split; [|split]]].
  1-4: (rewrite (@execute_trade_approved _ env proposal decision w Happrove);
         pose proof (rebalance_block_ledger env proposal decision
                       (with_clock (fun t => t + Z.of_N (ex_latency env)) w))
           as Hblock;
         destruct (rebalance_block env proposal decision
                     (with_clock (fun t => t + Z.of_N (ex_latency env)) w))
           as [[[|]|e'] w2]; cbn [fst snd] in Hblock;
         [rewrite (@main_trade_unfilled env proposal decision order w2 Hack Hprice);
          destruct (Hhandler
                      (with_orders
                         (fun sent => sent ++ [main_request proposal decision]) w2)
                      Hblock) as [Ht [Hx [Hl [Hok Hfail]]]]
         | destruct Hblock as [Hledger Horders]
         | destruct (Hhandler w2 Hblock) as [Ht [Hx [Hl [Hok Hfail]]]]]).
  - exact Ht.
  - cbn [fst snd]. rewrite Hledger. reflexivity.
  - exact Ht.
  - exact Hx.
  - cbn [fst snd]. discriminate.
  - exact Hx.
  - exact Hl.
  - cbn [fst snd]. right. exact Hledger.
  - exact Hl.
  - intros sent _ _. split; [exact Hok|exact Hfail].
  - cbn [fst snd]. intros sent Hsent Hin. exfalso.
    rewrite Horders in Hsent. simpl in Hsent.
    rewrite <- (app_nil_r (orders w)) in Hsent at 1.
    apply app_inv_head in Hsent. subst sent. contradiction.
  - intros sent _ _. split; [exact Hok|exact Hfail].
  - intros Hnone.
    rewrite execute_trade_main_order;
      [|exact Happrove|intros w1; now apply rebalance_block_without_target].
    unfold try_except. rewrite (main_trade_unfilled _ _ _ _ Hack Hprice).
    match goal with
    | |- context [(update_proposal_status _ _ _ ;;; ret None) ?w1] =>
        destruct (handler_outcome env proposal w1) as [Horders _]
    end.
    exact Horders.
Qed.

(** The main order of a HOLD proposal: the request goes out, and the
    bookkeeping raises before anything is stored. *)
Lemma main_trade_hold (env : ExecEnv) (proposal : TradeProposal)
  (decision : dict) (w : World) :
  tp_action proposal = HOLD ->
  exists e,
    main_trade env proposal decision w
    = (Raise e,
       with_orders (fun sent => sent ++ [main_request proposal decision]) w).
Proof.
  intros Hhold.
  unfold main_trade. unfold bind at 1. unfold submit_order at 1.
  destruct (ex_broker env (main_request proposal decision)) as [order|e];
    [|eexists; reflexivity].
  unfold bind at 1. unfold lift at 1.
  destruct (execution_price_of proposal order) as [price|e];
    [|eexists; reflexivity].
  unfold bind at 1. unfold lift at 1.
  unfold make_executed_trade. rewrite Hhold. eexists. reflexivity.
Qed.

(** X4. An approved HOLD proposal still reaches the broker client:
    [execute_trade] calls [submit_order] with the side HOLD, and only the
    constructor of ExecutedTrade, whose action must be BUY or SELL,
    stops the bookkeeping afterwards. No trade is stored, whatever the
    broker answers. *)
Theorem approved_hold_reaches_the_broker (env : ExecEnv)
  (proposal : TradeProposal) (decision : dict) (w : World) :
  get_is decision "decision" "APPROVE" = true ->
  tp_action proposal = HOLD ->
  let outcome := execute_trade env proposal decision w in
  orders (snd outcome) = orders w ++ [main_request proposal decision]
  /\ or_side (main_request proposal decision) = "HOLD"
  /\ Ledger.trades (ledger (snd outcome)) = Ledger.trades (ledger w)
  /\ (forall x, fst outcome <> Ok (Some x)).
Proof.
  intros Happrove Hhold outcome. subst outcome.
  rewrite execute_trade_main_order;
    [|exact Happrove
     |intros w1; apply rebalance_block_only_for_buy; rewrite Hhold; discriminate].
  assert (Hside : or_side (main_request proposal decision) = "HOLD")
    by (unfold main_request; simpl; rewrite Hhold; reflexivity).
  unfold try_except.
  destruct (@main_trade_hold env proposal decision
              (snd (sleep (ex_latency env) w)) Hhold)
    as [e Hmain].
  rewrite Hmain.
  match goal with
  | |- context [(update_proposal_status _ _ _ ;;; ret None) ?w1] =>
      destruct (handler_outcome env proposal w1) as [Horders [Htrades [Hnot _]]]
  end.
  split; [exact Horders|split; [exact Hside|split; [exact Htrades|exact Hnot]]].
Qed.

(** Case analysis on the answers of the collaborators, innermost first. *)
Ltac on_answers :=
  repeat match goal with
         | |- context [match ?x with _ => _ end] =>
             lazymatch x with
             | context [match _ with _ => _ end] => fail
             | _ => destruct x eqn:?; simpl
             end
         end.

(** The main order is the first thing [main_trade] does: whatever
    follows, exactly one request has gone out. *)
Lemma main_trade_orders (env : ExecEnv) (proposal : TradeProposal)
  (decision : dict) (w : World) :
  orders (snd (main_trade env proposal decision w))
  = orders w ++ [main_request proposal decision].
Proof.
  cbv beta delta [main_trade bind lift ret update_proposal_status statement
                    submit_order save_executed_trade].
  on_answers; reflexivity.
Qed.

(** [_evaluate_position_to_sell] is inconclusive when the confirmation
    call fails or declines, as long as the ledger reads before it go
    through. *)
Lemma evaluation_inconclusive (env : ExecEnv) (proposal : TradeProposal)
  (positions : list Position) (cash : Q) :
  (forall symbol, exists found, ex_position_news env symbol = Ok found) ->
  (forall context,
      confirmation env context = Ok None
      \/ exists e, confirmation env context = Raise e) ->
  _evaluate_position_to_sell env proposal positions cash = Ok None.
Proof.
  intros Hnews Hconfirm. unfold _evaluate_position_to_sell.
  destruct positions as [|pos rest]; [reflexivity|].
  assert (Hgather : forall owned, exists data,
             gather_position_data env (tp_ticker proposal) owned = Ok data).
  { intros owned. induction owned as [|h owned IH]; simpl.
    - eexists; reflexivity.
    - destruct (String.eqb (ps_symbol h) (tp_ticker proposal)); [exact IH|].
      destruct (Hnews (ps_symbol h)) as [found Hfound]. rewrite Hfound.
      destruct IH as [data Hdata]. rewrite Hdata. eexists; reflexivity. }
  destruct (Hgather (pos :: rest)) as [data Hdata]. rewrite Hdata.
  destruct data as [|d data]; [reflexivity|].
  match goal with
  | |- context [confirmation env ?c] =>
      destruct (Hconfirm c) as [Hnone|[e He]]
  end.
  - rewrite Hnone. reflexivity.
  - rewrite He. reflexivity.
Qed.

(** X5. An inconclusive second opinion does not stop the rebalancing
    sell. For an approved BUY short of buying power whose decision names
    a held position, when [_evaluate_position_to_sell] comes back with
    None (the confirmation call failed, or it declined to rebalance) the
    sell order for the named position is submitted all the same, before
    anything else is sent. *)
Theorem inconclusive_confirmation_still_sells (env : ExecEnv)
  (proposal : TradeProposal) (decision : dict) (target : string)
  (amount : json) (quantity : Z) (account : Account) (cash : Q)
  (positions : list Position) (w : World) :
  get_is decision "decision" "APPROVE" = true ->
  dict_get decision "position_to_sell" = Some (JStr target) ->
  target <> "" ->
  dict_get decision "sell_quantity" = Some amount ->
  truthy amount = true ->
  py_int amount = Ok quantity ->
  tp_action proposal = BUY ->
  ex_account env = Ok account ->
  required_cash_now env proposal = Ok cash ->
  Qgt_bool cash (ac_buying_power account) = true ->
  ex_positions env = Ok positions ->
  position_exists positions (JStr target) = true ->
  _evaluate_position_to_sell env proposal positions cash = Ok None ->
  exists rest,
    orders (snd (execute_trade env proposal decision w))
    = orders w
      ++ {| or_symbol := JStr target; or_qty := JNum (inject_Z quantity);
            or_side := "SELL" |} :: rest.
Proof.
  intros Happrove Htarget Hnonempty Hamount Htruthy Hqty Hbuy Haccount Hcash
         Hshort Hpositions Hexists Hsecond.
  set (sell := {| or_symbol := JStr target; or_qty := JNum (inject_Z quantity);
                  or_side := "SELL" |}).
  assert (Hname : truthy (JStr target) = true).
  { simpl. destruct (String.eqb target "") eqn:E; [|reflexivity].
    apply String.eqb_eq in E. contradiction. }
  assert (Hblock : forall w1,
             rebalance_block env proposal decision w1
             = ((let* sell_order := submit_order (ex_broker env) sell in
                 sleep 2000) ;;; ret Proceed) w1).
  { intros w1. unfold rebalance_block.
    rewrite Htarget, Hamount, Htruthy, Hbuy, Hname. simpl.
    unfold bind at 1. unfold lift at 1. rewrite Haccount.
    unfold bind at 1. unfold lift at 1. rewrite Hcash.
    rewrite Hshort.
    unfold bind at 1. unfold lift at 1. rewrite Hpositions.
    rewrite Hexists. simpl.
    unfold bind at 1. unfold lift at 1. rewrite Hsecond.
    unfold sell_to_rebalance, bind, lift. rewrite Hqty. reflexivity. }
  unfold execute_trade. unfold bind at 1. simpl. rewrite Happrove. simpl.
  unfold try_except. unfold bind at 1. rewrite Hblock.
  unfold bind at 1 2. unfold submit_order at 1.
  destruct (ex_broker env sell) as [sell_order|e].
  - unfold sleep at 1. unfold ret at 1.
    match goal with
    | |- context [main_trade env proposal decision ?w1] =>
        pose proof (main_trade_orders env proposal decision w1) as Hmain;
        destruct (main_trade env proposal decision w1) as [[x|e] w2]
    end.
    + exists [main_request proposal decision]. simpl in *. rewrite Hmain.
      rewrite <- app_assoc. reflexivity.
    + match goal with
      | |- context [(update_proposal_status _ _ _ ;;; ret None) ?w1] =>
          destruct (handler_outcome env proposal w1) as [Horders _]
      end.
      exists [main_request proposal decision]. simpl in *.
      rewrite Horders, Hmain. rewrite <- app_assoc. reflexivity.
  - match goal with
    | |- context [(update_proposal_status _ _ _ ;;; ret None) ?w1] =>
        destruct (handler_outcome env proposal w1) as [Horders _]
    end.
    exists []. rewrite Horders. reflexivity.
Qed.

(** The orders of the rebalancing sell: the one request, once the
    quantity has been read. *)
Lemma sell_to_rebalance_orders (env : ExecEnv) (proposal : TradeProposal)
  (decision : dict) (target amount : json) (w w' : World) (r : result unit) :
  tp_action proposal = BUY ->
  dict_get decision "position_to_sell" = Some target ->
  dict_get decision "sell_quantity" = Some amount ->
  sell_to_rebalance env target amount w = (r, w') ->
  orders w' = orders w
  \/ exists sell,
       rebalancing_sell proposal decision sell /\ orders w' = orders w ++ [sell].
Proof.
  intros Haction Htarget Hamount.
  unfold sell_to_rebalance. unfold bind at 1. unfold lift at 1.
  destruct (py_int amount) as [quantity|e] eqn:Hqty.
  - intros Hrun. right.
    exists {| or_symbol := target; or_qty := JNum (inject_Z quantity);
              or_side := "SELL" |}.
    split.
    + split; [exact Haction|split; [reflexivity|split; [exact Htarget|]]].
      exists amount, quantity.
      split; [exact Hamount|split; [exact Hqty|reflexivity]].
    + revert Hrun. unfold bind, submit_order, sleep.
      match goal with
      | |- context [ex_broker env ?req] => destruct (ex_broker env req)
      end; intros Hrun; inversion Hrun; reflexivity.
  - intros Hrun. inversion Hrun. left. reflexivity.
Qed.

(** The orders of the rebalancing block: none, or the one sell. *)
Lemma rebalance_block_orders (env : ExecEnv) (proposal : TradeProposal)
  (decision : dict) (w : World) :
  orders (snd (rebalance_block env proposal decision w)) = orders w
  \/ exists sell,
       rebalancing_sell proposal decision sell
       /\ orders (snd (rebalance_block env proposal decision w))
          = orders w ++ [sell].
Proof.
  destruct (rebalance_block env proposal decision w) as [r w'] eqn:Hrun.
  simpl. revert Hrun.
  assert (Hsame : forall (r0 : result Rebalance) (w0 : World),
             orders w0 = orders w ->
             (r0, w0) = (r, w') ->
             orders w' = orders w
             \/ exists sell,
                  rebalancing_sell proposal decision sell
                  /\ orders w' = orders w ++ [sell]).
  { intros r0 w0 Hw0 Heq. inversion Heq; subst. left. exact Hw0. }
  unfold rebalance_block.
  destruct (dict_get decision "position_to_sell") as [target|] eqn:Htarget;
    [|now apply Hsame].
  destruct (dict_get decision "sell_quantity") as [amount|] eqn:Hamount;
    [|now apply Hsame].
  destruct (truthy target && truthy amount && action_eqb (tp_action proposal) BUY)
    eqn:Hcond; [|now apply Hsame].
  apply andb_true_iff in Hcond. destruct Hcond as [_ Hbuy].
  assert (Haction : tp_action proposal = BUY)
    by (destruct (tp_action proposal); [reflexivity|discriminate|discriminate]).
  assert (Hsell : (sell_to_rebalance env target amount ;;; ret Proceed) w = (r, w') ->
                  orders w' = orders w
                  \/ exists sell,
                       rebalancing_sell proposal decision sell
                       /\ orders w' = orders w ++ [sell]).
  { unfold bind at 1.
    destruct (sell_to_rebalance env target amount w) as [[[]|e] w2] eqn:Hsold;
      intros Heq; inversion Heq; subst;
      eapply sell_to_rebalance_orders; eassumption. }
  unfold bind at 1. unfold lift at 1.
  destruct (ex_account env) as [account|e]; [|now apply Hsame].
  unfold bind at 1. unfold lift at 1.
  destruct (required_cash_now env proposal) as [cash|e]; [|now apply Hsame].
  destruct (Qgt_bool cash (ac_buying_power account)); [|now apply Hsame].
  unfold bind at 1. unfold lift at 1.
  destruct (ex_positions env) as [positions|e]; [|now apply Hsame].
  destruct (negb (position_exists positions target)).
  - unfold bind, update_proposal_status, statement, ret.
    destruct (ex_ledger env AtPositionGone); now apply Hsame.
  - unfold bind at 1. unfold lift at 1.
    destruct (_evaluate_position_to_sell env proposal positions cash)
      as [[second|]|e]; [| |now apply Hsame].
    + destruct (names_target second target); [exact Hsell|].
      unfold bind, update_proposal_status, statement, ret.
      destruct (ex_ledger env AtChanged); now apply Hsame.
    + exact Hsell.
Qed.

(** The calls of the broker client one [execute_trade] makes: the main
    order of the proposal, and before it at most one sell of the
    position the decision names for rebalancing, in the quantity the
    decision gives, and for a BUY proposal only. *)
Lemma execute_trade_calls (env : ExecEnv) (proposal : TradeProposal)
  (decision : dict) (w : World) :
  exists sent,
    orders (snd (execute_trade env proposal decision w)) = orders w ++ sent
    /\ (sent = []
        \/ sent = [main_request proposal decision]
        \/ exists sell,
             rebalancing_sell proposal decision sell
             /\ (sent = [sell]
                 \/ sent = [sell; main_request proposal decision])).
Proof.
  unfold execute_trade. unfold bind at 1. unfold sleep at 1.
  set (w1 := with_clock (fun t => t + Z.of_N (ex_latency env)) w).
  assert (Hw1 : orders w1 = orders w) by reflexivity. clearbody w1.
  destruct (negb (get_is decision "decision" "APPROVE")).
  - exists []. rewrite app_nil_r. split; [|left; reflexivity].
    unfold bind, update_proposal_status, statement, ret.
    destruct (ex_ledger env AtNotApproved); exact Hw1.
  - unfold try_except. unfold bind at 1.
    pose proof (rebalance_block_orders env proposal decision w1) as Hblock.
    destruct (rebalance_block env proposal decision w1) as [[[|]|e] w2];
      simpl in Hblock.
    + (* the main order follows *)
      pose proof (main_trade_orders env proposal decision w2) as Hmain.
      assert (Hend : orders
                       (snd (let (r, w') := main_trade env proposal decision w2 in
                             match r with
                             | Ok a => (Ok a, w')
                             | Raise e =>
                                 (update_proposal_status (ex_ledger env AtHandler)
                                    (tp_id proposal) REJECTED ;;; ret None) w'
                             end))
                     = orders w2 ++ [main_request proposal decision]).
      { destruct (main_trade env proposal decision w2) as [[x|e] w3];
          simpl in *; [exact Hmain|].
        destruct (handler_outcome env proposal w3) as [Horders _].
        rewrite Horders. exact Hmain. }
      rewrite Hend.
      destruct Hblock as [Hsame|[sell [Hsell Hsent]]].
      * exists [main_request proposal decision].
        rewrite Hsame, Hw1. split; [reflexivity|right; left; reflexivity].
      * exists [sell; main_request proposal decision].
        rewrite Hsent, Hw1, <- app_assoc.
        split; [reflexivity|right; right].
        exists sell. split; [exact Hsell|right; reflexivity].
    + (* the block gave up *)
      simpl.
      destruct Hblock as [Hsame|[sell [Hsell Hsent]]].
      * exists []. rewrite app_nil_r, Hsame, Hw1.
        split; [reflexivity|left; reflexivity].
      * exists [sell]. rewrite Hsent, Hw1.
        split; [reflexivity|right; right].
        exists sell. split; [exact Hsell|left; reflexivity].
    + (* the block raised *)
      destruct (handler_outcome env proposal w2) as [Horders _].
      rewrite Horders.
      destruct Hblock as [Hsame|[sell [Hsell Hsent]]].
      * exists []. rewrite app_nil_r, Hsame, Hw1.
        split; [reflexivity|left; reflexivity].
      * exists [sell]. rewrite Hsent, Hw1.
        split; [reflexivity|right; right].
        exists sell. split; [exact Hsell|left; reflexivity].
Qed.

(** What a main order that returns has written: the trade row, stamped
    with the instant at which [main_trade] ends. *)
Lemma main_trade_success (env : ExecEnv) (proposal : TradeProposal)
  (decision : dict) (w w' : World) (x : ExecutedTrade) :
  main_trade env proposal decision w = (Ok (Some x), w') ->
  exists row,
    In row (Ledger.trades (ledger w'))
    /\ et_executed_at row = Some (clock w')
    /\ et_trade_proposal_id row = tp_id proposal
    /\ et_ticker row = tp_ticker proposal.
Proof.
  cbv beta delta [main_trade bind lift ret update_proposal_status statement
                    submit_order save_executed_trade].
  destruct (ex_broker env (main_request proposal decision)) as [order|e];
    simpl; [|discriminate].
  destruct (execution_price_of proposal order) as [price|e];
    simpl; [|discriminate].
  destruct (make_executed_trade proposal (order_quantity proposal decision)
              price order decision) as [trade|e] eqn:Hmake;
    simpl; [|discriminate].
  destruct (ex_ledger env AtSaveTrade); simpl; [discriminate|].
  destruct (ex_ledger env AtExecuted); simpl; [discriminate|].
  intros Hrun. inversion Hrun; subst. clear Hrun.
  eexists. split; [|split; [|split]].
  - simpl. apply in_or_app. right. left. reflexivity.
  - reflexivity.
  - simpl. revert Hmake. unfold make_executed_trade.
    destruct (tp_action proposal); try discriminate;
      destruct (validate_int _); try discriminate;
      destruct (validate_opt_str _); try discriminate;
      intros Hmake; inversion Hmake; reflexivity.
  - simpl. revert Hmake. unfold make_executed_trade.
    destruct (tp_action proposal); try discriminate;
      destruct (validate_int _); try discriminate;
      destruct (validate_opt_str _); try discriminate;
      intros Hmake; inversion Hmake; reflexivity.
Qed.

(** X7. A trade that [execute_trade] returns is in the ledger with the
    proposal's id and ticker, stamped with the current day; from then on
    [has_traded_today] answers True and [should_run_trading_cycle] never
    answers go in that world. *)
Theorem executed_trade_closes_the_day (env : ExecEnv) (proposal : TradeProposal)
  (decision : dict) (w w' : World) (x : ExecutedTrade) :
  execute_trade env proposal decision w = (Ok (Some x), w') ->
  (exists row,
      In row (Ledger.trades (ledger w'))
      /\ et_executed_at row = Some (clock w')
      /\ et_trade_proposal_id row = tp_id proposal
      /\ et_ticker row = tp_ticker proposal)
  /\ has_traded_today None w' = (Ok true, w')
  /\ forall cycle, fst (should_run_trading_cycle cycle w') <> Ok true.
Proof.
  intros Hrun.
  assert (Hmain : exists w2, main_trade env proposal decision w2 = (Ok (Some x), w')).
  { revert Hrun. unfold execute_trade. unfold bind at 1. unfold sleep at 1.
    destruct (negb (get_is decision "decision" "APPROVE")).
    - unfold bind, update_proposal_status, statement, ret.
      destruct (ex_ledger env AtNotApproved); discriminate.
    - unfold try_except. unfold bind at 1.
      destruct (rebalance_block env proposal decision _) as [[[|]|e] w2].
      + destruct (main_trade env proposal decision w2) as [[r|e] w3] eqn:Hmain.
        * intros Heq. inversion Heq; subst. exists w2. exact Hmain.
        * unfold bind, update_proposal_status, statement, ret.
          destruct (ex_ledger env AtHandler); discriminate.
      + discriminate.
      + unfold bind, update_proposal_status, statement, ret.
        destruct (ex_ledger env AtHandler); discriminate. }
  destruct Hmain as [w2 Hmain].
  destruct (@main_trade_success _ _ _ _ _ _ Hmain)
    as [row [Hin [Hat [Hid Hticker]]]].
  assert (Htoday : has_trade_today w').
  { exists row, (clock w'). split; [exact Hin|split; [exact Hat|reflexivity]]. }
  split; [exists row; repeat split; assumption|]. split.
  - unfold has_traded_today.
    rewrite (@traded_today _ _ _ _ Hin Hat eq_refl). reflexivity.
  - intros cycle.
    destruct (should_run_after_trade cycle Htoday) as [Hno|[e He]].
    + rewrite Hno. discriminate.
    + rewrite He. discriminate.
Qed.

End Facts.

(** A run of X2: the decision rejects; row 1 ends REJECTED and nothing
    is sent. *)
Lemma unapproved_execution_sends_nothing_witness :
  let outcome :=
    execute_trade (RT := Demo.runtime) Demo.smooth_execution
      (Demo.acme_proposal (inject_Z 85)) Demo.reject
      (Demo.world_with (Demo.acme_proposal (inject_Z 85))) in
  orders (snd outcome) = []
  /\ fst outcome = Ok None
  /\ Ledger.status_of (ledger (snd outcome)) (Some 1) = Some REJECTED.
Proof.
  intros outcome.
  destruct (@unapproved_execution_sends_nothing Demo.runtime
              Demo.smooth_execution (Demo.acme_proposal (inject_Z 85))
              Demo.reject (Demo.world_with (Demo.acme_proposal (inject_Z 85)))
              eq_refl) as [Horders [_ [Hnone [_ Hstatus]]]].
  split; [exact Horders|split; [exact Hnone|]].
  apply Hstatus. vm_compute. discriminate.
Defined.

(** A run of X3: the broker accepts the order and reports no price. *)
Lemma unfilled_order_is_not_recorded_witness :
  let outcome :=
    execute_trade (RT := Demo.runtime) Demo.unfilled_execution
      (Demo.acme_proposal (inject_Z 85)) Demo.approve
      (Demo.world_with (Demo.acme_proposal (inject_Z 85))) in
  orders (snd outcome)
  = [main_request (Demo.acme_proposal (inject_Z 85)) Demo.approve]
  /\ Ledger.trades (ledger (snd outcome)) = []
  /\ fst outcome = Ok None.
Proof.
  intros outcome.
  destruct (@unfilled_order_is_not_recorded Demo.runtime
              Demo.unfilled_execution (Demo.acme_proposal (inject_Z 85))
              Demo.approve {| od_id := "order-1"; od_price := None |}
              (Demo.world_with (Demo.acme_proposal (inject_Z 85)))
              eq_refl eq_refl eq_refl)
    as [Htrades [_ [_ [Hhandler Horders]]]].
  split; [exact (Horders eq_refl)|split; [exact Htrades|]].
  exact (proj1 (proj1 (Hhandler _ (Horders eq_refl) (or_introl eq_refl))
                  eq_refl)).
Defined.

(** A run of X4: an approved HOLD. *)
Lemma approved_hold_reaches_the_broker_witness :
  map or_side
    (orders
       (snd (execute_trade (RT := Demo.runtime) Demo.smooth_execution
               Demo.hold_proposal Demo.approve
               (Demo.world_with Demo.hold_proposal))))
  = ["HOLD"].
Proof.
  destruct (@approved_hold_reaches_the_broker Demo.runtime
              Demo.smooth_execution Demo.hold_proposal Demo.approve
              (Demo.world_with Demo.hold_proposal) eq_refl eq_refl)
    as [Horders [Hside _]].
  rewrite Horders. cbn [map Demo.world_with orders app]. rewrite Hside.
  reflexivity.
Defined.

(** A run of X5: the confirmation declines, OLD is sold all the same. *)
Lemma inconclusive_confirmation_still_sells_witness :
  exists rest,
    orders
      (snd (execute_trade (RT := Demo.runtime) Demo.declined_execution
              (Demo.acme_proposal (inject_Z 85)) Demo.approve_selling_old
              (Demo.world_with (Demo.acme_proposal (inject_Z 85)))))
    = {| or_symbol := JStr "OLD"; or_qty := JNum (inject_Z 5);
         or_side := "SELL" |} :: rest.
Proof.
  refine (@inconclusive_confirmation_still_sells Demo.runtime
            Demo.declined_execution (Demo.acme_proposal (inject_Z 85))
            Demo.approve_selling_old "OLD" (JNum (inject_Z 5)) 5
            Demo.poor_account (inject_Z 150 * inject_Z 10)%Q
            [Demo.holding "OLD"; Demo.holding "XYZ"]
            (Demo.world_with (Demo.acme_proposal (inject_Z 85)))
            eq_refl eq_refl _ eq_refl eq_refl eq_refl eq_refl eq_refl eq_refl
            eq_refl eq_refl eq_refl eq_refl).
  discriminate.
Defined.

(** A run of X7: the smooth execution of ACME closes the day. *)
Lemma executed_trade_closes_the_day_witness :
  let after :=
    snd (execute_trade (RT := Demo.runtime) Demo.smooth_execution
           (Demo.acme_proposal (inject_Z 85)) Demo.approve
           (Demo.world_with (Demo.acme_proposal (inject_Z 85)))) in
  has_traded_today None after = (Ok true, after).
Proof.
  intros after. subst after.
  destruct (execute_trade (RT := Demo.runtime) Demo.smooth_execution
              (Demo.acme_proposal (inject_Z 85)) Demo.approve
              (Demo.world_with (Demo.acme_proposal (inject_Z 85))))
    as [[[x|]|e] w'] eqn:Hrun;
    [|vm_compute in Hrun; discriminate|vm_compute in Hrun; discriminate].
  exact (proj1 (proj2 (@executed_trade_closes_the_day Demo.runtime _ _ _ _ _ _
                         Hrun))).
Defined.

End OrderFlow.

(** ** The routes through the graph *)

Module Routes.
Import Trader DebateAgents PortfolioManager TradingGraph TradingSystem RiskGate
  StageFacts Simulation.

Section Facts.
Context {RT : Runtime}.

(** A node never raises: its [except] clause turns every exception into
    the [error] field of the state. *)
Lemma guarded_returns (body : M TradingState) (state : TradingState) (w : World) :
  exists s, fst (guarded body state w) = Ok s.
Proof.
  unfold guarded, try_except.
  destruct (body w) as [[s|e] w1]; eexists; reflexivity.
Qed.

(** What leaves a super-step as an exception is the AttributeError of a
    routing function. *)
Lemma node_step_raises (env : TickerEnv) (n : Node) (state : TradingState)
  (w : World) (e : string) :
  fst (node_step env n state w) = Raise e ->
  e = "'NoneType' object has no attribute 'get'".
Proof.
  unfold node_step.
  destruct n; try (unfold bind at 1).
  - destruct (guarded_returns
                (if String.eqb (ts_ticker state) ""
                 then ret (set_error "No ticker provided" state)
                 else
                   let* result := analyze_ticker (te_screen env) (ts_ticker state) in
                   ret (set_analysis result state)) state w) as [s Hs].
    fold (_analyze_ticker env state) in Hs.
    destruct (_analyze_ticker env state w) as [[s0|e0] w1];
      simpl in Hs; [|discriminate].
    unfold bind, lift, ret, _should_debate.
    destruct (has_error s0); [discriminate|].
    destruct (ts_analysis_result s0); [discriminate|].
    simpl. intros Heq. inversion Heq. reflexivity.
  - unfold _conduct_debate.
    match goal with
    | |- context [guarded ?body state w] =>
        destruct (guarded_returns body state w) as [s Hs];
        destruct (guarded body state w) as [[s0|e0] w1];
        simpl in Hs; [discriminate|discriminate]
    end.
  - unfold _create_proposal_from_debate.
    match goal with
    | |- context [guarded ?body state w] =>
        destruct (guarded_returns body state w) as [s Hs];
        destruct (guarded body state w) as [[s0|e0] w1];
        simpl in Hs; [discriminate|discriminate]
    end.
  - unfold _review_proposal.
    match goal with
    | |- context [guarded ?body state w] =>
        destruct (guarded_returns body state w) as [s Hs];
        destruct (guarded body state w) as [[s0|e0] w1];
        simpl in Hs; [|discriminate]
    end.
    unfold bind, lift, ret, _should_execute.
    destruct (ts_portfolio_decision s0); [discriminate|].
    simpl. intros Heq. inversion Heq. reflexivity.
  - unfold _execute_trade.
    match goal with
    | |- context [guarded ?body state w] =>
        destruct (guarded_returns body state w) as [s Hs];
        destruct (guarded body state w) as [[s0|e0] w1];
        simpl in Hs; [discriminate|discriminate]
    end.
  - discriminate.
Qed.

Lemma invoke_from_raises (env : TickerEnv) (limit : nat) :
  forall (n : Node) (state : TradingState) (w : World) (e : string),
    (distance n <= limit)%nat ->
    fst (invoke_from limit env n state w) = Raise e ->
    e = "'NoneType' object has no attribute 'get'".
Proof.
  induction limit as [|limit IH]; intros n state w e Hlimit.
  - destruct n; simpl in Hlimit; try lia. discriminate.
  - destruct (Node_eq_END n) as [Hend|Hnode].
    + subst n. discriminate.
    + assert (Hinvoke :
                invoke_from (S limit) env n state w
                = (let* next := node_step env n state in
                   invoke_from limit env (fst next) (snd next)) w)
        by (destruct n; try contradiction; reflexivity).
      rewrite Hinvoke. unfold bind.
      destruct (node_step env n state w) as [[next|e0] w1] eqn:Hstep.
      * destruct (@node_step_progress _ _ _ _ _ _ _ Hnode Hstep) as [_ Hcloser].
        apply IH. lia.
      * simpl. intros Heq. inversion Heq; subst.
        apply (@node_step_raises env n state w).
        rewrite Hstep. reflexivity.
Qed.

(** X8. The graph has no cycle, so a run never meets the recursion
    limit; and since every node catches what its body raises, the only
    exception [run] can end with is the AttributeError of a routing
    function that finds None where it expects a dictionary. *)
Theorem run_raises_only_from_routing (env : TickerEnv) (ticker : string)
  (w : World) (e : string) :
  fst (run env ticker w) = Raise e ->
  e = "'NoneType' object has no attribute 'get'".
Proof.
  unfold run. apply invoke_from_raises.
  unfold recursion_limit. simpl. lia.
Qed.

(** Screening writes to the table of events only. *)
Lemma analyze_ticker_writes_events (env : ScreenEnv) (ticker : string) (w : World) :
  Ledger.debates (ledger (snd (analyze_ticker env ticker w)))
  = Ledger.debates (ledger w)
  /\ Ledger.proposals (ledger (snd (analyze_ticker env ticker w)))
     = Ledger.proposals (ledger w)
  /\ Ledger.trades (ledger (snd (analyze_ticker env ticker w)))
     = Ledger.trades (ledger w)
  /\ orders (snd (analyze_ticker env ticker w)) = orders w.
Proof.
  unfold analyze_ticker, try_except, analyze_body, bind, lift, ret,
    save_analysis_event.
  destruct (analysis_event env ticker) as [event|e]; simpl.
  - destruct (sc_save_event env); simpl; repeat split.
  - repeat split.
Qed.

(** The first super-step, for a ticker that is not empty. *)
Lemma first_step (env : TickerEnv) (ticker : string) (w : World) :
  ticker <> "" ->
  _analyze_ticker env (initial_state ticker) w
  = (Ok (set_analysis (match fst (analyze_ticker (te_screen env) ticker w) with
                       | Ok r => r
                       | Raise _ => degraded ticker ""
                       end)
           (initial_state ticker)),
     snd (analyze_ticker (te_screen env) ticker w)).
Proof.
  intros Hticker. unfold _analyze_ticker, guarded, try_except. simpl.
  destruct (String.eqb ticker "") eqn:E;
    [apply String.eqb_eq in E; contradiction|].
  unfold bind, ret.
  assert (Hreturns : exists r, fst (analyze_ticker (te_screen env) ticker w) = Ok r).
  { unfold analyze_ticker, try_except.
    destruct (analyze_body (te_screen env) ticker w) as [[r|e] w1];
      eexists; reflexivity. }
  destruct Hreturns as [r Hr].
  destruct (analyze_ticker (te_screen env) ticker w) as [[r0|e] w1];
    simpl in *; [reflexivity|discriminate].
Qed.

(** One super-step of [graph.invoke], and its end. *)
Lemma invoke_step (env : TickerEnv) (limit : nat) (n : Node)
  (state : TradingState) (w : World) :
  n <> END ->
  invoke_from (S limit) env n state w
  = match node_step env n state w with
    | (Ok next, w1) => invoke_from limit env (fst next) (snd next) w1
    | (Raise e, w1) => (Raise e, w1)
    end.
Proof. intros Hnode. destruct n; try contradiction; reflexivity. Qed.

Lemma invoke_end (env : TickerEnv) (limit : nat) (state : TradingState)
  (w : World) :
  invoke_from limit env END state w = (Ok state, w).
Proof. destruct limit; reflexivity. Qed.

(** The screening node and its routing function. *)
Lemma screening_step (env : TickerEnv) (ticker : string) (w w1 : World)
  (r : AnalysisResult) :
  ticker <> "" ->
  analyze_ticker (te_screen env) ticker w = (Ok r, w1) ->
  node_step env analyze_ticker_node (initial_state ticker) w
  = (Ok (if is_interesting r then conduct_debate_node else END,
         set_analysis r (initial_state ticker)), w1).
Proof.
  intros Hticker Hscreen. unfold node_step. unfold bind at 1.
  rewrite (first_step env w Hticker), Hscreen. reflexivity.
Qed.

(** X9. A ticker the screening does not find interesting (or could not
    screen, which counts as not interesting) costs one super-step: the
    run returns the state with the analysis result and nothing else, no
    debate, proposal or trade is written and no order is sent. *)
Theorem uninteresting_ticker_ends_the_run (env : TickerEnv) (ticker : string)
  (w w1 : World) (r : AnalysisResult) :
  ticker <> "" ->
  analyze_ticker (te_screen env) ticker w = (Ok r, w1) ->
  is_interesting r = false ->
  run env ticker w = (Ok (set_analysis r (initial_state ticker)), w1)
  /\ Ledger.debates (ledger w1) = Ledger.debates (ledger w)
  /\ Ledger.proposals (ledger w1) = Ledger.proposals (ledger w)
  /\ Ledger.trades (ledger w1) = Ledger.trades (ledger w)
  /\ orders w1 = orders w.
Proof.
  intros Hticker Hscreen Hdull. split.
  - unfold run, recursion_limit.
    rewrite invoke_step by discriminate.
    rewrite (@screening_step env _ _ _ _ Hticker Hscreen), Hdull.
    apply invoke_end.
  - pose proof (analyze_ticker_writes_events (te_screen env) ticker w) as Hwrites.
    rewrite Hscreen in Hwrites. exact Hwrites.
Qed.

(** A debate that raises has written nothing. *)
Lemma conduct_debate_raises_clean (env : DebateEnv) (ticker : string)
  (event_id : Z) (w w1 : World) (e : string) :
  conduct_debate env ticker event_id w = (Raise e, w1) ->
  w1 = w.
Proof.
  unfold conduct_debate, bind, lift, ret, get_recent_trades, save_debate.
  destruct (de_articles env); [|intros Heq; inversion Heq; reflexivity].
  destruct (de_snapshot env); [|intros Heq; inversion Heq; reflexivity].
  destruct (de_recent_trades env); [intros Heq; inversion Heq; reflexivity|].
  destruct (debate_of _ _ _ _ _ _); [|intros Heq; inversion Heq; reflexivity].
  destruct (de_save env); [intros Heq; inversion Heq; reflexivity|].
  discriminate.
Qed.

(** X10. When the debate fails, the graph does not stop at the debate
    node: the proposal node and the review node each find nothing to
    work on and only overwrite the error, and the routing function after
    the review then raises. [run] ends with that AttributeError instead
    of returning the state; nothing was written after the screening and
    no order was sent. [process_ticker] catches it. *)
Theorem failed_debate_raises_out_of_the_graph (env : TickerEnv)
  (ticker : string) (w w1 : World) (r : AnalysisResult) (event_id : Z)
  (e : string) :
  ticker <> "" ->
  analyze_ticker (te_screen env) ticker w = (Ok r, w1) ->
  is_interesting r = true ->
  an_event_id r = Some event_id ->
  event_id <> 0 ->
  fst (conduct_debate (te_debate env) ticker event_id w1) = Raise e ->
  run env ticker w = (Raise "'NoneType' object has no attribute 'get'", w1)
  /\ process_ticker env ticker w = (Ok tt, w1)
  /\ Ledger.debates (ledger w1) = Ledger.debates (ledger w)
  /\ Ledger.proposals (ledger w1) = Ledger.proposals (ledger w)
  /\ Ledger.trades (ledger w1) = Ledger.trades (ledger w)
  /\ orders w1 = orders w.
Proof.
  intros Hticker Hscreen Hinteresting Hevent Hnonzero Hfails.
  assert (Hdebate : conduct_debate (te_debate env) ticker event_id w1
                    = (Raise e, w1)).
  { destruct (conduct_debate (te_debate env) ticker event_id w1)
      as [outcome w2] eqn:Hrun.
    simpl in Hfails. subst outcome.
    now rewrite (conduct_debate_raises_clean _ _ _ _ Hrun). }
  assert (Hrun : run env ticker w
                 = (Raise "'NoneType' object has no attribute 'get'", w1)).
  { set (s1 := set_analysis r (initial_state ticker)).
    set (s2 := set_error e s1).
    set (s3 := set_error "No debate result available" s2).
    set (s4 := set_error "No proposal to review" s3).
    assert (Hdebate_step :
              node_step env conduct_debate_node s1 w1
              = (Ok (create_proposal_node, s2), w1)).
    { unfold node_step, _conduct_debate, guarded, try_except, usable_event_id.
      unfold bind at 1. subst s1.
      cbn [ts_analysis_result set_analysis ts_ticker initial_state].
      rewrite Hevent.
      destruct (event_id =? 0) eqn:E; [apply Z.eqb_eq in E; contradiction|].
      unfold bind at 1. rewrite Hdebate. reflexivity. }
    assert (Hproposal_step :
              node_step env create_proposal_node s2 w1
              = (Ok (review_proposal_node, s3), w1)).
    { unfold node_step, _create_proposal_from_debate, guarded, try_except,
        usable_event_id.
      unfold bind at 1. subst s2 s1.
      cbn [ts_analysis_result set_analysis set_error ts_debate_result
             initial_state].
      rewrite Hevent.
      destruct (event_id =? 0) eqn:E; [apply Z.eqb_eq in E; contradiction|].
      reflexivity. }
    assert (Hreview_step :
              node_step env review_proposal_node s3 w1
              = (Raise "'NoneType' object has no attribute 'get'", w1)).
    { unfold node_step, _review_proposal, guarded, try_except.
      unfold bind at 1. subst s3 s2 s1.
      cbn [ts_trade_proposal set_analysis set_error initial_state].
      reflexivity. }
    unfold run, recursion_limit.
    rewrite invoke_step by discriminate.
    rewrite (@screening_step env _ _ _ _ Hticker Hscreen), Hinteresting.
    cbn [fst snd]. fold s1.
    rewrite invoke_step by discriminate. rewrite Hdebate_step. cbn [fst snd].
    rewrite invoke_step by discriminate. rewrite Hproposal_step. cbn [fst snd].
    rewrite invoke_step by discriminate. rewrite Hreview_step.
    reflexivity. }
  split; [exact Hrun|]. split.
  - unfold process_ticker, try_except, bind. rewrite Hrun. reflexivity.
  - pose proof (analyze_ticker_writes_events (te_screen env) ticker w) as Hwrites.
    rewrite Hscreen in Hwrites. exact Hwrites.
Qed.

(** X11. A review that does not end in APPROVE ends the run there: the
    graph goes from the review node to END, [execute_trade] is not
    called, and so the proposal keeps the status it had (it is not set
    to REJECTED), the ledger is untouched and no order is sent. *)
Theorem rejected_review_ends_the_run (env : TickerEnv) (state : TradingState)
  (proposal : TradeProposal) (decision : dict) (w w1 : World) (limit : nat) :
  ts_trade_proposal state = Some proposal ->
  review_proposal (te_review env) proposal w = (Ok decision, w1) ->
  get_is decision "decision" "APPROVE" = false ->
  invoke_from (S limit) env review_proposal_node state w
  = (Ok (set_decision decision state), w1)
  /\ ledger w1 = ledger w
  /\ orders w1 = orders w.
Proof.
  intros Hproposal Hreview Hreject. split.
  - rewrite invoke_step by discriminate.
    assert (Hstep : node_step env review_proposal_node state w
                    = (Ok (END, set_decision decision state), w1)).
    { unfold node_step, _review_proposal, guarded, try_except.
      unfold bind at 1. rewrite Hproposal.
      unfold bind at 1. rewrite Hreview. unfold ret at 1.
      unfold bind at 1. unfold lift at 1. unfold _should_execute.
      cbn [ts_portfolio_decision set_decision]. rewrite Hreject.
      reflexivity. }
    rewrite Hstep. apply invoke_end.
  - pose proof (review_proposal_same_ledger (te_review env) proposal w) as Hledger.
    pose proof (review_proposal_same_orders (te_review env) proposal w) as Horders.
    unfold same_ledger in Hledger. unfold same_orders in Horders.
    rewrite Hreview in Hledger, Horders. split; assumption.
Qed.

End Facts.

(** A run of X8: the debate of ACME loses its consensus call. *)
Lemma run_raises_only_from_routing_witness :
  fst (run (RT := Demo.runtime) Demo.undebated_ticker "ACME" Demo.quiet_world)
  = Raise "'NoneType' object has no attribute 'get'".
Proof.
  destruct (fst (run (RT := Demo.runtime) Demo.undebated_ticker "ACME"
                   Demo.quiet_world)) as [s|e] eqn:Hrun.
  - vm_compute in Hrun. discriminate.
  - f_equal.
    exact (@run_raises_only_from_routing Demo.runtime Demo.undebated_ticker
             "ACME" Demo.quiet_world e Hrun).
Defined.

(** A run of X9: routine news about ACME. *)
Lemma uninteresting_ticker_ends_the_run_witness :
  let outcome :=
    run (RT := Demo.runtime) Demo.dull_ticker "ACME" Demo.quiet_world in
  (exists s, fst outcome = Ok s /\ ts_trade_proposal s = None)
  /\ Ledger.proposals (ledger (snd outcome)) = []
  /\ orders (snd outcome) = [].
Proof.
  intros outcome. subst outcome.
  destruct (analyze_ticker (Demo.screening_dull) "ACME" Demo.quiet_world)
    as [[r|e] w1] eqn:Hscreen; [|vm_compute in Hscreen; discriminate].
  assert (Hdull : is_interesting r = false).
  { vm_compute in Hscreen. inversion Hscreen. reflexivity. }
  assert (Hticker : "ACME" <> "") by discriminate.
  destruct (@uninteresting_ticker_ends_the_run Demo.runtime Demo.dull_ticker
              "ACME" Demo.quiet_world w1 r Hticker Hscreen Hdull)
    as [Hrun [_ [Hproposals [_ Horders]]]].
  rewrite Hrun. cbn [fst snd].
  split; [eexists; split; reflexivity|].
  split; [exact Hproposals|exact Horders].
Defined.

(** A run of X10: [process_ticker] swallows what the graph raises. *)
Lemma failed_debate_raises_out_of_the_graph_witness :
  let outcome :=
    process_ticker (RT := Demo.runtime) Demo.undebated_ticker "ACME"
      Demo.quiet_world in
  fst outcome = Ok tt
  /\ Ledger.proposals (ledger (snd outcome)) = []
  /\ orders (snd outcome) = [].
Proof.
  intros outcome. subst outcome.
  destruct (analyze_ticker (Demo.screening_interesting) "ACME" Demo.quiet_world)
    as [[r|e] w1] eqn:Hscreen; [|vm_compute in Hscreen; discriminate].
  assert (Hvalue : r = {| an_event_id := Some 1;
                          an_analysis :=
                            [("is_interesting", JBool true);
                             ("reasoning", JStr "earnings surprise");
                             ("confidence", JNum (inject_Z 80))];
                          an_ticker := "ACME" |}).
  { vm_compute in Hscreen. inversion Hscreen. reflexivity. }
  assert (Hticker : "ACME" <> "") by discriminate.
  assert (Hid : 1 <> 0) by discriminate.
  assert (Hfails : fst (conduct_debate (te_debate Demo.undebated_ticker) "ACME" 1 w1)
                   = Raise "Request timed out.").
  { assert (Hw1 : w1 = snd (analyze_ticker Demo.screening_interesting "ACME"
                              Demo.quiet_world))
      by (rewrite Hscreen; reflexivity).
    rewrite Hw1. vm_compute. reflexivity. }
  assert (Hinteresting : is_interesting r = true)
    by (rewrite Hvalue; reflexivity).
  assert (Hevent : an_event_id r = Some 1) by (rewrite Hvalue; reflexivity).
  destruct (@failed_debate_raises_out_of_the_graph Demo.runtime
              Demo.undebated_ticker "ACME" Demo.quiet_world w1 r 1
              "Request timed out." Hticker Hscreen Hinteresting Hevent Hid Hfails)
    as [_ [Hprocess [_ [Hproposals [_ Horders]]]]].
  rewrite Hprocess. cbn [fst snd].
  split; [reflexivity|split; [exact Hproposals|exact Horders]].
Defined.

(** A run of X11: the ACME proposal with confidence 50 is rejected at
    the gate and stays PENDING. *)
Lemma rejected_review_ends_the_run_witness :
  let outcome :=
    invoke_from (RT := Demo.runtime) 2 Demo.smooth_ticker review_proposal_node
      (Demo.proposed_state (inject_Z 50))
      (Demo.world_with (Demo.acme_proposal (inject_Z 50))) in
  Ledger.status_of (ledger (snd outcome)) (Some 1) = Some PENDING
  /\ orders (snd outcome) = [].
Proof.
  intros outcome. subst outcome.
  destruct (review_proposal (RT := Demo.runtime) (te_review Demo.smooth_ticker)
              (Demo.acme_proposal (inject_Z 50))
              (Demo.world_with (Demo.acme_proposal (inject_Z 50))))
    as [[decision|e] w1] eqn:Hreview; [|vm_compute in Hreview; discriminate].
  assert (Hreject : get_is decision "decision" "APPROVE" = false).
  { vm_compute in Hreview. inversion Hreview. reflexivity. }
  destruct (@rejected_review_ends_the_run Demo.runtime Demo.smooth_ticker
              (Demo.proposed_state (inject_Z 50))
              (Demo.acme_proposal (inject_Z 50)) decision
              (Demo.world_with (Demo.acme_proposal (inject_Z 50))) w1 1
              eq_refl Hreview Hreject) as [Hrun [Hledger Horders]].
  rewrite Hrun. cbn [fst snd]. rewrite Hledger, Horders.
  split; reflexivity.
Defined.

End Routes.

(** ** The pace of the engine and of the lock *)

Module Pace.
Import Trader DebateAgents PortfolioManager TradingGraph TradingSystem Locks
  StageFacts Simulation.

Section Facts.
Context {RT : Runtime}.

(** The [for] loop of [run_cycle] over two stretches of tickers is the
    loop over the first followed by the loop over the second. *)
Lemma process_all_app (cycle : CycleEnv) (before after : list string) :
  forall w : World,
    process_all cycle (before ++ after) w
    = process_all cycle after (snd (process_all cycle before w)).
Proof.
  induction before as [|ticker before IH]; intros w.
  - reflexivity.
  - cbn [app process_all]. unfold bind, sleep.
    destruct (process_ticker (cy_ticker cycle ticker) ticker w)
      as [[[]|e] w1] eqn:Hrun.
    + cbv beta iota. apply IH.
    + exfalso. exact (process_ticker_returns _ _ _ Hrun).
Qed.

Lemma process_all_pace (cycle : CycleEnv) (tickers : list string) :
  forall w : World,
    clock w + 5000 * Z.of_nat (List.length tickers)
    <= clock (snd (process_all cycle tickers w)).
Proof.
  induction tickers as [|ticker tickers IH]; intros w.
  - simpl. lia.
  - cbn [process_all]. unfold bind at 1.
    pose proof (@process_ticker_stable _ later _ (cy_ticker cycle ticker) ticker w)
      as Hlater.
    destruct (process_ticker (cy_ticker cycle ticker) ticker w)
      as [[[]|e] w1] eqn:Hrun.
    + unfold bind at 1. unfold sleep at 1.
      specialize (IH (with_clock (fun t => t + Z.of_N 5000) w1)).
      unfold later in Hlater. cbn [snd] in Hlater. cbn [clock with_clock] in IH.
      cbn [List.length]. rewrite Nat2Z.inj_succ.
      change (Z.of_N 5000) with 5000 in *. lia.
    + exfalso. exact (process_ticker_returns _ _ _ Hrun).
Qed.

(** X12. [run_cycle] never raises and works through the whole list:
    what happens while one ticker is processed, an exception included,
    does not keep the later tickers from being processed, and after
    every ticker the engine pauses for five seconds. *)
Theorem run_cycle_visits_every_ticker (env : EngineEnv) (cycle : CycleEnv)
  (w : World) :
  fst (run_cycle env cycle w) = Ok tt
  /\ clock w + 5000 * Z.of_nat (List.length (en_stocks env))
     <= clock (snd (run_cycle env cycle w))
  /\ forall before after,
       en_stocks env = before ++ after ->
       snd (run_cycle env cycle w)
       = snd (process_all cycle after (snd (process_all cycle before w))).
Proof.
  unfold run_cycle, update_stock_data. unfold bind, ret.
  split; [|split].
  - destruct (process_all cycle (en_stocks env) w) as [[[]|e] w1] eqn:Hrun.
    + reflexivity.
    + exfalso. exact (process_all_returns _ _ _ Hrun).
  - apply process_all_pace.
  - intros before after Hsplit. rewrite Hsplit, process_all_app. reflexivity.
Qed.

(** X13. A pass of the main loop never raises and always ends in a
    sleep. When the check of the pass says no, the pass is the check
    followed by a sleep of exactly the configured interval; when it says
    go, the pass is the check, the cycle (which never raises) and then a
    sleep of exactly the interval; when the check raises, and only then,
    the pass sleeps sixty seconds instead. *)
Theorem loop_pass_always_sleeps (env : EngineEnv) (k : nat) (w : World) :
  let checked := should_run_trading_cycle (en_cycle env k) w in
  let interval := Z.of_N (en_interval_minutes env * 60000) in
  fst (loop_pass env k w) = Ok tt
  /\ match fst checked with
     | Raise e =>
         snd (loop_pass env k w)
         = with_clock (fun t => t + 60000) (snd checked)
     | Ok false =>
         snd (loop_pass env k w)
         = with_clock (fun t => t + interval) (snd checked)
     | Ok true =>
         fst (run_cycle env (en_cycle env k) (snd checked)) = Ok tt
         /\ snd (loop_pass env k w)
            = with_clock (fun t => t + interval)
                (snd (run_cycle env (en_cycle env k) (snd checked)))
     end
  /\ (forall go, fst checked = Ok go ->
                 clock w + interval <= clock (snd (loop_pass env k w)))
  /\ clock w + Z.min 60000 interval <= clock (snd (loop_pass env k w)).
Proof.
  intros checked interval. subst checked interval.
  assert (Hok : fst (loop_pass env k w) = Ok tt).
  { destruct (loop_pass env k w) as [[[]|e] w1] eqn:Hpass.
    - reflexivity.
    - exfalso. exact (loop_pass_returns _ _ _ Hpass). }
  assert (Hshape :
    match fst (should_run_trading_cycle (en_cycle env k) w) with
    | Raise e =>
        snd (loop_pass env k w)
        = with_clock (fun t => t + 60000)
            (snd (should_run_trading_cycle (en_cycle env k) w))
    | Ok false =>
        snd (loop_pass env k w)
        = with_clock (fun t => t + Z.of_N (en_interval_minutes env * 60000))
            (snd (should_run_trading_cycle (en_cycle env k) w))
    | Ok true =>
        fst (run_cycle env (en_cycle env k)
               (snd (should_run_trading_cycle (en_cycle env k) w))) = Ok tt
        /\ snd (loop_pass env k w)
           = with_clock (fun t => t + Z.of_N (en_interval_minutes env * 60000))
               (snd (run_cycle env (en_cycle env k)
                       (snd (should_run_trading_cycle (en_cycle env k) w))))
    end).
  { assert (Hpass :
      loop_pass env k w
      = match should_run_trading_cycle (en_cycle env k) w with
        | (Ok true, w1) =>
            match run_cycle env (en_cycle env k) w1 with
            | (Ok _, w2) =>
                (Ok tt,
                 with_clock
                   (fun t => t + Z.of_N (en_interval_minutes env * 60000)) w2)
            | (Raise _, w2) => (Ok tt, with_clock (fun t => t + 60000) w2)
            end
        | (Ok false, w1) =>
            (Ok tt,
             with_clock
               (fun t => t + Z.of_N (en_interval_minutes env * 60000)) w1)
        | (Raise _, w1) => (Ok tt, with_clock (fun t => t + 60000) w1)
        end).
    { unfold loop_pass, try_except. unfold bind at 1.
      destruct (should_run_trading_cycle (en_cycle env k) w) as [[[|]|e] w1];
        try reflexivity.
      unfold bind at 1.
      destruct (run_cycle env (en_cycle env k) w1) as [[[]|e] w2]; reflexivity. }
    rewrite Hpass. clear Hpass.
    destruct (should_run_trading_cycle (en_cycle env k) w) as [[[|]|e] w1];
      cbn [fst snd]; try reflexivity.
    destruct (run_cycle env (en_cycle env k) w1) as [[[]|e] w2] eqn:Hrun.
    - split; reflexivity.
    - exfalso. revert Hrun.
      unfold run_cycle, update_stock_data, bind at 1, ret.
      apply process_all_returns. }
  pose proof (@should_run_trading_cycle_stable later _ (en_cycle env k) w)
    as Hcheck.
  unfold later in Hcheck.
  split; [exact Hok|]. split; [exact Hshape|].
  destruct (should_run_trading_cycle (en_cycle env k) w) as [[[|]|e] w1];
    cbn [fst snd] in *.
  - destruct Hshape as [_ Hworld]. rewrite Hworld.
    pose proof (@run_cycle_stable _ later _ env (en_cycle env k) w1) as Hrun.
    unfold later in Hrun. cbn [clock with_clock].
    split; [intros go _; lia|lia].
  - rewrite Hshape. cbn [clock with_clock]. split; [intros go _; lia|lia].
  - rewrite Hshape. cbn [clock with_clock]. split; [intros go Hgo; discriminate|lia].
Qed.

End Facts.

(** The polling loop gives up only once the deadline has gone by. *)
Lemma wait_loop_deadline (lock : GlobalPromptLock) (env : LockEnv) (start : Z) :
  forall (budget k : nat) (w w' : World),
    wait_loop budget lock env start k w = (Returned (Ok false), w') ->
    Z.of_N (timeout_seconds lock) < clock w' - start.
Proof.
  induction budget as [|budget IH]; intros k w w'; simpl.
  - discriminate.
  - destruct (lk_poll env k) as [[|]|e]; try discriminate.
    simpl.
    destruct (Z.of_N (timeout_seconds lock)
              <? clock w + Z.of_N (lk_poll_time env k) - start) eqn:Hlate.
    + intros Heq. inversion Heq; subst. simpl. now apply Z.ltb_lt.
    + apply IH.
Qed.

(** The polling loop returns True at the first poll that is granted. *)
Lemma wait_loop_first_grant (lock : GlobalPromptLock) (env : LockEnv) (start : Z) :
  forall (budget k : nat) (w w' : World),
    wait_loop budget lock env start k w = (Returned (Ok true), w') ->
    exists j,
      (k <= j)%nat
      /\ lk_poll env j = Ok true
      /\ (forall i, (k <= i < j)%nat -> lk_poll env i = Ok false)
      /\ lock_holder w' = Some (lk_session env)
      /\ clock w + Z.of_nat (j - k) * Z.of_N (retry_interval lock) <= clock w'.
Proof.
  induction budget as [|budget IH]; intros k w w'; simpl.
  - discriminate.
  - destruct (lk_poll env k) as [[|]|e] eqn:Hpoll; try discriminate.
    + intros Heq. inversion Heq; subst. exists k.
      split; [lia|split; [exact Hpoll|split; [intros i Hi; lia|]]].
      split; [reflexivity|]. simpl. rewrite Nat.sub_diag. lia.
    + simpl.
      destruct (Z.of_N (timeout_seconds lock)
                <? clock w + Z.of_N (lk_poll_time env k) - start);
        [discriminate|].
      intros Hrest. apply IH in Hrest.
      destruct Hrest as [j [Hle [Hgrant [Hbefore [Hholder Hclock]]]]].
      exists j. split; [lia|split; [exact Hgrant|split]].
      * intros i Hi. destruct (Nat.eq_dec i k) as [->|Hneq]; [exact Hpoll|].
        apply Hbefore. lia.
      * split; [exact Hholder|]. simpl in Hclock.
        replace (Z.of_nat (j - k)) with (Z.of_nat (j - S k) + 1) by lia.
        lia.
Qed.

(** X14. [_wait_for_lock] answers False only when more than
    [timeout_seconds] have gone by since it started, and True at the
    first poll the database grants: every earlier poll was refused, one
    retry interval was slept after each of them, and the session then
    holds the lock. *)
Theorem wait_for_lock_timing (lock : GlobalPromptLock) (env : LockEnv)
  (w w' : World) :
  (_wait_for_lock lock env w = (Returned (Ok false), w') ->
   Z.of_N (timeout_seconds lock) < clock w' - clock w)
  /\ (_wait_for_lock lock env w = (Returned (Ok true), w') ->
      exists j,
        lk_poll env j = Ok true
        /\ (forall i, (i < j)%nat -> lk_poll env i = Ok false)
        /\ lock_holder w' = Some (lk_session env)
        /\ clock w + Z.of_nat j * Z.of_N (retry_interval lock) <= clock w').
Proof.
  unfold _wait_for_lock. split.
  - apply wait_loop_deadline.
  - intros Hgranted. apply wait_loop_first_grant in Hgranted.
    destruct Hgranted as [j [_ [Hgrant [Hbefore [Hholder Hclock]]]]].
    exists j. split; [exact Hgrant|split; [|split; [exact Hholder|]]].
    + intros i Hi. apply Hbefore. lia.
    + rewrite Nat.sub_0_r in Hclock. exact Hclock.
Qed.

End Pace.

(** ** What the proposal stage stores *)

Module StoredProposals.
Import TradingGraph.

Section Facts.
Context {RT : Runtime}.

(** A confidence that is not below 70 and passes pydantic's check is a
    number between 70 and 100. *)
Lemma confidence_in_range (confidence_score : json) (confidence : option Q) :
  lt_70 confidence_score = Ok false ->
  validate_confidence confidence_score = Ok confidence ->
  exists c,
    confidence = Some c /\ (70 <= c)%Q /\ (c <= 100)%Q.
Proof.
  destruct confidence_score as [|b|q|s|l|kv]; simpl; try discriminate.
  intros Hfloor. inversion Hfloor as [Hnot]. apply negb_false_iff in Hnot.
  destruct (Qle_bool 0 q && Qle_bool q 100) eqn:Hrange; [|discriminate].
  apply andb_true_iff in Hrange. destruct Hrange as [_ Hhigh].
  intros Heq. inversion Heq. exists q.
  split; [reflexivity|split; now apply Qle_bool_iff].
Qed.

(** The floor as a property of the object: a HOLD of nothing, or a BUY
    or SELL with a confidence between 70 and 100. *)
Lemma build_proposal_respects_floor (ticker : string) (snapshot : Snapshot)
  (event_id : Z) (debate_result : DebateResult) (parsed : json)
  (proposal : TradeProposal) :
  build_proposal ticker snapshot event_id debate_result parsed = Ok proposal ->
  respects_floor proposal.
Proof.
  unfold build_proposal, respects_floor.
  destruct (attr_get parsed "confidence_score") as [found|e]; [|discriminate].
  set (proposal_data := match parsed with JObj kv => kv | _ => [] end).
  set (confidence_score := match found with Some v => v | None => JNum 0 end).
  set (action := dict_get_default proposal_data "action" (JStr "HOLD")).
  destruct (floor_applies action confidence_score) as [forced|e] eqn:Hfloor;
    [|discriminate].
  destruct forced.
  - (* forced to HOLD *)
    cbn [validate_action String.eqb Ascii.eqb Bool.eqb str_eq negb].
    cbn [validate_int is_integral inject_Z Qnum Qden].
    change (0 mod 1 =? 0) with true. cbv iota.
    destruct (validate_str _) as [reasoning|e]; [|discriminate].
    destruct (validate_confidence confidence_score) as [confidence|e];
      [|discriminate].
    intros Heq. inversion Heq. left. split; reflexivity.
  - destruct (validate_action action) as [valid|e] eqn:Hvalid; [|discriminate].
    destruct (validate_int _) as [quantity|e] eqn:Hquantity; [|discriminate].
    destruct (validate_str _) as [reasoning|e]; [|discriminate].
    destruct (validate_confidence confidence_score) as [confidence|e]
      eqn:Hconfidence; [|discriminate].
    intros Heq. inversion Heq. clear Heq. cbn [tp_action tp_quantity
                                                 tp_confidence_score].
    unfold validate_action in Hvalid.
    destruct action as [| | |side| |]; try discriminate.
    destruct (String.eqb side "BUY") eqn:Hbuy;
      [|destruct (String.eqb side "SELL") eqn:Hsell;
        [|destruct (String.eqb side "HOLD") eqn:Hhold; [|discriminate]]];
      inversion Hvalid; subst valid.
    + right. split; [discriminate|].
      unfold floor_applies in Hfloor. cbn [str_eq] in Hfloor.
      rewrite Hbuy in Hfloor. cbn [orb] in Hfloor.
      exact (confidence_in_range _ Hfloor Hconfidence).
    + right. split; [discriminate|].
      unfold floor_applies in Hfloor. cbn [str_eq] in Hfloor.
      rewrite Hbuy, Hsell in Hfloor. cbn [orb] in Hfloor.
      exact (confidence_in_range _ Hfloor Hconfidence).
    + left. split; [reflexivity|].
      cbn [str_eq negb] in Hquantity. rewrite Hhold in Hquantity.
      cbn [negb] in Hquantity. cbv iota in Hquantity.
      unfold validate_int, is_integral in Hquantity. simpl in Hquantity.
      inversion Hquantity. reflexivity.
Qed.

(** How [propose] ends. *)
Lemma propose_ends (env : TickerEnv) (state : TradingState) (event_id : Z)
  (debate_result : DebateResult) (snapshot : Snapshot) (w w' : World)
  (r : result TradingState) :
  propose env state event_id debate_result snapshot w = (r, w') ->
  (exists e, r = Raise e /\ w' = w)
  \/ exists proposal,
       respects_floor proposal
       /\ r = Ok (set_proposal
                    (Ledger.set_tp_id
                       (Ledger.next_id (Ledger.proposals (ledger w))) proposal)
                    state)
       /\ w' = with_ledger (Ledger.add_proposal proposal) w.
Proof.
  assert (Hraise : forall e : string,
             (@Raise TradingState e, w) = (r, w') ->
             (exists e, r = Raise e /\ w' = w)
             \/ exists proposal,
                  respects_floor proposal
                  /\ r = Ok (set_proposal
                               (Ledger.set_tp_id
                                  (Ledger.next_id (Ledger.proposals (ledger w)))
                                  proposal)
                               state)
                  /\ w' = with_ledger (Ledger.add_proposal proposal) w).
  { intros e Heq. inversion Heq. left. exists e. split; reflexivity. }
  unfold propose.
  unfold bind at 1. unfold lift at 1.
  destruct (pe_llm (te_proposal env) debate_result) as [response|e];
    [|exact (Hraise e)].
  unfold bind at 1. unfold lift at 1.
  destruct (json_loads response) as [parsed|e]; [|exact (Hraise e)].
  unfold bind at 1. unfold lift at 1.
  destruct (build_proposal (ts_ticker state) snapshot event_id debate_result parsed)
    as [proposal|e] eqn:Hbuilt; [|exact (Hraise e)].
  unfold bind at 1. unfold save_trade_proposal at 1.
  destruct (pe_save (te_proposal env)) as [e|]; [exact (Hraise e)|].
  unfold ret. intros Heq. inversion Heq. right. exists proposal.
  split; [exact (build_proposal_respects_floor _ _ _ _ _ Hbuilt)|].
  split; reflexivity.
Qed.

(** X24. Every proposal the proposal stage stores keeps to the
    confidence floor, whatever the oracle answers: it is a HOLD with
    quantity 0, or a BUY or SELL whose confidence lies between 70 and
    100. The node either stores one such proposal and puts it into the
    state, or stores nothing, leaves the world as it was and records an
    error. *)
Theorem proposal_stage_keeps_the_floor (env : TickerEnv) (state : TradingState)
  (w : World) :
  (exists e,
      _create_proposal_from_debate env state w = (Ok (set_error e state), w))
  \/ exists proposal,
       respects_floor proposal
       /\ _create_proposal_from_debate env state w
          = (Ok (set_proposal
                   (Ledger.set_tp_id
                      (Ledger.next_id (Ledger.proposals (ledger w))) proposal)
                   state),
             with_ledger (Ledger.add_proposal proposal) w).
Proof.
  destruct (_create_proposal_from_debate env state w) as [r w'] eqn:Hrun.
  revert Hrun.
  set (G := (exists e, (r, w') = (Ok (set_error e state), w))
            \/ exists proposal,
                 respects_floor proposal
                 /\ (r, w')
                    = (Ok (set_proposal
                             (Ledger.set_tp_id
                                (Ledger.next_id (Ledger.proposals (ledger w)))
                                proposal)
                             state),
                       with_ledger (Ledger.add_proposal proposal) w)).
  assert (Herror : forall e, (Ok (set_error e state), w) = (r, w') -> G).
  { intros e Heq. left. exists e. now rewrite Heq. }
  assert (Hpropose : forall event_id debate_result snapshot,
             try_except (propose env state event_id debate_result snapshot)
               (fun e => ret (set_error e state)) w = (r, w') -> G).
  { intros event_id debate_result snapshot. unfold try_except.
    destruct (propose env state event_id debate_result snapshot w)
      as [r0 w0] eqn:Hrun.
    destruct (propose_ends _ _ _ _ _ _ Hrun)
      as [[e [Hr Hw]]|[proposal [Hfloor [Hr Hw]]]]; subst r0 w0.
    - apply Herror.
    - intros Heq. right. exists proposal. split; [exact Hfloor|now rewrite Heq]. }
  unfold _create_proposal_from_debate, guarded.
  destruct (usable_event_id (ts_analysis_result state)) as [event_id|];
    [|apply Herror].
  destruct (ts_debate_result state) as [debate_result|]; [|apply Herror].
  destruct (pe_snapshot (te_proposal env)) as [[snapshot|]|e] eqn:Hsnapshot.
  - unfold try_except at 1. unfold bind at 1. unfold lift at 1.
    apply (Hpropose event_id debate_result snapshot).
  - unfold try_except at 1. unfold bind at 1. unfold lift at 1.
    destruct (pe_refetch (te_proposal env)) as [[snapshot|]|e];
      [|apply Herror|apply Herror].
    apply (Hpropose event_id debate_result snapshot).
  - unfold try_except at 1. unfold bind at 1. unfold lift at 1.
    apply Herror.
Qed.

End Facts.
End StoredProposals.

(** ** The list of tickers *)

Module Tickers.
Import Ascii Str Config.

Lemma is_space_upper (c : ascii) : is_space (upper_char c) = is_space c.
Proof.
  destruct c as [[] [] [] [] [] [] [] []]; reflexivity.
Qed.

Lemma upper_char_twice (c : ascii) : upper_char (upper_char c) = upper_char c.
Proof.
  destruct c as [[] [] [] [] [] [] [] []]; reflexivity.
Qed.

Lemma upper_char_comma (c : ascii) :
  Ascii.eqb (upper_char c) "," = Ascii.eqb c ",".
Proof.
  destruct c as [[] [] [] [] [] [] [] []]; reflexivity.
Qed.

Lemma upper_twice (s : string) : upper (upper s) = upper s.
Proof.
  induction s as [|c s IH]; simpl; [reflexivity|].
  now rewrite upper_char_twice, IH.
Qed.

Lemma upper_empty (s : string) : upper s = "" -> s = "".
Proof. destruct s; [reflexivity|discriminate]. Qed.

Lemma lstrip_upper (s : string) : lstrip (upper s) = upper (lstrip s).
Proof.
  induction s as [|c s IH]; simpl; [reflexivity|].
  rewrite is_space_upper. destruct (is_space c); [exact IH|reflexivity].
Qed.

Lemma rstrip_upper (s : string) : rstrip (upper s) = upper (rstrip s).
Proof.
  induction s as [|c s IH]; simpl; [reflexivity|].
  rewrite IH, is_space_upper.
  destruct (rstrip s); simpl; [destruct (is_space c)|]; reflexivity.
Qed.

Lemma strip_upper (s : string) : strip (upper s) = upper (strip s).
Proof. unfold strip. now rewrite lstrip_upper, rstrip_upper. Qed.

Lemma rstrip_twice (s : string) : rstrip (rstrip s) = rstrip s.
Proof.
  induction s as [|c s IH]; simpl; [reflexivity|].
  destruct (rstrip s) as [|d kept] eqn:Hkept.
  - destruct (is_space c) eqn:Hc; simpl; [reflexivity|]. now rewrite Hc.
  - simpl. simpl in IH. rewrite IH. reflexivity.
Qed.

(** What [rstrip] keeps begins like the text itself. *)
Lemma rstrip_head (c : ascii) (s : string) :
  rstrip (String c s) = "" \/ exists kept, rstrip (String c s) = String c kept.
Proof.
  simpl. destruct (rstrip s); [destruct (is_space c)|];
    try (left; reflexivity); right; eexists; reflexivity.
Qed.

Lemma lstrip_head (s : string) :
  lstrip s = "" \/ exists c rest, lstrip s = String c rest /\ is_space c = false.
Proof.
  induction s as [|c s IH]; simpl; [left; reflexivity|].
  destruct (is_space c) eqn:Hc; [exact IH|].
  right. exists c, s. split; [reflexivity|exact Hc].
Qed.

Lemma strip_twice (s : string) : strip (strip s) = strip s.
Proof.
  unfold strip.
  destruct (lstrip_head s) as [Hempty|[c [rest [Hkept Hc]]]].
  - rewrite Hempty. reflexivity.
  - rewrite Hkept.
    destruct (rstrip_head c rest) as [Hnone|[kept Hsome]].
    + rewrite Hnone. reflexivity.
    + rewrite Hsome. simpl lstrip. rewrite Hc. rewrite <- Hsome.
      apply rstrip_twice.
Qed.

Lemma has_char_upper (s : string) : has_char "," (upper s) = has_char "," s.
Proof.
  induction s as [|c s IH]; simpl; [reflexivity|].
  now rewrite upper_char_comma, IH.
Qed.

Lemma has_char_lstrip (s : string) :
  has_char "," s = false -> has_char "," (lstrip s) = false.
Proof.
  induction s as [|c s IH]; simpl; [reflexivity|].
  intros Hnone. apply orb_false_iff in Hnone. destruct Hnone as [Hc Hs].
  destruct (is_space c); [now apply IH|].
  simpl. now rewrite Hc, Hs.
Qed.

Lemma has_char_rstrip (s : string) :
  has_char "," s = false -> has_char "," (rstrip s) = false.
Proof.
  induction s as [|c s IH]; simpl; [reflexivity|].
  intros Hnone. apply orb_false_iff in Hnone. destruct Hnone as [Hc Hs].
  specialize (IH Hs).
  destruct (rstrip s) as [|d kept].
  - destruct (is_space c); [reflexivity|]. simpl. now rewrite Hc.
  - simpl. simpl in IH. now rewrite Hc, IH.
Qed.

(** No piece of a split holds the separator. *)
Lemma split_pieces (sep : ascii) (s : string) :
  Forall (fun piece => has_char sep piece = false) (split sep s)
  /\ split sep s <> [].
Proof.
  induction s as [|c s [IH Hsome]]; simpl.
  - split; [constructor; [reflexivity|constructor]|discriminate].
  - destruct (Ascii.eqb c sep) eqn:Hc.
    + split; [constructor; [reflexivity|exact IH]|discriminate].
    + destruct (split sep s) as [|piece pieces]; [contradiction|].
      inversion IH; subst.
      split; [|discriminate].
      constructor; [simpl; now rewrite Hc|assumption].
Qed.

Lemma is_ascii_upper (s : string) : is_ascii (upper s) = is_ascii s.
Proof.
  induction s as [|c s IH]; simpl; [reflexivity|]. rewrite IH. f_equal.
  destruct c as [[] [] [] [] [] [] [] []]; reflexivity.
Qed.

Lemma is_ascii_lstrip (s : string) :
  is_ascii s = true -> is_ascii (lstrip s) = true.
Proof.
  induction s as [|c s IH]; simpl; [reflexivity|].
  intros Hall. destruct (is_space c); [|exact Hall].
  apply andb_true_iff in Hall. now apply IH.
Qed.

Lemma is_ascii_rstrip (s : string) :
  is_ascii s = true -> is_ascii (rstrip s) = true.
Proof.
  induction s as [|c s IH]; simpl; [reflexivity|].
  intros Hall. apply andb_true_iff in Hall. destruct Hall as [Hc Hs].
  specialize (IH Hs).
  destruct (rstrip s) as [|d kept].
  - destruct (is_space c); [reflexivity|]. simpl. now rewrite Hc.
  - simpl. simpl in IH. now rewrite Hc, IH.
Qed.

Lemma is_ascii_split (sep : ascii) (s : string) :
  is_ascii s = true ->
  Forall (fun piece => is_ascii piece = true) (split sep s).
Proof.
  induction s as [|c s IH]; simpl.
  - intros _. constructor; [reflexivity|constructor].
  - intros Hall. apply andb_true_iff in Hall. destruct Hall as [Hc Hs].
    specialize (IH Hs).
    destruct (Ascii.eqb c sep); [constructor; [reflexivity|exact IH]|].
    destruct (split sep s) as [|piece pieces].
    + constructor; [simpl; now rewrite Hc|constructor].
    + inversion IH; subst.
      constructor; [simpl; now rewrite Hc|assumption].
Qed.

(** X15. Whatever the setting holds, every ticker [Settings.stocks]
    hands out is clean: it is not empty, holds no comma, has no blank at
    either end and no small letter; so the engine never processes an
    empty ticker. The setting is ASCII text. *)
Theorem stocks_are_clean (stock_list ticker : string) :
  is_ascii stock_list = true ->
  In ticker (stocks stock_list) ->
  clean ticker.
Proof.
  intros Hascii Hin. unfold stocks in Hin. apply in_flat_map in Hin.
  destruct Hin as [piece [Hpiece Hkept]].
  destruct (String.eqb (strip piece) "") eqn:Hblank; [contradiction|].
  destruct Hkept as [Hkept|[]]. subst ticker.
  apply String.eqb_neq in Hblank.
  destruct (split_pieces "," stock_list) as [Hpieces _].
  rewrite Forall_forall in Hpieces. specialize (Hpieces piece Hpiece).
  pose proof (is_ascii_split "," stock_list Hascii) as Hplain.
  rewrite Forall_forall in Hplain. specialize (Hplain piece Hpiece).
  split; [|split; [|split; [|split]]].
  - rewrite is_ascii_upper. unfold strip.
    now apply is_ascii_rstrip, is_ascii_lstrip.
  - intros Hempty. apply upper_empty in Hempty. contradiction.
  - rewrite has_char_upper. unfold strip.
    now apply has_char_rstrip, has_char_lstrip.
  - now rewrite strip_upper, strip_twice.
  - apply upper_twice.
Qed.

Lemma append_empty (s : string) : (s ++ "")%string = s.
Proof. induction s as [|c s IH]; simpl; [reflexivity|now rewrite IH]. Qed.

(** Splitting what was joined, when no piece holds the separator. *)
Lemma split_concat (pieces : list string) :
  pieces <> [] ->
  Forall (fun piece => has_char "," piece = false) pieces ->
  split "," (String.concat "," pieces) = pieces.
Proof.
  assert (Hone : forall piece rest,
             has_char "," piece = false ->
             split "," (piece ++ rest)%string
             = match split "," rest with
               | first :: more => (piece ++ first)%string :: more
               | [] => [piece]
               end).
  { induction piece as [|c piece IH]; intros rest Hnone; simpl.
    - destruct (split_pieces "," rest) as [_ Hsome].
      destruct (split "," rest); [contradiction|reflexivity].
    - simpl in Hnone. apply orb_false_iff in Hnone. destruct Hnone as [Hc Hs].
      rewrite Hc, (IH rest Hs).
      destruct (split "," rest); reflexivity. }
  induction pieces as [|piece pieces IH]; intros Hsome Hclean.
  - contradiction.
  - inversion Hclean; subst.
    destruct pieces as [|next pieces].
    + simpl. rewrite <- (append_empty piece) at 1.
      rewrite (Hone piece "" H1). simpl. now rewrite append_empty.
    + change (String.concat "," (piece :: next :: pieces))
        with (piece ++ String "," (String.concat "," (next :: pieces)))%string.
      rewrite (Hone _ _ H1).
      change (split "," (String "," (String.concat "," (next :: pieces))))
        with ("" :: split "," (String.concat "," (next :: pieces))).
      rewrite IH; [|discriminate|assumption].
      now rewrite append_empty.
Qed.

(** X16. Joining clean tickers with commas and reading the setting back
    gives the same tickers in the same order. *)
Theorem stocks_of_joined (tickers : list string) :
  Forall clean tickers ->
  stocks (String.concat "," tickers) = tickers.
Proof.
  intros Hclean. unfold stocks.
  destruct tickers as [|ticker tickers]; [reflexivity|].
  rewrite split_concat; [|discriminate|].
  - induction Hclean as [|t ts [_ [Hsome [_ [Hstrip Hupper]]]] _ IH];
      [reflexivity|].
    simpl. rewrite Hstrip, Hupper.
    destruct (String.eqb t "") eqn:E; [apply String.eqb_eq in E; contradiction|].
    simpl. now rewrite IH.
  - eapply Forall_impl; [|exact Hclean]. intros t [_ [_ [Hnone _]]]. exact Hnone.
Qed.

(** A run of X15: a setting with blanks, small letters and an empty
    entry. *)
Lemma stocks_are_clean_witness :
  stocks "aapl, msft ,,tsla" = ["AAPL"; "MSFT"; "TSLA"] /\ clean "MSFT".
Proof.
  split; [reflexivity|].
  apply (@stocks_are_clean "aapl, msft ,,tsla" "MSFT"); [reflexivity|].
  vm_compute. right. left. reflexivity.
Defined.

(** A run of X16. *)
Lemma stocks_of_joined_witness :
  stocks (String.concat "," ["AAPL"; "MSFT"; "TSLA"]) = ["AAPL"; "MSFT"; "TSLA"].
Proof.
  apply stocks_of_joined.
  repeat constructor; discriminate.
Defined.

End Tickers.

(** ** The broker client *)

Module Broker.
Import Str Tenacity AlpacaClient.

Lemma market_attempt (rest : nat -> RestOrder -> result Entity)
  (symbol qty : json) (side : string) (k : nat) (s : Wire) :
  attempt (rest k) symbol qty side "market" None s
  = (to_sum (market_answer rest symbol qty side k),
     post (market_request symbol qty side) s).
Proof. reflexivity. Qed.

Lemma market_attempts (rest : nat -> RestOrder -> result Entity)
  (symbol qty : json) (side : string) :
  forall (more k : nat) (s : Wire),
    let '(outcome, s', made) :=
      attempts_from (fun _ : string => true) (wait_exponential 2 60) pause
        (fun k => attempt (rest k) symbol qty side "market" None) more k s in
    (k <= made <= k + more)%nat
    /\ posted s' = posted s ++ repeat (market_request symbol qty side) (S made - k)
    /\ paused s' = (paused s + pauses k (made - k))%N
    /\ of_sum outcome = market_answer rest symbol qty side made
    /\ (forall j, (k <= j < made)%nat ->
        exists e, market_answer rest symbol qty side j = Raise e)
    /\ (forall e, outcome = inr e -> made = (k + more)%nat).
Proof.
  induction more as [|more IH]; intros k s; cbn [attempts_from];
    rewrite market_attempt;
    destruct (market_answer rest symbol qty side k) as [order|e] eqn:Hanswer;
    cbn [to_sum]; cbv beta iota.
  - split; [lia|split; [|split; [|split; [|split]]]].
    + replace (S k - k)%nat with 1%nat by lia. reflexivity.
    + rewrite Nat.sub_diag. unfold pauses. simpl. now rewrite N.add_0_r.
    + now rewrite Hanswer.
    + intros j Hj. lia.
    + discriminate.
  - split; [lia|split; [|split; [|split; [|split]]]].
    + replace (S k - k)%nat with 1%nat by lia. reflexivity.
    + rewrite Nat.sub_diag. unfold pauses. simpl. now rewrite N.add_0_r.
    + now rewrite Hanswer.
    + intros j Hj. lia.
    + intros e0 _. lia.
  - split; [lia|split; [|split; [|split; [|split]]]].
    + replace (S k - k)%nat with 1%nat by lia. reflexivity.
    + rewrite Nat.sub_diag. unfold pauses. simpl. now rewrite N.add_0_r.
    + now rewrite Hanswer.
    + intros j Hj. lia.
    + discriminate.
  - specialize (IH (S k)
                  (pause (wait_exponential 2 60 k)
                     (post (market_request symbol qty side) s))).
    destruct (attempts_from _ _ _ _ more (S k) _) as [[outcome s'] made].
    destruct IH as [Hmade [Hposted [Hpaused [Hlast [Hbefore Hfail]]]]].
    split; [lia|split; [|split; [|split; [|split]]]].
    + rewrite Hposted. cbn [posted pause post]. rewrite <- app_assoc. f_equal.
      replace (S made - k)%nat with (S (S made - S k)) by lia.
      reflexivity.
    + rewrite Hpaused. cbn [paused pause post].
      replace (made - k)%nat with (S (made - S k)) by lia.
      unfold pauses. cbn [seq map fold_right]. lia.
    + exact Hlast.
    + intros j Hj. destruct (Nat.eq_dec j k) as [->|Hneq].
      * exists e. exact Hanswer.
      * apply Hbefore. lia.
    + intros e0 He. specialize (Hfail e0 He). lia.
Qed.

(** X17. The side the broker sees. [submit_order] sends "buy" when the
    side is BUY and "sell" for every other side: the HOLD of an approved
    HOLD proposal goes out as a sell. A market order is posted once per
    attempt, between one and five times, each time with the same symbol,
    quantity and side. *)
Theorem market_order_side (rest : nat -> RestOrder -> result Entity)
  (symbol qty : json) (action : Action) :
  let '(outcome, s, made) :=
    submit_order rest symbol qty (action_name action) "market" None in
  (1 <= made <= 5)%nat
  /\ posted s
     = repeat {| ro_symbol := symbol; ro_qty := qty;
                 ro_side := match action with BUY => "buy" | _ => "sell" end;
                 ro_type := "market"; ro_limit_price := None;
                 ro_time_in_force := "day" |} made.
Proof.
  unfold submit_order, retrying.
  pose proof (market_attempts rest symbol qty (action_name action) 4 1 quiet)
    as Hrun.
  cbn [Nat.sub] in *.
  destruct (attempts_from _ _ _ _ 4 1 quiet) as [[outcome s] made].
  destruct Hrun as [Hmade [Hposted _]].
  split; [lia|].
  rewrite Hposted, Nat.sub_0_r. cbn [posted quiet app].
  f_equal. unfold market_request. destruct action; reflexivity.
Qed.

(** The attempts of an order that cannot be built: nothing is posted,
    every attempt raises the same ValueError, and the decorator pauses
    after each but the last. *)
Lemma priceless_attempts (rest : nat -> RestOrder -> result Entity)
  (symbol qty : json) (side order_type : string) (limit_price : option Q) :
  String.eqb (lower order_type) "market" = false ->
  match limit_price with Some p => Qeq_bool p 0 = true | None => True end ->
  forall (more k : nat) (s : Wire),
    attempts_from (fun _ : string => true) (wait_exponential 2 60) pause
      (fun k => attempt (rest k) symbol qty side order_type limit_price) more k s
    = (inr "Limit price required for limit orders",
       {| posted := posted s;
          paused := paused s
                    + fold_right N.add 0%N
                        (map (wait_exponential 2 60) (seq k more)) |},
       (k + more)%nat).
Proof.
  intros Hlimit Hprice.
  assert (Hattempt : forall k s,
             attempt (rest k) symbol qty side order_type limit_price s
             = (inr "Limit price required for limit orders", s)).
  { intros k s. unfold attempt. rewrite Hlimit.
    destruct limit_price as [p|]; [rewrite Hprice|]; reflexivity. }
  induction more as [|more IH]; intros k s; cbn [attempts_from];
    rewrite Hattempt.
  - simpl. rewrite N.add_0_r, Nat.add_0_r. destruct s; reflexivity.
  - cbv iota beta. rewrite IH. simpl posted. simpl paused.
    cbn [seq map fold_right]. f_equal; [|lia].
    f_equal. f_equal. lia.
Qed.

(** X18. A limit order without a limit price (None, or zero) never
    reaches the REST API, and yet it is retried like a failed call: the
    ValueError is raised inside the [try], the decorator retries every
    exception, and the caller gets the error after five attempts and
    sixteen seconds of pauses. *)
Theorem limit_order_needs_a_price (rest : nat -> RestOrder -> result Entity)
  (symbol qty : json) (side order_type : string) (limit_price : option Q) :
  String.eqb (lower order_type) "market" = false ->
  match limit_price with Some p => Qeq_bool p 0 = true | None => True end ->
  submit_order rest symbol qty side order_type limit_price
  = (Raise "Limit price required for limit orders",
     {| posted := []; paused := 16 |}, 5%nat).
Proof.
  intros Hlimit Hprice. unfold submit_order, retrying.
  cbn [Nat.sub].
  rewrite (priceless_attempts rest symbol qty side _ _ Hlimit Hprice).
  reflexivity.
Qed.

(** X19. A market order that fails is sent again. When the first
    attempts fail and attempt [n] goes through, the order has been posted
    [n] times and the answer to the last is returned; when five attempts
    fail the fifth exception is raised, after 2 + 2 + 4 + 8 seconds of
    pauses. A failure after the broker accepted the order (a field of
    the answer that does not convert) is retried like any other. *)
Theorem failed_order_is_sent_again (rest : nat -> RestOrder -> result Entity)
  (symbol qty : json) (side : string) :
  let '(outcome, s, made) := submit_order rest symbol qty side "market" None in
  (1 <= made <= 5)%nat
  /\ posted s = repeat (market_request symbol qty side) made
  /\ paused s = pauses 1 (made - 1)
  /\ outcome = market_answer rest symbol qty side made
  /\ (forall k, (1 <= k < made)%nat ->
      exists e, market_answer rest symbol qty side k = Raise e)
  /\ (forall e, outcome = Raise e -> made = 5%nat /\ paused s = 16%N).
Proof.
  unfold submit_order, retrying.
  pose proof (market_attempts rest symbol qty side 4 1 quiet) as Hrun.
  cbn [Nat.sub] in *.
  destruct (attempts_from _ _ _ _ 4 1 quiet) as [[outcome s] made].
  destruct Hrun as [Hmade [Hposted [Hpaused [Hlast [Hbefore Hfail]]]]].
  split; [lia|split; [|split; [|split; [|split]]]].
  - rewrite Hposted, Nat.sub_0_r. reflexivity.
  - rewrite Hpaused. reflexivity.
  - exact Hlast.
  - exact Hbefore.
  - intros e He.
    assert (Hfive : made = 5%nat).
    { destruct outcome as [order|e0]; [discriminate|].
      specialize (Hfail e0 eq_refl). lia. }
    split; [exact Hfive|]. rewrite Hpaused, Hfive. reflexivity.
Qed.

(** A run of X18: a limit order for ACME without a price. *)
Lemma limit_order_needs_a_price_witness :
  submit_order (fun _ _ => Raise "not called") (JStr "ACME")
    (JNum (inject_Z 10)) "BUY" "Limit" None
  = (Raise "Limit price required for limit orders",
     {| posted := []; paused := 16 |}, 5%nat).
Proof.
  apply (@limit_order_needs_a_price (fun _ _ => Raise "not called")
           (JStr "ACME") (JNum (inject_Z 10)) "BUY" "Limit" None);
    [reflexivity|exact I].
Defined.

End Broker.

(** ** The oracle client *)

From Stdlib Require Qabs.

Module Oracle.
Import Str Tenacity LLMClient.

Lemma round_half_even_nonneg (n : Z) (d : positive) :
  0 <= n -> 0 <= round_half_even n d.
Proof.
  intros Hn. unfold round_half_even.
  assert (Hq : 0 <= n / Zpos d) by (apply Z.div_pos; lia).
  destruct (2 * (n mod Zpos d) ?= Zpos d); [|lia|lia].
  destruct (Z.even (n / Zpos d)); lia.
Qed.

(** Rounding keeps the sign: what is not negative stays so. *)
Lemma binary64_nonneg (x : Q) : (0 <= x)%Q -> (0 <= binary64 x)%Q.
Proof.
  intros Hx. unfold binary64.
  destruct (Qnum x =? 0) eqn:Hzero; [apply Qle_refl|].
  apply Z.eqb_neq in Hzero.
  assert (Hpos : 0 < Qnum x).
  { unfold Qle in Hx. simpl in Hx. lia. }
  assert (Hsgn : Z.sgn (Qnum x) = 1) by (apply Z.sgn_pos; exact Hpos).
  cbv beta zeta. rewrite Hsgn.
  match goal with
  | |- context [round_half_even ?p ?q] =>
      assert (Hm : 0 <= round_half_even p q);
      [apply round_half_even_nonneg|generalize dependent (round_half_even p q)]
  end.
  - match goal with
    | |- 0 <= fst (if ?c then _ else _) => destruct c
    end; cbn [fst]; [lia|].
    apply Z.mul_nonneg_nonneg; [lia|]. apply Z.pow_nonneg. lia.
  - intros m Hm.
    match goal with
    | |- (0 <= if 0 <=? ?e then _ else _)%Q => destruct (0 <=? e) eqn:He
    end.
    + apply Z.leb_le in He. unfold Qle. cbn [Qnum Qden inject_Z].
      match goal with
      | |- context [2 ^ ?e] =>
          assert (0 <= 2 ^ e) by (apply Z.pow_nonneg; lia);
          generalize dependent (2 ^ e)
      end.
      intros p Hp. nia.
    + unfold Qle. cbn [Qnum Qden]. lia.
Qed.

(** X20. The rate limiter spaces the calls, up to the rounding of its
    float arithmetic. If each of its two subtractions errs by at most
    [u], then when [wait_if_needed] returns at least
    [min_interval - 2u] has gone by since the call before it was
    recorded. It does not sleep when the measured time since that call
    reaches [min_interval]; otherwise it sleeps the missing time as the
    float subtraction gives it. The clock it leaves is the recorded call
    time, and is not earlier than the clock it found. *)
Theorem rate_limiter_spaces_calls (lag u : Q) (s : Timed) :
  let elapsed := (now s - last_call_time (limiter s))%Q in
  let measured := binary64 elapsed in
  let missing := (min_interval (limiter s) - measured)%Q in
  let s' := wait_if_needed lag s in
  (0 <= lag)%Q ->
  (Qabs.Qabs (measured - elapsed) <= u)%Q ->
  (Qabs.Qabs (binary64 missing - missing) <= u)%Q ->
  (last_call_time (limiter s) + min_interval (limiter s) - 2 * u + lag
   <= last_call_time (limiter s'))%Q
  /\ (now s <= now s')%Q
  /\ now s' = last_call_time (limiter s')
  /\ min_interval (limiter s') = min_interval (limiter s)
  /\ ((min_interval (limiter s) <= measured)%Q -> (now s' == now s + lag)%Q)
  /\ ((measured < min_interval (limiter s))%Q ->
      (now s' == now s + binary64 missing + lag)%Q).
Proof.
  intros elapsed measured missing s' Hlag Hfirst Hsecond.
  apply Qabs.Qabs_Qle_condition in Hfirst. destruct Hfirst as [Hf1 Hf2].
  apply Qabs.Qabs_Qle_condition in Hsecond. destruct Hsecond as [Hs1 Hs2].
  subst s'. unfold wait_if_needed, Qlt_bool.
  fold elapsed. fold measured. fold missing.
  destruct (Qle_bool (min_interval (limiter s)) measured) eqn:Hdue; simpl.
  - apply Qle_bool_iff in Hdue.
    split; [|split; [|split; [reflexivity|split; [reflexivity|split]]]].
    + subst elapsed. lra.
    + lra.
    + intros _. reflexivity.
    + intros Hearly. lra.
  - assert (Hearly : (measured < min_interval (limiter s))%Q).
    { apply Qnot_le_lt. intros Hle. apply Qle_bool_iff in Hle.
      rewrite Hle in Hdue. discriminate. }
    assert (Hslept : (0 <= binary64 missing)%Q).
    { apply binary64_nonneg. subst missing. lra. }
    split; [|split; [|split; [reflexivity|split; [reflexivity|split]]]].
    + subst elapsed missing. lra.
    + lra.
    + intros Hle. lra.
    + intros _. reflexivity.
Qed.

(** What an attempt answers. *)
Lemma attempt_outcome (env : ChatEnv) (chat_model : string)
  (messages : list (string * string)) (temperature : Q)
  (response_format : option (list (string * string))) (k : nat) (s : Timed) :
  match fst (attempt env chat_model messages temperature response_format k s) with
  | inl content =>
      ch_create env k (request_of chat_model messages temperature response_format)
      = Content (Some content)
      /\ content <> "" /\ ch_blank env content = false
  | inr (OtherError e) =>
      ch_create env k (request_of chat_model messages temperature response_format)
      = Fails (OtherError e)
      \/ (e = "Empty response from LLM"
          /\ exists content,
               ch_create env k
                 (request_of chat_model messages temperature response_format)
               = Content content
               /\ match content with
                  | Some c => c = "" \/ ch_blank env c = true
                  | None => True
                  end)
  | inr (APIError status e) =>
      ch_create env k (request_of chat_model messages temperature response_format)
      = Fails (APIError status e)
  end.
Proof.
  unfold attempt.
  destruct (ch_create env k _) as [[content|]|[status e|e]]; simpl.
  - destruct (String.eqb content "") eqn:Hempty; simpl.
    + right. split; [reflexivity|]. exists (Some content).
      split; [reflexivity|]. left. now apply String.eqb_eq.
    + destruct (ch_blank env content) eqn:Hblank; simpl.
      * right. split; [reflexivity|]. exists (Some content).
        split; [reflexivity|]. right. exact Hblank.
      * split; [reflexivity|split; [now apply String.eqb_neq|exact Hblank]].
  - right. split; [reflexivity|]. exists None. split; [reflexivity|exact I].
  - reflexivity.
  - left. reflexivity.
Qed.

Lemma chat_attempts (env : ChatEnv) (chat_model : string)
  (messages : list (string * string)) (temperature : Q)
  (response_format : option (list (string * string))) :
  forall (more k : nat) (s : Timed),
    let '(outcome, s', made) :=
      attempts_from is_api_error (wait_exponential 2 30)
        (fun seconds => elapse (inject_Z (Z.of_N seconds)))
        (attempt env chat_model messages temperature response_format)
        more k s in
    (k <= made <= k + more)%nat
    /\ (exists s0,
          outcome
          = fst (attempt env chat_model messages temperature response_format
                   made s0))
    /\ (forall j, (k <= j < made)%nat ->
        exists status e,
          ch_create env j
            (request_of chat_model messages temperature response_format)
          = Fails (APIError status e))
    /\ (forall status e, outcome = inr (APIError status e) ->
        made = (k + more)%nat).
Proof.
  induction more as [|more IH]; intros k s; cbn [attempts_from].
  - pose proof (attempt_outcome env chat_model messages temperature
                  response_format k s) as Hone.
    destruct (attempt env chat_model messages temperature response_format k s)
      as [[content|[status e|e]] s1] eqn:Hattempt; simpl in *;
      (split; [lia|split; [exists s; now rewrite Hattempt|split]]);
      try (intros j Hj; lia); try discriminate;
      intros status0 e0 _; lia.
  - pose proof (attempt_outcome env chat_model messages temperature
                  response_format k s) as Hone.
    destruct (attempt env chat_model messages temperature response_format k s)
      as [[content|[status e|e]] s1] eqn:Hattempt; simpl in *.
    + split; [lia|split; [exists s; now rewrite Hattempt|split]];
        [intros j Hj; lia|discriminate].
    + specialize (IH (S k)
                      (elapse (inject_Z (Z.of_N (wait_exponential 2 30 k))) s1)).
      destruct (attempts_from _ _ _ _ more (S k) _) as [[outcome s'] made].
      destruct IH as [Hmade [Hlast [Hbefore Hfail]]].
      split; [lia|split; [exact Hlast|split]].
      * intros j Hj. destruct (Nat.eq_dec j k) as [->|Hneq].
        -- exists status, e. exact Hone.
        -- apply Hbefore. lia.
      * intros status0 e0 He. specialize (Hfail status0 e0 He). lia.
    + split; [lia|split; [exists s; now rewrite Hattempt|split]];
        [intros j Hj; lia|discriminate].
Qed.

(** X21. What [chat_completion] hands to its caller is never empty and
    never blank. An answer without content is a ValueError, "Empty
    response from LLM", which the decorator does not retry: only API
    errors are retried, so every attempt before the last one failed with
    an API error, and there are at most three attempts. *)
Theorem chat_completion_answers (env : ChatEnv) (chat_model : string)
  (messages : list (string * string)) (temperature : Q)
  (response_format : option (list (string * string))) (s : Timed) :
  let '(outcome, s', made) :=
    chat_completion env chat_model messages temperature response_format s in
  let request := request_of chat_model messages temperature response_format in
  (1 <= made <= 3)%nat
  /\ (forall j, (1 <= j < made)%nat ->
      exists status e, ch_create env j request = Fails (APIError status e))
  /\ match outcome with
     | inl content =>
         ch_create env made request = Content (Some content)
         /\ content <> "" /\ ch_blank env content = false
     | inr (APIError status e) =>
         made = 3%nat /\ ch_create env made request = Fails (APIError status e)
     | inr (OtherError e) =>
         ch_create env made request = Fails (OtherError e)
         \/ (e = "Empty response from LLM"
             /\ exists content,
                  ch_create env made request = Content content
                  /\ match content with
                     | Some c => c = "" \/ ch_blank env c = true
                     | None => True
                     end)
     end.
Proof.
  unfold chat_completion, retrying. cbn [Nat.sub].
  pose proof (chat_attempts env chat_model messages temperature response_format
                2 1 s) as Hrun.
  destruct (attempts_from _ _ _ _ 2 1 s) as [[outcome s'] made].
  destruct Hrun as [Hmade [[s0 Hlast] [Hbefore Hfail]]].
  split; [lia|split; [exact Hbefore|]].
  pose proof (attempt_outcome env chat_model messages temperature
                response_format made s0) as Hone.
  rewrite <- Hlast in Hone.
  destruct outcome as [content|[status e|e]]; try exact Hone.
  split; [|exact Hone]. specialize (Hfail status e eq_refl). lia.
Qed.

(** A run of X20: a call ten milliseconds after the last one is held
    back; with both subtractions exact to [1e-17], sixty milliseconds
    less [2e-17] have gone by when it returns. *)
Lemma rate_limiter_spaces_calls_witness :
  (100 + binary64 (60 # 1000) - 2 * (1 # 100000000000000000) + 0
   <= last_call_time (limiter (wait_if_needed 0 Demo.busy_limiter)))%Q.
Proof.
  refine (proj1 (@rate_limiter_spaces_calls 0 (1 # 100000000000000000)
                   Demo.busy_limiter _ _ _)).
  - discriminate.
  - apply Qle_bool_iff. vm_compute. reflexivity.
  - apply Qle_bool_iff. vm_compute. reflexivity.
Defined.

End Oracle.

(** ** The trader's own proposal *)

Module OwnProposal.
Import Trader PortfolioManager TradingGraph SelfAnalysis.

Section Facts.
Context {RT : Runtime}.

(** X22. [self_analyze] has no confidence floor. When the reads go
    through, the ticker has no trade of the last seven days, and the
    oracle answers BUY or SELL with a whole quantity and a confidence
    anywhere between 0 and 100, the proposal is stored and returned as
    answered, with that action and that quantity, PENDING. *)
Theorem self_analyze_applies_no_floor (env : SelfEnv) (ticker : string)
  (analysis_event_id : Z) (articles : list Article) (snapshot : option Snapshot)
  (answer : dict) (side : string) (quantity : Z) (reasoning : string)
  (confidence : Q) (w : World) :
  sa_articles env = Ok articles ->
  sa_snapshot env = Ok snapshot ->
  sa_recent_trades env = None ->
  Ledger.recent_trades (ledger w) (Some ticker) (clock w - 7 * Ledger.ms_per_day)
  = [] ->
  (forall context, sa_llm env context = Ok (Encodes (JObj answer))) ->
  dict_get answer "action" = Some (JStr side) ->
  side = "BUY" \/ side = "SELL" ->
  dict_get answer "quantity" = Some (JNum (inject_Z quantity)) ->
  dict_get answer "reasoning" = Some (JStr reasoning) ->
  dict_get answer "confidence_score" = Some (JNum confidence) ->
  (0 <= confidence)%Q -> (confidence <= 100)%Q ->
  sa_save env = None ->
  exists proposal,
    self_analyze env ticker analysis_event_id w
    = (Ok (Some (Ledger.set_tp_id (Ledger.next_id (Ledger.proposals (ledger w)))
                   proposal)),
       with_ledger (Ledger.add_proposal proposal) w)
    /\ action_name (tp_action proposal) = side
    /\ tp_quantity proposal = quantity
    /\ tp_confidence_score proposal = Some confidence
    /\ tp_status proposal = PENDING.
Proof.
  intros Harticles Hsnapshot Hread Hnone Hllm Haction Hside Hquantity Hreasoning
         Hconfidence Hlow Hhigh Hsave.
  assert (Hvalid : exists action,
             validate_action (JStr side) = Ok action /\ action_name action = side).
  { destruct Hside as [-> | ->]; [exists BUY|exists SELL]; split; reflexivity. }
  destruct Hvalid as [action [Hvalid Hname]].
  exists {| tp_id := None; tp_ticker := ticker; tp_action := action;
            tp_quantity := quantity;
            tp_proposed_price := option_map sn_price snapshot;
            tp_reasoning := reasoning; tp_confidence_score := Some confidence;
            tp_analysis_event_id := Some analysis_event_id;
            tp_debate_id := None; tp_status := PENDING |}.
  split; [|split; [exact Hname|split; [reflexivity|split; reflexivity]]].
  unfold self_analyze, try_except.
  unfold bind at 1. unfold lift at 1. rewrite Harticles.
  unfold bind at 1. unfold lift at 1. rewrite Hsnapshot.
  unfold bind at 1. unfold get_recent_trades at 1. rewrite Hread, Hnone.
  unfold bind at 1. unfold lift at 1.
  assert (Hproposal :
            proposal_of env ticker analysis_event_id articles snapshot []
            = Ok {| tp_id := None; tp_ticker := ticker; tp_action := action;
                    tp_quantity := quantity;
                    tp_proposed_price := option_map sn_price snapshot;
                    tp_reasoning := reasoning;
                    tp_confidence_score := Some confidence;
                    tp_analysis_event_id := Some analysis_event_id;
                    tp_debate_id := None; tp_status := PENDING |}).
  { unfold proposal_of. cbn [firstn sf_recent_trades json_dumps_rows].
    rewrite Hllm. cbn [json_loads attr_get].
    unfold dict_get_default.
    rewrite Haction, Hquantity, Hreasoning, Hconfidence, Hvalid.
    assert (Hint : validate_int (JNum (inject_Z quantity)) = Ok quantity).
    { unfold validate_int, is_integral. simpl.
      rewrite Z.mod_1_r. simpl. now rewrite Z.div_1_r. }
    rewrite Hint. cbn [validate_str].
    unfold validate_confidence.
    apply Qle_bool_iff in Hlow. apply Qle_bool_iff in Hhigh.
    rewrite Hlow, Hhigh. reflexivity. }
  rewrite Hproposal.
  unfold bind at 1. unfold save_trade_proposal at 1. rewrite Hsave.
  reflexivity.
Qed.

(** The two ways [self_analyze] ends. *)
Lemma self_analyze_ends (env : SelfEnv) (ticker : string)
  (analysis_event_id : Z) (w w' : World) (r : result (option TradeProposal)) :
  self_analyze env ticker analysis_event_id w = (r, w') ->
  (r = Ok None /\ w' = w)
  \/ (exists proposal,
        r = Ok (Some (Ledger.set_tp_id
                        (Ledger.next_id (Ledger.proposals (ledger w))) proposal))
        /\ w' = with_ledger (Ledger.add_proposal proposal) w
        /\ Ledger.recent_trades (ledger w) (Some ticker)
             (clock w - 7 * Ledger.ms_per_day) = []).
Proof.
  assert (Hnone : forall e : string,
             (Ok (@None TradeProposal), w) = (r, w') ->
             (r = Ok None /\ w' = w)
             \/ (exists proposal,
                   r = Ok (Some (Ledger.set_tp_id
                                   (Ledger.next_id (Ledger.proposals (ledger w)))
                                   proposal))
                   /\ w' = with_ledger (Ledger.add_proposal proposal) w
                   /\ Ledger.recent_trades (ledger w) (Some ticker)
                        (clock w - 7 * Ledger.ms_per_day) = [])).
  { intros _ Heq. inversion Heq. left. split; reflexivity. }
  unfold self_analyze, try_except.
  unfold bind at 1. unfold lift at 1.
  destruct (sa_articles env) as [articles|e]; [|exact (Hnone e)].
  unfold bind at 1. unfold lift at 1.
  destruct (sa_snapshot env) as [snapshot|e]; [|exact (Hnone e)].
  unfold bind at 1. unfold get_recent_trades at 1.
  destruct (sa_recent_trades env) as [e|]; [exact (Hnone e)|].
  unfold bind at 1. unfold lift at 1.
  destruct (Ledger.recent_trades (ledger w) (Some ticker)
              (clock w - 7 * Ledger.ms_per_day)) as [|row rows] eqn:Hrows.
  - destruct (proposal_of env ticker analysis_event_id articles snapshot [])
      as [proposal|e]; [|exact (Hnone e)].
    unfold bind at 1. unfold save_trade_proposal at 1.
    destruct (sa_save env) as [e|]; [exact (Hnone e)|].
    unfold ret. intros Heq. inversion Heq. right.
    exists proposal. split; [reflexivity|split; reflexivity].
  - unfold proposal_of. cbn [firstn sf_recent_trades json_dumps_rows].
    exact (Hnone "").
Qed.

(** X23. [self_analyze] never raises and never sends an order; when it
    returns None it has written nothing; and it returns None whenever
    the ticker has a trade of the last seven days, because the rows of
    [executed_trades] in the context do not go through [json.dumps]. *)
Theorem self_analyze_fails_to_none (env : SelfEnv) (ticker : string)
  (analysis_event_id : Z) (w : World) :
  let outcome := self_analyze env ticker analysis_event_id w in
  (exists r, fst outcome = Ok r)
  /\ orders (snd outcome) = orders w
  /\ (fst outcome = Ok None -> snd outcome = w)
  /\ (Ledger.recent_trades (ledger w) (Some ticker)
        (clock w - 7 * Ledger.ms_per_day) <> [] ->
      outcome = (Ok None, w)).
Proof.
  intros outcome. subst outcome.
  destruct (self_analyze env ticker analysis_event_id w) as [r w'] eqn:Hrun.
  cbn [fst snd].
  destruct (self_analyze_ends _ _ _ _ Hrun)
    as [[Hr Hw]|[proposal [Hr [Hw Hquiet]]]]; subst r w'.
  - split; [eexists; reflexivity|split; [reflexivity|split; reflexivity]].
  - split; [eexists; reflexivity|split; [reflexivity|split]].
    + discriminate.
    + intros Hbusy. contradiction.
Qed.

End Facts.

(** A run of X22: the timid BUY, confidence 50, is stored as a BUY. *)
Lemma self_analyze_applies_no_floor_witness :
  exists proposal,
    fst (self_analyze (RT := Demo.runtime) Demo.own_analysis "ACME" 1
           Demo.quiet_world)
    = Ok (Some proposal)
    /\ tp_action proposal = BUY
    /\ tp_confidence_score proposal = Some (inject_Z 50).
Proof.
  destruct (@self_analyze_applies_no_floor Demo.runtime Demo.own_analysis
              "ACME" 1
              [{| ar_title := "ACME beats estimates";
                  ar_content_text := Some "ACME reported ..." |}]
              (Some {| sn_price := inject_Z 150 |})
              Demo.timid_buy "BUY" 10 "one upbeat report" (inject_Z 50)
              Demo.quiet_world
              eq_refl eq_refl eq_refl eq_refl (fun _ => eq_refl) eq_refl
              (or_introl eq_refl) eq_refl eq_refl eq_refl)
    as [proposal [Hrun [Hside [_ [Hconfidence _]]]]];
    [discriminate|discriminate|reflexivity|].
  eexists. rewrite Hrun. cbn [fst].
  split; [reflexivity|split].
  - cbn [Ledger.set_tp_id tp_action].
    destruct (tp_action proposal); [reflexivity|discriminate|discriminate].
  - exact Hconfidence.
Defined.

End OwnProposal.

(** ** A closed market *)

Module ClosedMarket.
Import TradingGraph TradingSystem FinnhubClient.

Lemma not_open_is_falsy (status : result json) :
  not_open status -> truthy (is_market_open status) = false.
Proof.
  unfold not_open, is_market_open.
  destruct status as [[| | | | |kv]|e]; intros Hclosed;
    [reflexivity..|exact Hclosed|reflexivity].
Qed.

Section Facts.
Context {RT : Runtime}.

(** One pass on a closed market: the ledger is not even read. *)
Lemma closed_pass (env : EngineEnv) (k : nat) (w : World) :
  cy_market_open (en_cycle env k) = false ->
  loop_pass env k w
  = (Ok tt, with_clock (fun t => t + Z.of_N (en_interval_minutes env * 60000)) w).
Proof.
  intros Hclosed. unfold loop_pass, try_except, should_run_trading_cycle.
  rewrite Hclosed. reflexivity.
Qed.

(** X25. While the market status does not say open (the status call
    failed after its retries, the answer is not an object, or [isOpen]
    is missing or falsy) the engine does nothing but sleep: every pass
    skips the cycle without reading the ledger, so that not even a
    failing [has_traded_today] is noticed; the ledger and the broker are
    untouched, and every pass takes at least the interval (the time the
    status call and its retries take comes on top and is not counted
    here). *)
Theorem closed_market_changes_nothing (env : EngineEnv)
  (status : nat -> result json) (n : nat) :
  forall (k : nat) (w : World),
    (forall j, cy_market_open (en_cycle env j) = truthy (is_market_open (status j))) ->
    (forall j, (k <= j < k + n)%nat -> not_open (status j)) ->
    fst (run_passes env n k w) = Ok tt
    /\ ledger (snd (run_passes env n k w)) = ledger w
    /\ orders (snd (run_passes env n k w)) = orders w
    /\ clock w + Z.of_nat n * Z.of_N (en_interval_minutes env * 60000)
       <= clock (snd (run_passes env n k w)).
Proof.
  induction n as [|n IH]; intros k w Hstatus Hclosed.
  - simpl. repeat split. lia.
  - cbn [run_passes]. unfold bind.
    rewrite closed_pass.
    + specialize (IH (S k)
                    (with_clock
                       (fun t => t + Z.of_N (en_interval_minutes env * 60000)) w)
                    Hstatus).
      destruct IH as [Hok [Hledger [Horders Hclock]]].
      { intros j Hj. apply Hclosed. lia. }
      rewrite Hok, Hledger, Horders.
      cbn [ledger orders clock with_clock] in *.
      repeat split. lia.
    + rewrite Hstatus. apply not_open_is_falsy. apply Hclosed. lia.
Qed.

End Facts.

(** A run of X25: the status call fails on Monday afternoon; three
    hourly passes later nothing has been written. *)
Lemma closed_market_changes_nothing_witness :
  let unreachable :=
    {| en_stocks := ["ACME"]; en_interval_minutes := 60;
       en_cycle := fun _ =>
         {| cy_market_open := false; cy_has_traded := Some "connection refused";
            cy_ticker := fun _ => Demo.smooth_ticker |} |} in
  ledger (snd (run_passes (RT := Demo.runtime) unreachable 3 0 Demo.quiet_world))
  = Ledger.empty.
Proof.
  intros unreachable.
  refine (proj1 (proj2 (@closed_market_changes_nothing Demo.runtime unreachable
                          (fun _ => Raise "503 Service Unavailable") 3 0
                          Demo.quiet_world _ _))).
  - intros j. reflexivity.
  - intros j Hj. exact I.
Defined.

End ClosedMarket.

(** ** The audit trail *)

Module AuditTrail.
Import Trader DebateAgents PortfolioManager TradingGraph TradingSystem.

Lemma extended_refl {A : Type} (rows : list A) : extended rows rows.
Proof. exists []. now rewrite app_nil_r. Qed.

Lemma extended_trans {A : Type} (r1 r2 r3 : list A) :
  extended r1 r2 -> extended r2 r3 -> extended r1 r3.
Proof.
  intros [a Ha] [b Hb]. exists (a ++ b). now rewrite Hb, Ha, app_assoc.
Qed.

Lemma extended_app {A : Type} (rows added : list A) :
  extended rows (rows ++ added).
Proof. now exists added. Qed.

#[export] Instance audit_grows_pre : Pre audit_grows.
Proof.
  split.
  - intros w. unfold audit_grows. repeat split; apply extended_refl.
  - intros w1 w2 w3 [He [Hd [Hp [Ht Ho]]]] [He' [Hd' [Hp' [Ht' Ho']]]].
    unfold audit_grows.
    split; [|split; [|split; [|split]]]; eapply extended_trans; eassumption.
Qed.

(** An [UPDATE] of the status column shows in no other column. *)
Lemma set_status_unsettled i s (rows : list TradeProposal) :
  map unsettled
      (map (fun p => if Ledger.id_is (tp_id p) i
                     then Ledger.set_tp_status s p else p) rows)
  = map unsettled rows.
Proof.
  rewrite map_map. apply map_ext. intros p.
  destruct (Ledger.id_is (tp_id p) i); reflexivity.
Qed.

Lemma sleep_grows n : keeps audit_grows (sleep n).
Proof. intro w. unfold audit_grows. repeat split; apply extended_refl. Qed.

Lemma update_proposal_status_grows f i s :
  keeps audit_grows (update_proposal_status f i s).
Proof.
  intro w. unfold update_proposal_status, statement. destruct f; simpl.
  - apply pre_refl.
  - unfold audit_grows. cbn [ledger orders with_ledger Ledger.set_status
      Ledger.events Ledger.debates Ledger.proposals Ledger.trades].
    rewrite set_status_unsettled. repeat split; apply extended_refl.
Qed.

Lemma save_executed_trade_grows f x : keeps audit_grows (save_executed_trade f x).
Proof.
  intro w. unfold save_executed_trade. destruct f; simpl.
  - apply pre_refl.
  - unfold audit_grows. simpl.
    split; [|split; [|split; [|split]]];
      first [apply extended_refl | apply extended_app].
Qed.

Lemma save_analysis_event_grows f x : keeps audit_grows (save_analysis_event f x).
Proof.
  intro w. unfold save_analysis_event. destruct f; simpl.
  - apply pre_refl.
  - unfold audit_grows. simpl.
    split; [|split; [|split; [|split]]];
      first [apply extended_refl | apply extended_app].
Qed.

Lemma save_debate_grows f x : keeps audit_grows (save_debate f x).
Proof.
  intro w. unfold save_debate. destruct f; simpl.
  - apply pre_refl.
  - unfold audit_grows. simpl.
    split; [|split; [|split; [|split]]];
      first [apply extended_refl | apply extended_app].
Qed.

Lemma save_trade_proposal_grows f x : keeps audit_grows (save_trade_proposal f x).
Proof.
  intro w. unfold save_trade_proposal. destruct f; simpl.
  - apply pre_refl.
  - unfold audit_grows.
    cbn [ledger orders with_ledger Ledger.add_proposal
      Ledger.events Ledger.debates Ledger.proposals Ledger.trades].
    rewrite map_app.
    split; [|split; [|split; [|split]]];
      first [apply extended_refl | apply extended_app].
Qed.

Lemma submit_order_grows broker req : keeps audit_grows (submit_order broker req).
Proof.
  intro w. unfold submit_order, audit_grows. simpl.
  split; [|split; [|split; [|split]]];
    first [apply extended_refl | apply extended_app].
Qed.

(** Going through a stage: control structure, then the writes. *)
Ltac grows_using known :=
  repeat first
    [ known
    | apply sleep_grows | apply update_proposal_status_grows
    | apply save_executed_trade_grows | apply save_analysis_event_grows
    | apply save_debate_grows | apply save_trade_proposal_grows
    | apply submit_order_grows | apply get_recent_trades_same
    | apply has_traded_today_same
    | keeps_step ];
  try exact _.

Ltac grows := grows_using fail.

Section Facts.
Context {RT : Runtime}.

Lemma analyze_ticker_grows env ticker :
  keeps audit_grows (analyze_ticker env ticker).
Proof. unfold analyze_ticker, analyze_body. grows. Qed.

Lemma conduct_debate_grows env ticker id :
  keeps audit_grows (conduct_debate env ticker id).
Proof. unfold conduct_debate. grows. Qed.

Lemma review_proposal_grows env proposal :
  keeps audit_grows (review_proposal env proposal).
Proof.
  unfold review_proposal, review_body, buying_power_check, decide. grows.
Qed.

Lemma execute_trade_grows env proposal decision :
  keeps audit_grows (execute_trade env proposal decision).
Proof.
  unfold execute_trade, rebalance_block, main_trade, sell_to_rebalance.
  grows.
Qed.

Lemma node_step_grows env n state : keeps audit_grows (node_step env n state).
Proof.
  unfold node_step, _analyze_ticker, _conduct_debate,
    _create_proposal_from_debate, propose, _review_proposal, _execute_trade,
    guarded.
  destruct n;
    grows_using ltac:(first [ apply analyze_ticker_grows
                            | apply conduct_debate_grows
                            | apply review_proposal_grows
                            | apply execute_trade_grows ]).
Qed.

Lemma invoke_from_grows env limit : forall n state,
  keeps audit_grows (invoke_from limit env n state).
Proof.
  induction limit as [|limit IH]; intros n state; destruct n;
    cbn [invoke_from];
    try (apply keeps_ret; exact _); try (apply keeps_raise; exact _);
    (apply keeps_bind; [exact _|apply node_step_grows|intros next; apply IH]).
Qed.

Lemma process_ticker_grows env ticker :
  keeps audit_grows (process_ticker env ticker).
Proof.
  unfold process_ticker, run. grows_using ltac:(apply invoke_from_grows).
Qed.

Lemma run_cycle_grows env cycle : keeps audit_grows (run_cycle env cycle).
Proof.
  unfold run_cycle, update_stock_data.
  apply keeps_bind; [exact _|apply keeps_ret; exact _|intros _].
  induction (en_stocks env) as [|ticker rest IH]; simpl;
    grows_using ltac:(first [apply process_ticker_grows | apply IH]).
Qed.

Lemma should_run_trading_cycle_grows cycle :
  keeps audit_grows (should_run_trading_cycle cycle).
Proof. unfold should_run_trading_cycle. grows. Qed.

Lemma loop_pass_grows env k : keeps audit_grows (loop_pass env k).
Proof.
  unfold loop_pass.
  grows_using ltac:(first [ apply run_cycle_grows
                          | apply should_run_trading_cycle_grows ]).
Qed.

Lemma run_passes_grows env n : forall k, keeps audit_grows (run_passes env n k).
Proof.
  induction n as [|n IH]; intros k; simpl.
  - apply keeps_ret; exact _.
  - apply keeps_bind; [exact _|apply loop_pass_grows|intros _; apply IH].
Qed.

Lemma engine_step_grows env phase w :
  audit_grows w (snd (engine_step env phase w)).
Proof.
  unfold engine_step.
  destruct phase as [k|k [|ticker todo]|k todo n state].
  - pose proof (should_run_trading_cycle_grows (en_cycle env k) w) as Hcheck.
    destruct (should_run_trading_cycle (en_cycle env k) w) as [[[|]|e] w'];
      cbn [fst snd] in *.
    + exact Hcheck.
    + eapply pre_trans; [exact Hcheck|apply sleep_grows].
    + eapply pre_trans; [exact Hcheck|apply sleep_grows].
  - cbn [fst snd]. apply sleep_grows.
  - cbn [fst snd]. apply pre_refl.
  - assert (Hstep : forall n',
              audit_grows w
                (snd (match node_step (cy_ticker (en_cycle env k) (ts_ticker state))
                              n' state w with
                      | (Ok next, w') => (Inside k todo (fst next) (snd next), w')
                      | (Raise e, w') => (Between k todo, snd (sleep 5000 w'))
                      end))).
    { intros n'.
      pose proof (node_step_grows (cy_ticker (en_cycle env k) (ts_ticker state))
                    n' state w) as Hnode.
      destruct (node_step _ n' state w) as [[next|e] w']; cbn [fst snd] in *.
      - exact Hnode.
      - eapply pre_trans; [exact Hnode|apply sleep_grows]. }
    destruct n; try apply Hstep.
    cbn [fst snd]. apply sleep_grows.
Qed.

(** X26. The audit trail only grows. Whatever the collaborators answer
    and whichever calls fail, over any number of passes of the loop, and
    at every node boundary in between, the rows of [analysis_events],
    [debates], [trade_proposals] and [executed_trades] found at the start
    are still there, in their place and unchanged but for the status
    column of a proposal; new rows come after them; and every order sent
    to the broker before is still on record, followed by the new ones. *)
Theorem audit_trail_only_grows (env : EngineEnv) :
  (forall n k w, audit_grows w (snd (run_passes env n k w)))
  /\ (forall n phase w, audit_grows w (snd (engine_steps env n phase w))).
Proof.
  split.
  - intros n k w. apply run_passes_grows.
  - induction n as [|n IH]; intros phase w; simpl.
    + apply pre_refl.
    + pose proof (engine_step_grows env phase w) as Hstep.
      destruct (engine_step env phase w) as [phase' w']. simpl in Hstep.
      eapply pre_trans; [exact Hstep|apply IH].
Qed.

End Facts.
End AuditTrail.

(** ** The record of an executed trade *)

Module Bookkeeping.
Import PortfolioManager TradingGraph TradingSystem.

(** After the [UPDATE], the first row with the id carries the new status. *)
Lemma status_after_update (i : option Z) (s : Status) (l : Ledger.t) :
  forall s', Ledger.status_of (Ledger.set_status i s l) i = Some s' -> s' = s.
Proof.
  unfold Ledger.status_of, Ledger.set_status. cbn [Ledger.proposals].
  induction (Ledger.proposals l) as [|p rows IH]; intros s'; simpl.
  - discriminate.
  - destruct (Ledger.id_is (tp_id p) i) eqn:Hid; simpl.
    + rewrite Hid. simpl. congruence.
    + rewrite Hid. apply IH.
Qed.

Section Facts.
Context {RT : Runtime}.

(** A trade that [execute_trade] returns comes out of the main order. *)
Lemma returned_trade_from_main (env : ExecEnv) (proposal : TradeProposal)
  (decision : dict) (w w' : World) (x : ExecutedTrade) :
  execute_trade env proposal decision w = (Ok (Some x), w') ->
  exists w2, main_trade env proposal decision w2 = (Ok (Some x), w').
Proof.
  unfold execute_trade. unfold bind at 1. unfold sleep at 1.
  destruct (negb (get_is decision "decision" "APPROVE")).
  - unfold bind, update_proposal_status, statement, ret.
    destruct (ex_ledger env AtNotApproved); discriminate.
  - unfold try_except. unfold bind at 1.
    destruct (rebalance_block env proposal decision _) as [[[|]|e] w2].
    + destruct (main_trade env proposal decision w2) as [[r|e] w3] eqn:Hmain.
      * intros Heq. inversion Heq; subst. exists w2. exact Hmain.
      * unfold bind, update_proposal_status, statement, ret.
        destruct (ex_ledger env AtHandler); discriminate.
    + discriminate.
    + unfold bind, update_proposal_status, statement, ret.
      destruct (ex_ledger env AtHandler); discriminate.
Qed.

(** X27. The record of an executed trade. When [execute_trade] returns a
    trade, the broker acknowledged the main order, which is the last one
    sent, and reported a price; the trade carries the proposal's id,
    ticker and action (never HOLD), the order's id, the ordered quantity
    as an integer and the status FILLED whatever the broker said of the
    order; its price is the reported one, or the proposed price when the
    broker reported zero; it is the newest row of [executed_trades],
    under the id returned, stamped with the time of the INSERT; and the
    proposal's row, if there is one, reads EXECUTED. *)
Theorem recorded_trade_matches_the_order (env : ExecEnv)
  (proposal : TradeProposal) (decision : dict) (w w' : World)
  (x : ExecutedTrade) :
  execute_trade env proposal decision w = (Ok (Some x), w') ->
  exists order fill sent rows,
    ex_broker env (main_request proposal decision) = Ok order
    /\ orders w' = sent ++ [main_request proposal decision]
    /\ od_price order = Some fill
    /\ et_trade_proposal_id x = tp_id proposal
    /\ et_ticker x = tp_ticker proposal
    /\ et_action x = tp_action proposal
    /\ tp_action proposal <> HOLD
    /\ validate_int (order_quantity proposal decision) = Ok (et_quantity x)
    /\ et_alpaca_order_id x = od_id order
    /\ et_status x = FILLED
    /\ (Qeq_bool fill 0 = false -> et_execution_price x = fill)
    /\ (Qeq_bool fill 0 = true ->
        forall proposed, tp_proposed_price proposal = Some proposed ->
                         Qeq_bool proposed 0 = false ->
                         et_execution_price x = proposed)
    /\ et_id x = Some (Ledger.next_id rows)
    /\ Ledger.trades (ledger w')
       = rows ++ [Ledger.stamp_trade (Ledger.next_id rows) (clock w') x]
    /\ forall s, Ledger.status_of (ledger w') (tp_id proposal) = Some s ->
                 s = EXECUTED.
Proof.
  intros Hrun.
  destruct (@returned_trade_from_main _ _ _ _ _ _ Hrun) as [w2 Hmain].
  clear Hrun. revert Hmain.
  cbv beta delta [main_trade bind lift ret update_proposal_status statement
                    submit_order save_executed_trade].
  destruct (ex_broker env (main_request proposal decision)) as [order|e];
    simpl; [|discriminate].
  destruct (execution_price_of proposal order) as [price|e] eqn:Hprice;
    simpl; [|discriminate].
  destruct (make_executed_trade proposal (order_quantity proposal decision)
              price order decision) as [trade|e] eqn:Hmake;
    simpl; [|discriminate].
  destruct (ex_ledger env AtSaveTrade); simpl; [discriminate|].
  destruct (ex_ledger env AtExecuted); simpl; [discriminate|].
  intros Hrun. inversion Hrun; subst x w'. clear Hrun.
  revert Hprice. unfold execution_price_of.
  destruct (od_price order) as [fill|] eqn:Hfill; simpl; [|discriminate].
  intros Hprice.
  revert Hmake. unfold make_executed_trade.
  destruct (validate_int (order_quantity proposal decision)) as [qty|e] eqn:Hqty;
    [|destruct (tp_action proposal); discriminate].
  destruct (validate_opt_str (dict_get decision "reasoning")) as [reasoning|e];
    [|destruct (tp_action proposal); discriminate].
  intros Hmake.
  assert (Hnot : tp_action proposal <> HOLD).
  { intros Hhold. rewrite Hhold in Hmake. discriminate. }
  assert (Htrade :
            trade = {| et_id := None; et_trade_proposal_id := tp_id proposal;
                       et_ticker := tp_ticker proposal;
                       et_action := tp_action proposal;
                       et_quantity := qty; et_execution_price := price;
                       et_alpaca_order_id := od_id order;
                       et_portfolio_manager_reasoning := reasoning;
                       et_executed_at := None; et_status := FILLED |}).
  { destruct (tp_action proposal); simpl in Hmake;
      [inversion Hmake; reflexivity..|contradiction Hnot; reflexivity]. }
  subst trade. clear Hmake.
  exists order, fill, (orders w2), (Ledger.trades (ledger w2)).
  cbn [set_et_id et_id et_trade_proposal_id et_ticker et_action et_quantity
       et_execution_price et_alpaca_order_id et_status et_executed_at
       et_portfolio_manager_reasoning
       ledger orders clock with_ledger with_orders
       Ledger.trades Ledger.add_trade Ledger.set_status Ledger.stamp_trade].
  repeat match goal with |- _ /\ _ => split end;
    try reflexivity; try assumption.
  - intros Hnonzero. destruct (tp_proposed_price proposal) as [pp|];
      rewrite ?Hnonzero in Hprice; simpl in Hprice; congruence.
  - intros Hzero proposed Hproposed Hpp.
    rewrite Hproposed, Hzero, Hpp in Hprice. simpl in Hprice. congruence.
  - intros s. apply status_after_update.
Qed.

End Facts.

(** A run of X27: the smooth execution of ACME, ten shares filled at 150,
    stored as the first trade. *)
Lemma recorded_trade_matches_the_order_witness :
  exists x w',
    execute_trade (RT := Demo.runtime) Demo.smooth_execution
      (Demo.acme_proposal (inject_Z 85)) Demo.approve
      (Demo.world_with (Demo.acme_proposal (inject_Z 85))) = (Ok (Some x), w')
    /\ et_quantity x = 10
    /\ et_status x = FILLED
    /\ Ledger.status_of (ledger w') (Some 1) = Some EXECUTED.
Proof.
  destruct (execute_trade (RT := Demo.runtime) Demo.smooth_execution
              (Demo.acme_proposal (inject_Z 85)) Demo.approve
              (Demo.world_with (Demo.acme_proposal (inject_Z 85))))
    as [[[x|]|e] w'] eqn:Hrun;
    [|vm_compute in Hrun; discriminate|vm_compute in Hrun; discriminate].
  exists x, w'.
  destruct (@recorded_trade_matches_the_order Demo.runtime _ _ _ _ _ _ Hrun)
    as [order [fill [sent [rows
         [_ [_ [_ [_ [_ [_ [_ [Hqty [_ [Hstatus [_ [_ [_ [_ Hrow]]]]]]]]]]]]]]]]]].
  split; [reflexivity|]. split; [|split; [exact Hstatus|]].
  - assert (Hten : validate_int (RT := Demo.runtime)
                     (order_quantity (Demo.acme_proposal (inject_Z 85))
                        Demo.approve) = Ok 10) by reflexivity.
    rewrite Hten in Hqty. inversion Hqty. reflexivity.
  - vm_compute in Hrun. inversion Hrun. reflexivity.
Defined.

End Bookkeeping.

(** ** Cleaned articles *)

Module Cleaning.
Import NewsCleaning.

(** Where a usable article of the [try] block of [clean_article] comes
    from. *)
Lemma clean_body_usable (env : CleanEnv) (raw_html : string)
  (raw_article_id : Z) (cleaned : ArticleCleaned) :
  clean_body env raw_html raw_article_id = Ok cleaned ->
  art_is_usable cleaned = true ->
  exists kv,
    cn_chat env (user_prompt raw_html None) = Ok (Encodes (JObj kv))
    /\ validate_bool env (dict_get_default kv "is_usable" (JBool false))
       = Ok (art_is_usable cleaned)
    /\ dict_get_default kv "title" (JStr "Unknown") = JStr (art_title cleaned)
    /\ dict_get_default kv "content_text" (JStr "")
       = JStr (art_content_text cleaned)
    /\ art_llm_response cleaned = Some kv.
Proof.
  unfold clean_body, extract_article_json.
  destruct (cn_chat env (user_prompt raw_html None)) as [[e|j]|e];
    simpl; try discriminate.
  { intros Hcleaned. inversion Hcleaned; subst cleaned. discriminate. }
  destruct j as [| | | | |kv]; simpl; try discriminate.
  destruct (dict_get_default kv "title" (JStr "Unknown")) as [| | |title| |]
    eqn:Htitle; simpl; try discriminate.
  destruct (PortfolioManager.validate_opt_str (dict_get kv "ticker"));
    simpl; try discriminate.
  destruct (dict_get_default kv "content_text" (JStr "")) as [| | |content| |]
    eqn:Hcontent; simpl; try discriminate.
  destruct (validate_bool env (dict_get_default kv "is_usable" (JBool false)))
    as [usable|e] eqn:Hvalid; simpl; try discriminate.
  destruct (PortfolioManager.validate_opt_str (dict_get kv "reason"));
    simpl; try discriminate.
  intros Hcleaned _. inversion Hcleaned; subst cleaned. clear Hcleaned.
  exists kv. simpl. rewrite Htitle, Hcontent.
  repeat match goal with |- _ /\ _ => split end; try reflexivity.
  exact Hvalid.
Qed.

(** X28. An article is usable only on the oracle's word. When
    [clean_article] marks an article usable, the extraction call
    returned, its reply parsed to an object, that object has an
    [is_usable] entry other than [false] which validates to [True], and
    its title and text are strings, kept as they are together with the
    whole object. A failing call, an unparsable reply, a reply that is no
    object, a missing entry or a field of the wrong type all end in an
    unusable article. *)
Theorem usable_only_on_the_oracles_word (env : CleanEnv) (raw_html : string)
  (raw_article_id : Z) :
  art_is_usable (clean_article env raw_html raw_article_id) = true ->
  exists kv verdict,
    cn_chat env (user_prompt raw_html None) = Ok (Encodes (JObj kv))
    /\ dict_get kv "is_usable" = Some verdict
    /\ verdict <> JBool false
    /\ validate_bool env verdict = Ok true
    /\ dict_get_default kv "title" (JStr "Unknown")
       = JStr (art_title (clean_article env raw_html raw_article_id))
    /\ dict_get_default kv "content_text" (JStr "")
       = JStr (art_content_text (clean_article env raw_html raw_article_id))
    /\ art_llm_response (clean_article env raw_html raw_article_id) = Some kv.
Proof.
  unfold clean_article.
  destruct (clean_body env raw_html raw_article_id) as [cleaned|e] eqn:Hbody;
    [|discriminate].
  intros Husable.
  destruct (clean_body_usable _ _ _ Hbody Husable)
    as [kv [Hchat [Hvalid [Htitle [Hcontent Hkept]]]]].
  rewrite Husable in Hvalid. unfold dict_get_default in Hvalid at 1.
  destruct (dict_get kv "is_usable") as [verdict|] eqn:Hverdict;
    [|discriminate].
  exists kv, verdict.
  repeat match goal with |- _ /\ _ => split end; try assumption; try reflexivity.
  intros Hfalse. rewrite Hfalse in Hvalid. discriminate.
Qed.

(** X29. What a failed cleaning leaves. If the extraction call raises,
    [clean_article] returns the article titled [Error], unusable, with
    the failure in its reason and no model name; if its reply parses to
    something that is no object, the same article with the
    AttributeError of the first [get] as the failure, which names the
    type of the reply (list, str, bool, NoneType, int or float); if the
    reply does not parse it returns an article titled [Unknown],
    unusable, with the reason [Failed to parse LLM response], under the
    model's name and with the stand-in dictionary as the response. *)
Theorem failed_cleaning_is_labelled (env : CleanEnv) (raw_html : string)
  (raw_article_id : Z) :
  (forall e, cn_chat env (user_prompt raw_html None) = Raise e ->
             clean_article env raw_html raw_article_id
             = failed env raw_article_id e)
  /\ (forall j, cn_chat env (user_prompt raw_html None) = Ok (Encodes j) ->
                (forall kv, j <> JObj kv) ->
                clean_article env raw_html raw_article_id
                = failed env raw_article_id
                    match j with
                    | JArr _ => "'list' object has no attribute 'get'"
                    | JStr _ => "'str' object has no attribute 'get'"
                    | JBool _ => "'bool' object has no attribute 'get'"
                    | JNull => "'NoneType' object has no attribute 'get'"
                    | JNum q =>
                        if cn_float env q
                        then "'float' object has no attribute 'get'"
                        else "'int' object has no attribute 'get'"
                    | JObj _ => "'dict' object has no attribute 'get'"
                    end)
  /\ (forall e, cn_chat env (user_prompt raw_html None) = Ok (Malformed e) ->
                clean_article env raw_html raw_article_id
                = {| art_raw_article_id := Some raw_article_id;
                     art_title := "Unknown"; art_ticker := None;
                     art_content_text := ""; art_is_usable := false;
                     art_reason := Some "Failed to parse LLM response";
                     art_timestamp := Some (cn_now env);
                     art_llm_model := Some (cn_chat_model env);
                     art_llm_response := Some unparsed |}).
Proof.
  unfold clean_article, clean_body, extract_article_json.
  split; [|split].
  - intros e Hchat. rewrite Hchat. reflexivity.
  - intros j Hchat Hshape. rewrite Hchat. simpl.
    destruct j as [| |q| | |kv]; try reflexivity.
    + simpl. destruct (cn_float env q); reflexivity.
    + contradiction (Hshape kv). reflexivity.
  - intros e Hchat. rewrite Hchat. reflexivity.
Qed.

(** A run of X28: the oracle finds the ACME article usable. *)
Lemma usable_only_on_the_oracles_word_witness :
  exists kv,
    art_llm_response (clean_article Demo.cleaner "<html>ACME ...</html>" 7)
    = Some kv
    /\ dict_get kv "is_usable" = Some (JBool true).
Proof.
  destruct (@usable_only_on_the_oracles_word Demo.cleaner
              "<html>ACME ...</html>" 7 eq_refl)
    as [kv [verdict [Hchat [Hverdict [_ [Hvalid [_ [_ Hkept]]]]]]]].
  exists kv. split; [exact Hkept|].
  inversion Hchat; subst kv. reflexivity.
Defined.

End Cleaning.

(** ** From the calls of the execution stage to the wire *)

Module Posts.
Import Str Tenacity AlpacaClient PortfolioManager OrderFlow Broker.

(** The requests the client posts while it serves one call of the
    execution stage, a market order, when the REST API answers [rest]. *)
Lemma market_call_posts (rest : nat -> RestOrder -> result Entity)
  (symbol qty : json) (side : string) :
  let '(outcome, s, made) :=
    AlpacaClient.submit_order rest symbol qty side "market" None in
  (1 <= made <= 5)%nat
  /\ posted s
     = repeat {| ro_symbol := symbol; ro_qty := qty;
                 ro_side := order_side side; ro_type := "market";
                 ro_limit_price := None; ro_time_in_force := "day" |} made.
Proof.
  unfold AlpacaClient.submit_order, retrying.
  pose proof (market_attempts rest symbol qty side 4 1 quiet) as Hrun.
  cbn [Nat.sub] in *.
  destruct (attempts_from _ _ _ _ 4 1 quiet) as [[outcome s] made].
  destruct Hrun as [Hmade [Hposted _]].
  split; [lia|].
  rewrite Hposted, Nat.sub_0_r. reflexivity.
Qed.

Section Facts.
Context {RT : Runtime}.

(** X6. Whatever the collaborators answer, one [execute_trade] calls the
    broker client at most twice, and only for these: the main order of
    the proposal, and before it at most one sell of the position the
    decision names for rebalancing, in the quantity the decision gives,
    and for a BUY proposal only. Each call is a market order, which the
    client posts once per attempt, one to five times, with the symbol
    and the quantity of the call: at most ten requests reach the REST
    API, and none when no call is made. *)
Theorem execute_trade_orders (env : ExecEnv) (proposal : TradeProposal)
  (decision : dict) (w : World) :
  exists sent,
    orders (snd (execute_trade env proposal decision w)) = orders w ++ sent
    /\ (sent = []
        \/ sent = [main_request proposal decision]
        \/ exists sell,
             rebalancing_sell proposal decision sell
             /\ (sent = [sell]
                 \/ sent = [sell; main_request proposal decision]))
    /\ forall rest : OrderRequest -> nat -> RestOrder -> result Entity,
         let posts_of call :=
           posted
             (snd (fst (AlpacaClient.submit_order (rest call) (or_symbol call)
                          (or_qty call) (or_side call) "market" None))) in
         (forall call,
             In call sent ->
             exists made,
               (1 <= made <= 5)%nat
               /\ posts_of call
                  = repeat {| ro_symbol := or_symbol call;
                              ro_qty := or_qty call;
                              ro_side :=
                                if String.eqb (upper (or_side call)) "BUY"
                                then "buy" else "sell";
                              ro_type := "market"; ro_limit_price := None;
                              ro_time_in_force := "day" |} made)
         /\ (List.length sent
             <= List.length (flat_map posts_of sent)
             <= 5 * List.length sent)%nat
         /\ (List.length (flat_map posts_of sent) <= 10)%nat.
Proof.
  destruct (execute_trade_calls env proposal decision w)
    as [sent [Horders Hshape]].
  exists sent. split; [exact Horders|]. split; [exact Hshape|].
  intros rest posts_of.
  assert (Hcall : forall call,
             exists made,
               (1 <= made <= 5)%nat
               /\ posts_of call
                  = repeat {| ro_symbol := or_symbol call;
                              ro_qty := or_qty call;
                              ro_side :=
                                if String.eqb (upper (or_side call)) "BUY"
                                then "buy" else "sell";
                              ro_type := "market"; ro_limit_price := None;
                              ro_time_in_force := "day" |} made).
  { intros call. subst posts_of. cbv beta.
    pose proof (market_call_posts (rest call) (or_symbol call) (or_qty call)
                  (or_side call)) as Hposts.
    destruct (AlpacaClient.submit_order (rest call) (or_symbol call)
                (or_qty call) (or_side call) "market" None)
      as [[outcome s] made].
    destruct Hposts as [Hmade Hposted].
    exists made. split; [exact Hmade|exact Hposted]. }
  assert (Hcount : forall calls,
             (List.length calls
              <= List.length (flat_map posts_of calls)
              <= 5 * List.length calls)%nat).
  { induction calls as [|call calls IH]; [simpl; lia|].
    cbn [flat_map List.length]. rewrite length_app.
    destruct (Hcall call) as [made [Hmade Hposted]].
    rewrite Hposted, repeat_length. lia. }
  split; [intros call _; apply Hcall|]. split; [apply Hcount|].
  assert (Htwo : (List.length sent <= 2)%nat).
  { destruct Hshape as [->|[->|[sell [_ [->| ->]]]]]; simpl; lia. }
  pose proof (Hcount sent). lia.
Qed.

End Facts.
End Posts.
